(** * FunEdu: in-memory storage and fundraising statistics

    A shallow embedding of the storage class [MemStorage] (storage module,
    [src/unnamed/part_000]) and of the student-dashboard route of
    [registerRoutes] (routes module, second half of [src/db.ts]), with the
    properties of the statistics they compute.

    Modelling conventions.
    - In the storage class and the routes a JavaScript [number] is an exact
      rational ([Q]): rounding of doubles, overflow, [NaN] and the infinities
      are outside that model, and equality of computed numbers is [Qeq].
      What depends on the rounding (the school total against the student
      totals, the goal progress of the ranking) is stated over
      [Module Double], where the statistics are computed on IEEE 754
      doubles.  Ids and counters are integers ([Z]); array lengths are
      [nat].
    - [Map<number, V>] is an association list in insertion order, because
      [Map.prototype.values()] enumerates in insertion order and the ranking
      breaks ties by that order.
    - A plain object used as a dictionary keeps its own properties in
      creation order and inherits the members of [Object.prototype].
    - The methods of [MemStorage] read and write [this]; they are functions
      in a state monad over the record of the ten fields of the class.  An
      [await] is a bind.  Each method runs without interleaving, and so
      does a route handler, except where it awaits the key derivation of a
      password: the registrations are also modelled in two turns of the
      event loop, with other requests in between ([take_turn]).  The arrays
      the methods sort are fresh ([Array.from], [Promise.all]) and their
      elements are copies ([{...student, ...}]), so no value of the store is
      shared with a result.
    - [new Date()] is an extra argument (milliseconds since the epoch).
    - The table declarations ([@shared/schema]) are not part of the sources.
      Records list the fields the code reads or writes.  The stored type of a
      donation amount and the coercion [Number] applied to it are parameters
      of the development ([Number] yields a rational in the exact model
      and any double in [Module Double]); a personal goal
      is a number or [null], as registration stores it; an event is an
      object with string keys, because its columns are only known through
      the spread expressions. *)

From Stdlib Require Import ZArith QArith Qround Qminmax Qabs List Ascii String.
From Stdlib Require Import Sorted Permutation Lia Lqa.
From Stdlib Require Import Floats.SpecFloat.
From Stdlib.Strings Require Import Byte.
From stdpp Require Import gmap strings.
Import ListNotations.

(** ** JavaScript values used by the code *)

Abbreviation number := Q (only parsing).
Abbreviation Date := Z (only parsing).

(** Truthiness of a number: [0] is falsy (so is [NaN], not modelled). *)
Definition truthy (x : number) : bool := negb (Qeq_bool x 0).

(** [Math.round]: nearest integer, halves towards plus infinity. *)
Definition Math_round (x : number) : number := inject_Z (Qfloor (x + (1 # 2))).

Definition Math_min (x y : number) : number := Qmin x y.

(** [Math.max(...xs)] on a non-empty argument list [x :: xs]. *)
Definition Math_max (x : number) (xs : list number) : number :=
  fold_left Qmax xs x.

(** [Math.floor] *)
Definition Math_floor (x : number) : Z := Qfloor x.

(** [xs.includes(k)] on an array of numbers. *)
Definition Array_includes (xs : list Z) (k : Z) : bool :=
  existsb (Z.eqb k) xs.

(** [xs.slice(0, e)]: a negative [e] counts from the end of the array. *)
Definition Array_slice0 {A : Type} (xs : list A) (e : Z) : list A :=
  let len := Z.of_nat (length xs) in
  let final := if (e <? 0)%Z then Z.max (len + e) 0 else Z.min e len in
  firstn (Z.to_nat final) xs.

(** [xs.sort(cmp)]: the sort of ECMAScript is stable; [cmp a b > 0] means
    that [a] comes after [b].  Insertion from the right keeps an element in
    front of the later elements it ties with. *)
Fixpoint sort_insert {A : Type} (cmp : A -> A -> number) (x : A) (l : list A)
  : list A :=
  match l with
  | [] => [x]
  | y :: r =>
      if Qlt_le_dec 0 (cmp x y) then y :: sort_insert cmp x r
      else x :: y :: r
  end.

Definition Array_sort {A : Type} (cmp : A -> A -> number) (l : list A)
  : list A :=
  fold_right (sort_insert cmp) [] l.

(** A value held in a field of an object. *)
Inductive jsval : Type :=
| JUndefined
| JNull
| JBool (b : bool)
| JNumber (x : number)
| JString (s : string)
| JDate (t : Date).

(** [v === n] for a field [v] (absent fields read as [undefined]). *)
Definition strict_eq_number (v : option jsval) (n : Z) : bool :=
  match v with
  | Some (JNumber x) => Qeq_bool x (inject_Z n)
  | _ => false
  end.

(** ** [Map<number, V>] with insertion order *)

Module JsMap.
Section Defs.
Context {V : Type}.

Definition t := list (Z * V).

Definition empty : t := [].

Fixpoint get (k : Z) (m : t) : option V :=
    match m with
    | [] => None
    | (k', v) :: r => if (k' =? k)%Z then Some v else get k r
    end.

  (** [set] on a present key keeps the position of the entry;
      on an absent key it appends. *)
Fixpoint set (k : Z) (v : V) (m : t) : t :=
    match m with
    | [] => [(k, v)]
    | (k', v') :: r =>
        if (k' =? k)%Z then (k, v) :: r else (k', v') :: set k v r
    end.

Fixpoint delete (k : Z) (m : t) : t :=
    match m with
    | [] => []
    | (k', v') :: r => if (k' =? k)%Z then r else (k', v') :: delete k r
    end.

Definition has (k : Z) (m : t) : bool :=
    match get k m with Some _ => true | None => false end.

Definition keys (m : t) : list Z := map fst m.

Definition values (m : t) : list V := map snd m.
End Defs.
Arguments t : clear implicits.
End JsMap.

(** ** Plain objects used as dictionaries ([Record<string, V>])

    An object created by [{}] has own properties, kept in creation order,
    and inherits the members of [Object.prototype]. *)

Module JsObject.

(** The property names every plain object inherits. *)
Definition prototype_names : list string :=
  [ "constructor"; "__defineGetter__"; "__defineSetter__"; "hasOwnProperty";
    "__lookupGetter__"; "__lookupSetter__"; "isPrototypeOf";
    "propertyIsEnumerable"; "toString"; "valueOf"; "__proto__";
    "toLocaleString" ]%string.

Definition inherited (k : string) : bool :=
  existsb (String.eqb k) prototype_names.

Inductive property (V : Type) : Type :=
| Own (v : V)
| Inherited
| Missing.
Arguments Own {V}.
Arguments Inherited {V}.
Arguments Missing {V}.

Section Defs.
Context {V : Type}.

Definition t := list (string * V).

Definition empty : t := [].

Fixpoint get_own (k : string) (o : t) : option V :=
  match o with
  | [] => None
  | (k', v) :: r => if String.eqb k' k then Some v else get_own k r
  end.

(** [o[k]]: an own property, else a member of the prototype, else
    [undefined]. *)
Definition get (k : string) (o : t) : property V :=
  match get_own k o with
  | Some v => Own v
  | None => if inherited k then Inherited else Missing
  end.

(** [o[k] = v] for a key that is not an accessor of the prototype: writes
    an own property, in place when it exists. *)
Fixpoint set (k : string) (v : V) (o : t) : t :=
  match o with
  | [] => [(k, v)]
  | (k', v') :: r =>
      if String.eqb k' k then (k, v) :: r else (k', v') :: set k v r
  end.

Definition digit (c : ascii) : option N :=
  let n := N_of_ascii c in
  if ((48 <=? n) && (n <=? 57))%N then Some (n - 48)%N else None.

Fixpoint digits (s : string) (acc : N) : option N :=
  match s with
  | EmptyString => Some acc
  | String c r =>
      match digit c with
      | Some d => digits r (10 * acc + d)%N
      | None => None
      end
  end.

(** An array index is the canonical decimal spelling of an integer below
    [2^32 - 1]: no sign, no leading zero. *)
Definition array_index (k : string) : option N :=
  match k with
  | EmptyString => None
  | String c r =>
      if (Ascii.eqb c "0" && negb (String.eqb r ""))%bool then None
      else match digits k 0 with
           | Some n => if (n <? 4294967295)%N then Some n else None
           | None => None
           end
  end.

Definition index_entries (o : t) : list (N * (string * V)) :=
  flat_map
    (fun kv => match array_index (fst kv) with
               | Some n => [(n, kv)]
               | None => []
               end) o.

Definition named_entries (o : t) : list (string * V) :=
  List.filter
    (fun kv => match array_index (fst kv) with
               | Some _ => false
               | None => true
               end) o.

(** The own properties in enumeration order: array indices ascending, then
    the other keys in creation order. *)
Definition entries (o : t) : list (string * V) :=
  map snd
    (Array_sort
       (fun a b => (inject_Z (Z.of_N (fst a)) - inject_Z (Z.of_N (fst b)))%Q)
       (index_entries o))
  ++ named_entries o.

(** [Object.keys(o)] *)
Definition keys (o : t) : list string := map fst (entries o).

End Defs.
Arguments t : clear implicits.
End JsObject.

(** ** Entities *)

Module User.
Record t := mk {
    id : Z; username : string; email : string; password : string;
    role : string; createdAt : Date }.
End User.

Module InsertUser.
Record t := mk {
    username : string; email : string; password : string; role : string }.
End InsertUser.

Module School.
Record t := mk {
    id : Z; userId : Z; name : string; adminName : string; address : string;
    phone : string; fundraisingGoal : number; createdAt : Date }.
End School.

Module InsertSchool.
Record t := mk {
    userId : Z; name : string; adminName : string; address : string;
    phone : string; fundraisingGoal : number }.
End InsertSchool.

(** [personalGoal] is a number or [null] (registration stores
    [personalGoal ? Number(personalGoal) : null]). *)
Module Student.
Record t := mk {
    id : Z; userId : Z; schoolId : Z; firstName : string; lastName : string;
    grade : string; personalGoal : option number; createdAt : Date }.
End Student.

Module InsertStudent.
Record t := mk {
    userId : Z; schoolId : Z; firstName : string; lastName : string;
    grade : string; personalGoal : option number }.
End InsertStudent.

Module Donation.
Record t {Amount : Type} := mk {
    id : Z; studentId : Z; amount : Amount; createdAt : Date }.
Arguments t : clear implicits.
Arguments mk {Amount}.
End Donation.

Module InsertDonation.
Record t {Amount : Type} := mk { studentId : Z; amount : Amount }.
Arguments t : clear implicits.
Arguments mk {Amount}.
End InsertDonation.

(** An event and the payloads of [createEvent] ([InsertEvent]) and
    [updateEvent] ([Partial<InsertEvent>]) are objects: finite maps from
    field names to values. *)
Abbreviation Event := (gmap string jsval).

(** ** Results of the aggregation methods *)

Module SchoolStats.
Record t := mk {
    totalRaised : number; totalDonations : nat; activeStudents : nat }.
End SchoolStats.

Module StudentStats.
Record t := mk {
    totalRaised : number; totalDonations : nat;
    largestDonation : number; averageDonation : number }.
End StudentStats.

(** A value of [gradeGroups] and an element of [classRankings] in the
    student dashboard. *)
Module GradeGroup.
Record t := mk { totalRaised : number; count : number }.
End GradeGroup.

Module ClassRanking.
Record t := mk { grade : string; totalRaised : number; percentage : number }.
End ClassRanking.

(** [if (!gradeGroups[grade]) gradeGroups[grade] = { totalRaised: 0,
    count: 0 }].  When [grade] names a member of [Object.prototype],
    [gradeGroups[grade]] is that member: it is truthy and no group is
    created. *)
Definition ensure_group (gradeGroups : JsObject.t GradeGroup.t)
  (grade : string) : JsObject.t GradeGroup.t :=
  match JsObject.get grade gradeGroups with
  | JsObject.Missing => JsObject.set grade (GradeGroup.mk 0%Q 0%Q) gradeGroups
  | _ => gradeGroups
  end.

(** [gradeGroups[grade].totalRaised += x; gradeGroups[grade].count += 1].
    On a member of the prototype both assignments write to that member, so
    the own properties of [gradeGroups] stay as they are.  After
    [ensure_group] the property is never missing. *)
Definition accumulate (gradeGroups : JsObject.t GradeGroup.t)
  (grade : string) (x : number) : JsObject.t GradeGroup.t :=
  match JsObject.get grade gradeGroups with
  | JsObject.Own g =>
      JsObject.set grade
        (GradeGroup.mk (GradeGroup.totalRaised g + x) (GradeGroup.count g + 1))%Q
        gradeGroups
  | _ => gradeGroups
  end.

(** What one turn of the loop over [schoolStudents] does to [gradeGroups]
    for a student of grade [grade] who raised [x]. *)
Definition add_to_group (gradeGroups : JsObject.t GradeGroup.t)
  (grade : string) (x : number) : JsObject.t GradeGroup.t :=
  accumulate (ensure_group gradeGroups grade) grade x.

(** The total of the group of [grade] (0 without such a group), and the
    total over all groups. *)
Definition own_total (grade : string) (gradeGroups : JsObject.t GradeGroup.t)
  : number :=
  match JsObject.get_own grade gradeGroups with
  | Some g => GradeGroup.totalRaised g
  | None => 0%Q
  end.

Definition group_total (gradeGroups : JsObject.t GradeGroup.t) : number :=
  fold_right (fun kv acc => GradeGroup.totalRaised (snd kv) + acc)%Q 0%Q
    gradeGroups.

(** [Student & {amountRaised, goalProgress}] *)
Module TopStudent.
Record t := mk {
    student : Student.t; amountRaised : number; goalProgress : number }.
End TopStudent.

(** What a route sends: a status with a message, or a JSON body. *)
Inductive Response (A : Type) : Type :=
| Status401 (message : string)
| Status404 (message : string)
| Json (body : A).
Arguments Status401 {A}.
Arguments Status404 {A}.
Arguments Json {A}.

(** ** The store *)

Section Storage.

(** The stored representation of a donation amount (a decimal string or a
    number, as the schema has it) and the coercion [Number(...)] the code
    applies to it. *)
Context {Amount : Type}.
Variable Number : Amount -> number.

Abbreviation Donation := (Donation.t Amount).
Abbreviation InsertDonation := (InsertDonation.t Amount).

(** The fields of [MemStorage] (the session store is only handed to the
    session middleware). *)
Record MemStorage := mkStorage {
  users : JsMap.t User.t;
  schools : JsMap.t School.t;
  students : JsMap.t Student.t;
  donations : JsMap.t Donation;
  events : JsMap.t Event;
  userCurrentId : Z;
  schoolCurrentId : Z;
  studentCurrentId : Z;
  donationCurrentId : Z;
  eventCurrentId : Z }.

(** [constructor()] *)
Definition constructor : MemStorage :=
  {| users := JsMap.empty; schools := JsMap.empty; students := JsMap.empty;
     donations := JsMap.empty; events := JsMap.empty;
     userCurrentId := 1; schoolCurrentId := 1; studentCurrentId := 1;
     donationCurrentId := 1; eventCurrentId := 1 |}.

(** *** Methods as state transformers *)

Definition M (A : Type) : Type := MemStorage -> A * MemStorage.

Definition ret {A : Type} (a : A) : M A := fun st => (a, st).

Definition bind {A B : Type} (m : M A) (k : A -> M B) : M B :=
  fun st => let (a, st') := m st in k a st'.

Definition gets {A : Type} (f : MemStorage -> A) : M A :=
  fun st => (f st, st).

Definition modify (f : MemStorage -> MemStorage) : M unit :=
  fun st => (tt, f st).

Notation "'await' x <- c ; k" := (bind c (fun x => k))
  (at level 10, x name, c at level 100, k at level 200, only parsing).

Definition eval {A : Type} (m : M A) (st : MemStorage) : A := fst (m st).
Definition exec {A : Type} (m : M A) (st : MemStorage) : MemStorage :=
  snd (m st).

(** [Promise.all(xs.map(f))]: the callbacks run in array order. *)
Fixpoint Promise_all_map {A B : Type} (f : A -> M B) (xs : list A)
  : M (list B) :=
  match xs with
  | [] => ret []
  | x :: r =>
      await y <- f x;
      await ys <- Promise_all_map f r;
      ret (y :: ys)
  end.

(** Writes to single fields; [this.xCurrentId++] returns the old value. *)
Definition users_set (k : Z) (v : User.t) : M unit :=
  modify (fun st =>
    mkStorage (JsMap.set k v (users st)) (schools st) (students st)
      (donations st) (events st) (userCurrentId st) (schoolCurrentId st)
      (studentCurrentId st) (donationCurrentId st) (eventCurrentId st)).

Definition schools_set (k : Z) (v : School.t) : M unit :=
  modify (fun st =>
    mkStorage (users st) (JsMap.set k v (schools st)) (students st)
      (donations st) (events st) (userCurrentId st) (schoolCurrentId st)
      (studentCurrentId st) (donationCurrentId st) (eventCurrentId st)).

Definition students_set (k : Z) (v : Student.t) : M unit :=
  modify (fun st =>
    mkStorage (users st) (schools st) (JsMap.set k v (students st))
      (donations st) (events st) (userCurrentId st) (schoolCurrentId st)
      (studentCurrentId st) (donationCurrentId st) (eventCurrentId st)).

Definition donations_set (k : Z) (v : Donation) : M unit :=
  modify (fun st =>
    mkStorage (users st) (schools st) (students st)
      (JsMap.set k v (donations st)) (events st) (userCurrentId st)
      (schoolCurrentId st) (studentCurrentId st) (donationCurrentId st)
      (eventCurrentId st)).

Definition events_set (k : Z) (v : Event) : M unit :=
  modify (fun st =>
    mkStorage (users st) (schools st) (students st) (donations st)
      (JsMap.set k v (events st)) (userCurrentId st) (schoolCurrentId st)
      (studentCurrentId st) (donationCurrentId st) (eventCurrentId st)).

Definition events_delete (k : Z) : M bool :=
  fun st =>
    (JsMap.has k (events st),
     mkStorage (users st) (schools st) (students st) (donations st)
       (JsMap.delete k (events st)) (userCurrentId st) (schoolCurrentId st)
       (studentCurrentId st) (donationCurrentId st) (eventCurrentId st)).

Definition userCurrentId_post_incr : M Z :=
  fun st =>
    (userCurrentId st,
     mkStorage (users st) (schools st) (students st) (donations st)
       (events st) (userCurrentId st + 1) (schoolCurrentId st)
       (studentCurrentId st) (donationCurrentId st) (eventCurrentId st)).

Definition schoolCurrentId_post_incr : M Z :=
  fun st =>
    (schoolCurrentId st,
     mkStorage (users st) (schools st) (students st) (donations st)
       (events st) (userCurrentId st) (schoolCurrentId st + 1)
       (studentCurrentId st) (donationCurrentId st) (eventCurrentId st)).

Definition studentCurrentId_post_incr : M Z :=
  fun st =>
    (studentCurrentId st,
     mkStorage (users st) (schools st) (students st) (donations st)
       (events st) (userCurrentId st) (schoolCurrentId st)
       (studentCurrentId st + 1) (donationCurrentId st) (eventCurrentId st)).

Definition donationCurrentId_post_incr : M Z :=
  fun st =>
    (donationCurrentId st,
     mkStorage (users st) (schools st) (students st) (donations st)
       (events st) (userCurrentId st) (schoolCurrentId st)
       (studentCurrentId st) (donationCurrentId st + 1) (eventCurrentId st)).

Definition eventCurrentId_post_incr : M Z :=
  fun st =>
    (eventCurrentId st,
     mkStorage (users st) (schools st) (students st) (donations st)
       (events st) (userCurrentId st) (schoolCurrentId st)
       (studentCurrentId st) (donationCurrentId st) (eventCurrentId st + 1)).

(** *** User operations *)

Definition getUser (id : Z) : M (option User.t) :=
  gets (fun st => JsMap.get id (users st)).

Definition getUserByUsername (username : string) : M (option User.t) :=
  gets (fun st =>
    List.find (fun user => String.eqb (User.username user) username)
      (JsMap.values (users st))).

Definition getUserByEmail (email : string) : M (option User.t) :=
  gets (fun st =>
    List.find (fun user => String.eqb (User.email user) email)
      (JsMap.values (users st))).

Definition createUser (insertUser : InsertUser.t) (now : Date) : M User.t :=
  await id <- userCurrentId_post_incr;
  let createdAt := now in
  let user :=
    User.mk id (InsertUser.username insertUser) (InsertUser.email insertUser)
      (InsertUser.password insertUser) (InsertUser.role insertUser) createdAt in
  await _ <- users_set id user;
  ret user.

(** *** School operations *)

Definition getSchool (id : Z) : M (option School.t) :=
  gets (fun st => JsMap.get id (schools st)).

Definition getSchoolByUserId (userId : Z) : M (option School.t) :=
  gets (fun st =>
    List.find (fun school => (School.userId school =? userId)%Z)
      (JsMap.values (schools st))).

Definition getAllSchools : M (list School.t) :=
  gets (fun st => JsMap.values (schools st)).

Definition createSchool (insertSchool : InsertSchool.t) (now : Date)
  : M School.t :=
  await id <- schoolCurrentId_post_incr;
  let createdAt := now in
  let school :=
    School.mk id (InsertSchool.userId insertSchool)
      (InsertSchool.name insertSchool) (InsertSchool.adminName insertSchool)
      (InsertSchool.address insertSchool) (InsertSchool.phone insertSchool)
      (InsertSchool.fundraisingGoal insertSchool) createdAt in
  await _ <- schools_set id school;
  ret school.

(** *** Student operations *)

Definition getStudent (id : Z) : M (option Student.t) :=
  gets (fun st => JsMap.get id (students st)).

Definition getStudentByUserId (userId : Z) : M (option Student.t) :=
  gets (fun st =>
    List.find (fun student => (Student.userId student =? userId)%Z)
      (JsMap.values (students st))).

Definition getStudentsBySchoolId (schoolId : Z) : M (list Student.t) :=
  gets (fun st =>
    List.filter (fun student => (Student.schoolId student =? schoolId)%Z)
      (JsMap.values (students st))).

Definition createStudent (insertStudent : InsertStudent.t) (now : Date)
  : M Student.t :=
  await id <- studentCurrentId_post_incr;
  let createdAt := now in
  let student :=
    Student.mk id (InsertStudent.userId insertStudent)
      (InsertStudent.schoolId insertStudent)
      (InsertStudent.firstName insertStudent)
      (InsertStudent.lastName insertStudent)
      (InsertStudent.grade insertStudent)
      (InsertStudent.personalGoal insertStudent) createdAt in
  await _ <- students_set id student;
  ret student.

(** *** Donation operations *)

Definition getDonation (id : Z) : M (option Donation) :=
  gets (fun st => JsMap.get id (donations st)).

Definition getDonationsByStudentId (studentId : Z) : M (list Donation) :=
  gets (fun st =>
    List.filter (fun donation => (Donation.studentId donation =? studentId)%Z)
      (JsMap.values (donations st))).

Definition getDonationsBySchoolId (schoolId : Z) : M (list Donation) :=
  await schoolStudents <- getStudentsBySchoolId schoolId;
  let studentIds := map Student.id schoolStudents in
  gets (fun st =>
    List.filter
      (fun donation => Array_includes studentIds (Donation.studentId donation))
      (JsMap.values (donations st))).

Definition createDonation (insertDonation : InsertDonation) (now : Date)
  : M Donation :=
  await id <- donationCurrentId_post_incr;
  let createdAt := now in
  let donation :=
    Donation.mk id (InsertDonation.studentId insertDonation)
      (InsertDonation.amount insertDonation) createdAt in
  await _ <- donations_set id donation;
  ret donation.

(** *** Statistics *)

(** [ds.reduce((sum, donation) => sum + Number(donation.amount), 0)], in
    exact arithmetic ([Double.reduce_amounts] adds doubles). *)
Definition reduce_amounts (ds : list Donation) : number :=
  fold_left (fun sum donation => sum + Number (Donation.amount donation))%Q
    ds 0%Q.

Definition getSchoolStats (schoolId : Z) : M SchoolStats.t :=
  await schoolStudents <- getStudentsBySchoolId schoolId;
  let studentIds := map Student.id schoolStudents in
  await allDonations <-
    gets (fun st =>
      List.filter
        (fun donation =>
           Array_includes studentIds (Donation.studentId donation))
        (JsMap.values (donations st)));
  let totalRaised := reduce_amounts allDonations in
  ret (SchoolStats.mk totalRaised (length allDonations)
         (length schoolStudents)).

Definition getStudentStats (studentId : Z) : M StudentStats.t :=
  await studentDonations <- getDonationsByStudentId studentId;
  let totalRaised := reduce_amounts studentDonations in
  (* studentDonations.length > 0 ? Math.max(...amounts) : 0 *)
  let largestDonation :=
    match map (fun d => Number (Donation.amount d)) studentDonations with
    | x :: xs => Math_max x xs
    | [] => 0%Q
    end in
  let averageDonation :=
    if (0 <? length studentDonations)%nat
    then (totalRaised / inject_Z (Z.of_nat (length studentDonations)))%Q
    else 0%Q in
  ret (StudentStats.mk totalRaised (length studentDonations)
         largestDonation averageDonation).

(** The [goalProgress] expression of [getTopPerformingStudents], in exact
    arithmetic ([Double.topGoalProgress] rounds the double). *)
Definition topGoalProgress (student : Student.t) (stats : StudentStats.t)
  : number :=
  match Student.personalGoal student with
  | Some personalGoal =>
      if truthy personalGoal
      then Math_round (StudentStats.totalRaised stats / personalGoal * 100)%Q
      else 0%Q
  | None => 0%Q
  end.

(** [limit] is [None] when the argument is omitted (default [10]). *)
Definition getTopPerformingStudents (schoolId : Z) (limit : option Z)
  : M (list TopStudent.t) :=
  let limit := match limit with Some n => n | None => 10%Z end in
  await schoolStudents <- getStudentsBySchoolId schoolId;
  await studentsWithProgress <-
    Promise_all_map
      (fun student =>
         await stats <- getStudentStats (Student.id student);
         ret (TopStudent.mk student (StudentStats.totalRaised stats)
                (topGoalProgress student stats)))
      schoolStudents;
  let sortedStudents :=
    Array_sort
      (fun a b => (TopStudent.amountRaised b - TopStudent.amountRaised a)%Q)
      studentsWithProgress in
  ret (Array_slice0 sortedStudents limit).

(** *** Event operations *)

Definition getEvent (id : Z) : M (option Event) :=
  gets (fun st => JsMap.get id (events st)).

Definition getEventsBySchoolId (schoolId : Z) : M (list Event) :=
  gets (fun st =>
    List.filter
      (fun event => strict_eq_number (event !! "schoolId"%string) schoolId)
      (JsMap.values (events st))).

(** [{ ...insertEvent, id, createdAt }] *)
Definition createEvent (insertEvent : Event) (now : Date) : M Event :=
  await id <- eventCurrentId_post_incr;
  let createdAt := now in
  let event : Event :=
    <["createdAt"%string := JDate createdAt]>
      (<["id"%string := JNumber (inject_Z id)]> insertEvent) in
  await _ <- events_set id event;
  ret event.

(** [{ ...existingEvent, ...updateEvent }]: the later spread wins. *)
Definition updateEvent (id : Z) (updateEvent : Event) : M (option Event) :=
  await existingEvent <- getEvent id;
  match existingEvent with
  | None => ret None
  | Some existingEvent =>
      let updatedEvent : Event := updateEvent ∪ existingEvent in
      await _ <- events_set id updatedEvent;
      ret (Some updatedEvent)
  end.

Definition deleteEvent (id : Z) : M bool :=
  await exists_ <- getEvent id;
  match exists_ with
  | None => ret false
  | Some _ => events_delete id
  end.

(** ** The student dashboard route ([GET /api/students/dashboard]) *)

(** [Math.min(100, Math.round((stats.totalRaised /
    parseFloat(student.personalGoal)) * 100))], or [0] when the goal is
    falsy; [parseFloat] of a number is that number.  The quotient and the
    product are exact here ([Double.dashboardGoalProgress] rounds the
    double). *)
Definition dashboardGoalProgress (student : Student.t)
  (stats : StudentStats.t) : number :=
  match Student.personalGoal student with
  | Some personalGoal =>
      if truthy personalGoal
      then (Math_min 100
              (Math_round (StudentStats.totalRaised stats / personalGoal * 100)))%Q
      else 0%Q
  | None => 0%Q
  end.

(** The percentage of the school goal, with the same expression (in exact
    arithmetic). *)
Definition schoolGoalProgress (school : School.t) (schoolStats : SchoolStats.t)
  : number :=
  if truthy (School.fundraisingGoal school)
  then (Math_min 100
          (Math_round (SchoolStats.totalRaised schoolStats
                       / School.fundraisingGoal school * 100)))%Q
  else 0%Q.

(** One turn of the loop over [schoolStudents]. *)
Definition gradeGroups_step (gradeGroups : JsObject.t GradeGroup.t)
  (schoolStudent : Student.t) : M (JsObject.t GradeGroup.t) :=
  let grade := Student.grade schoolStudent in
  let gradeGroups := ensure_group gradeGroups grade in
  await studentStats <- getStudentStats (Student.id schoolStudent);
  ret (accumulate gradeGroups grade (StudentStats.totalRaised studentStats)).

Fixpoint gradeGroups_loop (gradeGroups : JsObject.t GradeGroup.t)
  (schoolStudents : list Student.t) : M (JsObject.t GradeGroup.t) :=
  match schoolStudents with
  | [] => ret gradeGroups
  | schoolStudent :: rest =>
      await gradeGroups <- gradeGroups_step gradeGroups schoolStudent;
      gradeGroups_loop gradeGroups rest
  end.

(** The element of [classRankings] made from one group (the percentage in
    exact arithmetic). *)
Definition ranking_of (schoolStats : SchoolStats.t)
  (entry : string * GradeGroup.t) : ClassRanking.t :=
  let grade := fst entry in
  ClassRanking.mk grade (GradeGroup.totalRaised (snd entry))
    (if Qlt_le_dec 0 (SchoolStats.totalRaised schoolStats)
     then Math_round (GradeGroup.totalRaised (snd entry)
                      / SchoolStats.totalRaised schoolStats * 100)%Q
     else 0%Q).

(** [Object.keys(gradeGroups).map(grade => ...).sort(...)]; every key read
    back is an own property, so the map runs over the entries. *)
Definition classRankings_of (gradeGroups : JsObject.t GradeGroup.t)
  (schoolStats : SchoolStats.t) : list ClassRanking.t :=
  Array_sort
    (fun a b => (ClassRanking.totalRaised b - ClassRanking.totalRaised a)%Q)
    (map (ranking_of schoolStats) (JsObject.entries gradeGroups)).

Definition classRankings (schoolStudents : list Student.t)
  (schoolStats : SchoolStats.t) : M (list ClassRanking.t) :=
  await gradeGroups <- gradeGroups_loop JsObject.empty schoolStudents;
  ret (classRankings_of gradeGroups schoolStats).

(** Most recent first, at most five. *)
Definition recentDonations (donations : list Donation) : list Donation :=
  Array_slice0
    (Array_sort
       (fun a b =>
          inject_Z (Donation.createdAt b) - inject_Z (Donation.createdAt a))%Q
       donations)
    5%Z.

Definition daysRemaining (school : School.t) (today : Date) : Z :=
  let campaignLength := 30%Z in
  let daysPassed :=
    Math_floor
      (inject_Z (today - School.createdAt school)
       / inject_Z (1000 * 60 * 60 * 24))%Q in
  Z.max 0 (campaignLength - daysPassed).

Record StudentDashboard := mkStudentDashboard {
  sd_student : Student.t;
  sd_school : School.t;
  sd_stats : StudentStats.t;
  sd_goalProgress : number;
  sd_schoolStats : SchoolStats.t;
  sd_schoolGoalProgress : number;
  sd_classRankings : list ClassRanking.t;
  sd_recentDonations : list Donation;
  sd_daysRemaining : Z }.

(** [req_user] is [None] when the request is not authenticated. *)
Definition studentDashboard (req_user : option User.t) (today : Date)
  : M (Response StudentDashboard) :=
  match req_user with
  | None => ret (Status401 "Unauthorized")
  | Some user =>
      if negb (String.eqb (User.role user) "student")
      then ret (Status401 "Unauthorized")
      else
        await student <- getStudentByUserId (User.id user);
        match student with
        | None => ret (Status404 "Student not found")
        | Some student =>
            await school <- getSchool (Student.schoolId student);
            match school with
            | None => ret (Status404 "School not found")
            | Some school =>
                await stats <- getStudentStats (Student.id student);
                await donations <-
                  getDonationsByStudentId (Student.id student);
                let goalProgress := dashboardGoalProgress student stats in
                await schoolStats <- getSchoolStats (School.id school);
                let schoolGoalProgress :=
                  schoolGoalProgress school schoolStats in
                await schoolStudents <-
                  getStudentsBySchoolId (School.id school);
                await classRankings <-
                  classRankings schoolStudents schoolStats;
                ret (Json
                       (mkStudentDashboard student school stats goalProgress
                          schoolStats schoolGoalProgress classRankings
                          (recentDonations donations)
                          (daysRemaining school today)))
            end
        end
  end.

(** ** Runs of the store

    The writes the routes issue.  Registration of a student first looks the
    school up ([POST /api/register/student], "Selected school does not
    exist"), and a donation is stored only for a student that exists
    ([POST /api/donations], "Student not found"); the other writes have no
    guard that concerns the store. *)

Inductive op : Type :=
| CreateUser (insertUser : InsertUser.t) (now : Date)
| CreateSchool (insertSchool : InsertSchool.t) (now : Date)
| CreateStudent (insertStudent : InsertStudent.t) (now : Date)
| CreateDonation (insertDonation : InsertDonation) (now : Date)
| CreateEvent (insertEvent : Event) (now : Date)
| UpdateEvent (id : Z) (updateEvent : Event)
| DeleteEvent (id : Z).

Inductive collection : Type := Users | Schools | Students | Donations | Events.

Definition collection_eqb (c d : collection) : bool :=
  match c, d with
  | Users, Users | Schools, Schools | Students, Students
  | Donations, Donations | Events, Events => true
  | _, _ => false
  end.

(** The counter of a collection. *)
Definition counter (c : collection) (st : MemStorage) : Z :=
  match c with
  | Users => userCurrentId st
  | Schools => schoolCurrentId st
  | Students => studentCurrentId st
  | Donations => donationCurrentId st
  | Events => eventCurrentId st
  end.

(** One write: the id it assigned, if it is a create, and the new store. *)
Definition step (o : op) (st : MemStorage)
  : option (collection * Z) * MemStorage :=
  match o with
  | CreateUser u now =>
      let (user, st') := createUser u now st in
      (Some (Users, User.id user), st')
  | CreateSchool s now =>
      let (school, st') := createSchool s now st in
      (Some (Schools, School.id school), st')
  | CreateStudent s now =>
      let (student, st') := createStudent s now st in
      (Some (Students, Student.id student), st')
  | CreateDonation d now =>
      let (donation, st') := createDonation d now st in
      (Some (Donations, Donation.id donation), st')
  | CreateEvent e now =>
      let (event, st') := createEvent e now st in
      (match event !! "id"%string with
       | Some (JNumber x) => Some (Events, Qfloor x)
       | _ => None
       end, st')
  | UpdateEvent id patch => (None, exec (updateEvent id patch) st)
  | DeleteEvent id => (None, exec (deleteEvent id) st)
  end.

(** The ids assigned along a run, oldest first, and the final store. *)
Fixpoint run (ops : list op) (st : MemStorage)
  : list (collection * Z) * MemStorage :=
  match ops with
  | [] => ([], st)
  | o :: rest =>
      let (assigned, st') := step o st in
      let (log, st'') := run rest st' in
      (match assigned with Some a => a :: log | None => log end, st'')
  end.

Definition assigned_ids (c : collection) (log : list (collection * Z))
  : list Z :=
  map snd (List.filter (fun a => collection_eqb (fst a) c) log).

Definition route_guard (o : op) (st : MemStorage) : bool :=
  match o with
  | CreateStudent s _ => JsMap.has (InsertStudent.schoolId s) (schools st)
  | CreateDonation d _ => JsMap.has (InsertDonation.studentId d) (students st)
  | _ => true
  end.

Inductive reachable : MemStorage -> Prop :=
| reachable_constructor : reachable constructor
| reachable_step (st : MemStorage) (o : op) :
    reachable st -> route_guard o st = true -> reachable (snd (step o st)).

(** The guards of the routes hold along a run. *)
Fixpoint guarded_run (ops : list op) (st : MemStorage) : bool :=
  match ops with
  | [] => true
  | o :: rest => route_guard o st && guarded_run rest (snd (step o st))
  end.

(** ** Vocabulary of the specification *)

(** The sum of the amounts of a list of donations. *)
Definition sum_amounts (ds : list Donation) : number :=
  fold_right (fun d acc => Number (Donation.amount d) + acc)%Q 0%Q ds.

Definition Qsum (xs : list number) : number := fold_right Qplus 0%Q xs.


(** [n] is [x] rounded to the nearest integer, halves up. *)
Definition rounds_to (x : number) (n : Z) : Prop :=
  (inject_Z n - (1 # 2) <= x)%Q /\ (x < inject_Z n + (1 # 2))%Q.

(** The students enrolled in a school. *)
Definition enrolled (st : MemStorage) (schoolId : Z) : list Student.t :=
  List.filter (fun s => (Student.schoolId s =? schoolId)%Z)
    (JsMap.values (students st)).

(** The donations made to a student of a school. *)
Definition school_donations (st : MemStorage) (schoolId : Z) : list Donation :=
  List.filter
    (fun d =>
       existsb
         (fun s => ((Student.schoolId s =? schoolId)
                    && (Student.id s =? Donation.studentId d))%Z%bool)
         (JsMap.values (students st)))
    (JsMap.values (donations st)).

(** The amount a student has raised, as [getStudentStats] reports it. *)
Definition raised (st : MemStorage) (student : Student.t) : number :=
  StudentStats.totalRaised
    (eval (getStudentStats (Student.id student)) st).

(** An element of the array [studentsWithProgress]. *)
Definition progress_entry (st : MemStorage) (student : Student.t)
  : TopStudent.t :=
  TopStudent.mk student (raised st student)
    (topGoalProgress student
       (eval (getStudentStats (Student.id student)) st)).

(** The key of an entry is the id of its entity, and no key occurs twice. *)
Definition keys_are_ids (st : MemStorage) : Prop :=
  Forall (fun kv => Student.id (snd kv) = fst kv) (students st) /\
  Forall (fun kv => Donation.id (snd kv) = fst kv) (donations st) /\
  NoDup (JsMap.keys (students st)) /\
  NoDup (JsMap.keys (donations st)).

(** Every student references a school of the store and every donation a
    student of the store. *)
Definition references_exist (st : MemStorage) : Prop :=
  Forall (fun s => JsMap.has (Student.schoolId s) (schools st) = true)
    (JsMap.values (students st)) /\
  Forall (fun d => JsMap.has (Donation.studentId d) (students st) = true)
    (JsMap.values (donations st)).

(** Two stores that differ at most in the collection of events. *)
Definition same_except_events (st st' : MemStorage) : Prop :=
  users st' = users st /\ schools st' = schools st /\
  students st' = students st /\ donations st' = donations st /\
  userCurrentId st' = userCurrentId st /\
  schoolCurrentId st' = schoolCurrentId st /\
  studentCurrentId st' = studentCurrentId st /\
  donationCurrentId st' = donationCurrentId st /\
  eventCurrentId st' = eventCurrentId st.

(** What every store the routes can produce satisfies: keys are fresh ids
    below the counters, and references resolve. *)
Definition store_invariant (st : MemStorage) : Prop :=
  keys_are_ids st /\
  references_exist st /\
  Forall (fun k => (k < studentCurrentId st)%Z) (JsMap.keys (students st)) /\
  Forall (fun k => (k < donationCurrentId st)%Z) (JsMap.keys (donations st)).

End Storage.

Arguments MemStorage : clear implicits.
Arguments M : clear implicits.
Arguments op : clear implicits.
Arguments StudentDashboard : clear implicits.

(** ** The other routes of [registerRoutes]

    A route answers [res.status(s).json(body)] ([s] is 200 when no status is
    set) or refuses with [res.status(s).json({ message })].  A path
    parameter read with [parseInt] is [None] when the result is [NaN]: no
    entity has such an id, and no id is strictly equal to it. *)

Inductive Reply (A : Type) : Type :=
| Sent (status : Z) (body : A)
| Refused (status : Z) (message : string).
Arguments Sent {A}.
Arguments Refused {A}.

(** [{ id, firstName, lastName }] attached to a donation of the school
    dashboard. *)
Module StudentRef.
Record t := mk { id : Z; firstName : string; lastName : string }.
End StudentRef.

(** [{ ...donation, student }] *)
Module RecentDonation.
Record t {Amount : Type} := mk {
  donation : Donation.t Amount; student : StudentRef.t }.
Arguments t : clear implicits.
Arguments mk {Amount}.
End RecentDonation.

(** [{ ...student, stats, goalProgress }] *)
Module StudentWithStats.
Record t := mk {
  student : Student.t; stats : StudentStats.t; goalProgress : number }.
End StudentWithStats.

(** [Math.trunc], used by the conversion of a number to a time value. *)
Definition Math_trunc (x : number) : Z :=
  if Qlt_le_dec x 0 then Qceiling x else Qfloor x.

Section Routes.

Context {Amount : Type}.
Variable Number : Amount -> number.

(** [new Date(s).getTime()] for a string [s]; [None] is an invalid date. *)
Variable Date_parse : string -> option Z.

Notation "'await' x <- c ; k" := (bind c (fun x => k))
  (at level 10, x name, c at level 100, k at level 200, only parsing).

(** *** School dashboard ([GET /api/schools/dashboard]) *)

Record SchoolDashboard := mkSchoolDashboard {
  sb_school : School.t;
  sb_stats : SchoolStats.t;
  sb_topStudents : list TopStudent.t;
  sb_recentDonations : list (RecentDonation.t Amount) }.

(** [{ id: student.id, firstName: student.firstName, lastName:
    student.lastName }] *)
Definition student_ref (student : Student.t) : StudentRef.t :=
  StudentRef.mk (Student.id student) (Student.firstName student)
    (Student.lastName student).

(** The inner loop: one [push] per donation of the student. *)
Definition push_donations (student : Student.t)
  (studentDonations : list (Donation.t Amount))
  (recentDonations : list (RecentDonation.t Amount))
  : list (RecentDonation.t Amount) :=
  fold_left
    (fun recentDonations donation =>
       recentDonations
       ++ [RecentDonation.mk donation (student_ref student)])
    studentDonations recentDonations.

(** The outer loop over [schoolStudents]. *)
Fixpoint collect_donations (recentDonations : list (RecentDonation.t Amount))
  (schoolStudents : list Student.t)
  : M Amount (list (RecentDonation.t Amount)) :=
  match schoolStudents with
  | [] => ret recentDonations
  | student :: rest =>
      await studentDonations <- getDonationsByStudentId (Student.id student);
      collect_donations
        (push_donations student studentDonations recentDonations) rest
  end.

Definition schoolDashboard (req_user : option User.t)
  : M Amount (Reply SchoolDashboard) :=
  match req_user with
  | None => ret (Refused 401 "Unauthorized")
  | Some user =>
      if negb (String.eqb (User.role user) "school")
      then ret (Refused 401 "Unauthorized")
      else
        await school <- getSchoolByUserId (User.id user);
        match school with
        | None => ret (Refused 404 "School not found")
        | Some school =>
            await stats <- getSchoolStats Number (School.id school);
            await topStudents <-
              getTopPerformingStudents Number (School.id school) (Some 5%Z);
            await schoolStudents <- getStudentsBySchoolId (School.id school);
            await recentDonations <- collect_donations [] schoolStudents;
            let sortedDonations :=
              Array_slice0
                (Array_sort
                   (fun a b =>
                      inject_Z (Donation.createdAt (RecentDonation.donation b))
                      - inject_Z (Donation.createdAt (RecentDonation.donation a)))%Q
                   recentDonations)
                5%Z in
            ret (Sent 200
                   (mkSchoolDashboard school stats topStudents sortedDonations))
        end
  end.

(** *** Donations of a student ([GET /api/students/:id/donations]) *)

(** [[...donations].sort(...)], most recent first. *)
Definition sortedDonations (donations : list (Donation.t Amount))
  : list (Donation.t Amount) :=
  Array_sort
    (fun a b =>
       inject_Z (Donation.createdAt b) - inject_Z (Donation.createdAt a))%Q
    donations.

Definition studentDonationsRoute (req_user : option User.t)
  (studentId : option Z) : M Amount (Reply (list (Donation.t Amount))) :=
  match req_user with
  | None => ret (Refused 401 "Unauthorized")
  | Some user =>
      match studentId with
      | None => ret (Refused 404 "Student not found")
      | Some studentId =>
          await student <- getStudent studentId;
          match student with
          | None => ret (Refused 404 "Student not found")
          | Some student =>
              let send : M Amount (Reply (list (Donation.t Amount))) :=
                await donations <- getDonationsByStudentId studentId;
                ret (Sent 200 (sortedDonations donations)) in
              if String.eqb (User.role user) "student" then
                await reqStudent <- getStudentByUserId (User.id user);
                match reqStudent with
                | None => ret (Refused 403 "Access denied")
                | Some reqStudent =>
                    if negb (Student.id reqStudent =? studentId)%Z
                    then ret (Refused 403 "Access denied")
                    else send
                end
              else if String.eqb (User.role user) "school" then
                await reqSchool <- getSchoolByUserId (User.id user);
                match reqSchool with
                | None => ret (Refused 403 "Access denied")
                | Some reqSchool =>
                    if negb (Student.schoolId student =? School.id reqSchool)%Z
                    then ret (Refused 403 "Access denied")
                    else send
                end
              else ret (Refused 403 "Access denied")
          end
      end
  end.

(** *** Students of a school ([GET /api/schools/:id/students]) *)

Definition schoolStudentsRoute (req_user : option User.t)
  (schoolId : option Z) : M Amount (Reply (list StudentWithStats.t)) :=
  match req_user with
  | None => ret (Refused 401 "Unauthorized")
  | Some user =>
      if negb (String.eqb (User.role user) "school")
      then ret (Refused 401 "Unauthorized")
      else
        await reqSchool <- getSchoolByUserId (User.id user);
        match reqSchool, schoolId with
        | Some reqSchool, Some schoolId =>
            if negb (School.id reqSchool =? schoolId)%Z
            then ret (Refused 403 "Access denied")
            else
              await students <- getStudentsBySchoolId schoolId;
              await studentsWithStats <-
                Promise_all_map
                  (fun student =>
                     await stats <- getStudentStats Number (Student.id student);
                     let goalProgress := dashboardGoalProgress student stats in
                     ret (StudentWithStats.mk student stats goalProgress))
                  students;
              ret (Sent 200
                     (Array_sort
                        (fun a b =>
                           (StudentStats.totalRaised (StudentWithStats.stats b)
                            - StudentStats.totalRaised (StudentWithStats.stats a))%Q)
                        studentsWithStats))
        | _, _ => ret (Refused 403 "Access denied")
        end
  end.

(** *** Public page of a school ([GET /api/schools/:id]) *)

(** [new Date(v).getTime()]; [None] is [NaN].  A missing field reads as
    [undefined]. *)
Definition time_of (v : option jsval) : option Z :=
  match v with
  | None | Some JUndefined => None
  | Some JNull => Some 0%Z
  | Some (JBool b) => Some (if b then 1 else 0)%Z
  | Some (JNumber x) =>
      if Qle_bool (Qabs x) 8640000000000000 then Some (Math_trunc x) else None
  | Some (JString s) => Date_parse s
  | Some (JDate t) => Some t
  end.

(** The time of an event whose date is valid. *)
Definition event_time (event : Event) : Z :=
  match time_of (event !! "date"%string) with
  | Some t => t
  | None => 0%Z
  end.

(** [new Date(event.date) >= now]: false for an invalid date. *)
Definition is_upcoming (now : Z) (event : Event) : bool :=
  match time_of (event !! "date"%string) with
  | Some t => (now <=? t)%Z
  | None => false
  end.

(** [new Date(a.date).getTime() - new Date(b.date).getTime()]; the sort
    reads a [NaN] as [+0]. *)
Definition compare_dates (a b : Event) : number :=
  match time_of (a !! "date"%string), time_of (b !! "date"%string) with
  | Some ta, Some tb => inject_Z (ta - tb)
  | _, _ => 0%Q
  end.

Definition upcomingEvents (now : Z) (events : list Event) : list Event :=
  Array_slice0 (Array_sort compare_dates (List.filter (is_upcoming now) events))
    3%Z.

Record SchoolPage := mkSchoolPage {
  sp_school : School.t;
  sp_stats : SchoolStats.t;
  sp_goalProgress : number;
  sp_topStudents : list TopStudent.t;
  sp_upcomingEvents : list Event }.

Definition schoolPage (schoolId : option Z) (now : Z)
  : M Amount (Reply SchoolPage) :=
  match schoolId with
  | None => ret (Refused 404 "School not found")
  | Some schoolId =>
      await school <- getSchool schoolId;
      match school with
      | None => ret (Refused 404 "School not found")
      | Some school =>
          await stats <- getSchoolStats Number (School.id school);
          await topStudents <-
            getTopPerformingStudents Number (School.id school) (Some 5%Z);
          await events <- getEventsBySchoolId (School.id school);
          let upcomingEvents := upcomingEvents now events in
          let goalProgress := schoolGoalProgress school stats in
          ret (Sent 200
                 (mkSchoolPage school stats goalProgress topStudents
                    upcomingEvents))
      end
  end.

(** *** Creating a donation ([POST /api/donations]) *)

(** [validatedData] is the outcome of [insertDonationSchema.parseAsync]:
    the parsed payload, or the message of the validation error. *)
Definition postDonation (validatedData : InsertDonation.t Amount + string)
  (now : Z) : M Amount (Reply (Donation.t Amount)) :=
  match validatedData with
  | inr message => ret (Refused 400 message)
  | inl validatedData =>
      await student <- getStudent (InsertDonation.studentId validatedData);
      match student with
      | None => ret (Refused 404 "Student not found")
      | Some _ =>
          await donation <- createDonation validatedData now;
          ret (Sent 201 donation)
      end
  end.

(** *** Events of a school (school admin only) *)

(** [POST /api/schools/:id/events]; the payload is
    [{ ...req.body, schoolId }]. *)
Definition postEvent (req_user : option User.t) (schoolId : option Z)
  (body : Event) (now : Z) : M Amount (Reply Event) :=
  match req_user with
  | None => ret (Refused 401 "Unauthorized")
  | Some user =>
      if negb (String.eqb (User.role user) "school")
      then ret (Refused 401 "Unauthorized")
      else
        await reqSchool <- getSchoolByUserId (User.id user);
        match reqSchool, schoolId with
        | Some reqSchool, Some schoolId =>
            if negb (School.id reqSchool =? schoolId)%Z
            then ret (Refused 403 "Access denied")
            else
              let eventData : Event :=
                <["schoolId"%string := JNumber (inject_Z schoolId)]> body in
              await event <- createEvent eventData now;
              ret (Sent 201 event)
        | _, _ => ret (Refused 403 "Access denied")
        end
  end.

(** The checks shared by [PUT /api/events/:id] and
    [DELETE /api/events/:id]: the event exists and belongs to the school of
    the user. *)
Definition owned_event (A : Type) (req_user : option User.t)
  (eventId : option Z) (k : Z -> M Amount (Reply A)) : M Amount (Reply A) :=
  match req_user with
  | None => ret (Refused 401 "Unauthorized")
  | Some user =>
      if negb (String.eqb (User.role user) "school")
      then ret (Refused 401 "Unauthorized")
      else
        match eventId with
        | None => ret (Refused 404 "Event not found")
        | Some eventId =>
            await event <- getEvent eventId;
            match event with
            | None => ret (Refused 404 "Event not found")
            | Some event =>
                await reqSchool <- getSchoolByUserId (User.id user);
                match reqSchool with
                | None => ret (Refused 403 "Access denied")
                | Some reqSchool =>
                    if negb (strict_eq_number (event !! "schoolId"%string)
                               (School.id reqSchool))
                    then ret (Refused 403 "Access denied")
                    else k eventId
                end
            end
        end
  end.

Definition putEvent (req_user : option User.t) (eventId : option Z)
  (body : Event) : M Amount (Reply (option Event)) :=
  owned_event (option Event) req_user eventId
    (fun eventId =>
       await updatedEvent <- updateEvent eventId body;
       ret (Sent 200 updatedEvent)).

Definition deleteEventRoute (req_user : option User.t) (eventId : option Z)
  : M Amount (Reply unit) :=
  owned_event unit req_user eventId
    (fun eventId =>
       await _ <- deleteEvent eventId;
       ret (Sent 204 tt)).

End Routes.

Arguments SchoolDashboard : clear implicits.

(** ** Accounts (the auth module, [src/unnamed/part_001]) *)

(** The body of [POST /api/register/school] and of
    [POST /api/register/student].  A goal is a JSON number or is absent. *)
Module RegisterSchool.
Record t := mk {
  username : string; email : string; password : string;
  confirmPassword : string; schoolName : string; adminName : string;
  address : string; phone : string; fundraisingGoal : option number }.
End RegisterSchool.

Module RegisterStudent.
Record t := mk {
  username : string; email : string; password : string;
  firstName : string; lastName : string; grade : string;
  schoolId : option Z; personalGoal : option number; parentConsent : bool }.
End RegisterStudent.

(** What the verify callback of the local strategy reports: [done(null,
    user)], [done(null, false)], or an exception. *)
Inductive Verdict : Type :=
| Accept (user : User.t)
| Reject
| Throw.

(** *** Hexadecimal encoding of buffers *)

Definition hex_digit (n : N) : ascii :=
  if (n <? 10)%N then ascii_of_N (48 + n) else ascii_of_N (87 + n).

(** [buf.toString("hex")] *)
Fixpoint hex (buf : list byte) : string :=
  match buf with
  | [] => EmptyString
  | b :: rest =>
      String (hex_digit (Byte.to_N b / 16))
        (String (hex_digit (Byte.to_N b mod 16)) (hex rest))
  end.

Definition hex_value (c : ascii) : option N :=
  let n := N_of_ascii c in
  if ((48 <=? n) && (n <=? 57))%N then Some (n - 48)%N
  else if ((97 <=? n) && (n <=? 102))%N then Some (n - 87)%N
  else if ((65 <=? n) && (n <=? 70))%N then Some (n - 55)%N
  else None.

(** [Buffer.from(s, "hex")]: decoding stops at the first pair that is not
    made of two hexadecimal digits. *)
Fixpoint unhex (s : string) : list byte :=
  match s with
  | String c1 (String c2 rest) =>
      match hex_value c1, hex_value c2 with
      | Some h, Some l =>
          match Byte.of_N (16 * h + l) with
          | Some b => b :: unhex rest
          | None => []
          end
      | _, _ => []
      end
  | _ => []
  end.

(** [s.split(".")] *)
Fixpoint split_dot (s : string) : list string :=
  match s with
  | EmptyString => [EmptyString]
  | String c rest =>
      if Ascii.eqb c "."
      then EmptyString :: split_dot rest
      else match split_dot rest with
           | part :: parts => String c part :: parts
           | [] => [String c EmptyString]
           end
  end.

Fixpoint bytes_eqb (a b : list byte) : bool :=
  match a, b with
  | [], [] => true
  | x :: a', y :: b' => Byte.eqb x y && bytes_eqb a' b'
  | _, _ => false
  end.

Section Auth.

Context {Amount : Type}.

(** [scrypt(password, salt, 64)], the key derivation of Node's [crypto]. *)
Variable scrypt : string -> string -> list byte.

Notation "'await' x <- c ; k" := (bind c (fun x => k))
  (at level 10, x name, c at level 100, k at level 200, only parsing).

(** [random] is the value of [randomBytes(16)]. *)
Definition hashPassword (password : string) (random : list byte) : string :=
  let salt := hex random in
  let buf := scrypt password salt in
  (hex buf ++ "." ++ salt)%string.

(** [None] is an exception: [scrypt] refuses a salt that is [undefined],
    [timingSafeEqual] refuses buffers of different lengths. *)
Definition comparePasswords (supplied stored : string) : option bool :=
  match split_dot stored with
  | hashed :: salt :: _ =>
      let hashedBuf := unhex hashed in
      let suppliedBuf := scrypt supplied salt in
      if (length hashedBuf =? length suppliedBuf)%nat
      then Some (bytes_eqb hashedBuf suppliedBuf)
      else None
  | _ => None
  end.

(** The verify callback of [LocalStrategy]. *)
Definition verify (username password : string) : M Amount Verdict :=
  await user <- getUserByUsername username;
  match user with
  | None => ret Reject
  | Some user =>
      match comparePasswords password (User.password user) with
      | Some true => ret (Accept user)
      | Some false => ret Reject
      | None => ret Throw
      end
  end.

(** [req.login(user, callback)] succeeds or fails outside the store;
    [login_ok] is its outcome. *)

(** [POST /api/register]: the body is spread into the new user. *)
Definition register (body : InsertUser.t) (random : list byte) (now : Z)
  (login_ok : bool) : M Amount (Reply User.t) :=
  await existingUser <- getUserByUsername (InsertUser.username body);
  match existingUser with
  | Some _ => ret (Refused 400 "Username already exists")
  | None =>
      await user <-
        createUser
          (InsertUser.mk (InsertUser.username body) (InsertUser.email body)
             (hashPassword (InsertUser.password body) random)
             (InsertUser.role body))
          now;
      ret (if login_ok then Sent 201 user else Refused 500 "")
  end.

(** [POST /api/register/school] *)
Definition registerSchool (body : RegisterSchool.t) (random : list byte)
  (now : Z) (login_ok : bool) : M Amount (Reply (User.t * School.t)) :=
  await existingUser <- getUserByUsername (RegisterSchool.username body);
  match existingUser with
  | Some _ => ret (Refused 400 "Username already exists")
  | None =>
      await existingEmail <- getUserByEmail (RegisterSchool.email body);
      match existingEmail with
      | Some _ => ret (Refused 400 "Email already exists")
      | None =>
          await user <-
            createUser
              (InsertUser.mk (RegisterSchool.username body)
                 (RegisterSchool.email body)
                 (hashPassword (RegisterSchool.password body) random)
                 "school")
              now;
          await school <-
            createSchool
              (InsertSchool.mk (User.id user) (RegisterSchool.schoolName body)
                 (RegisterSchool.adminName body) (RegisterSchool.address body)
                 (RegisterSchool.phone body)
                 (match RegisterSchool.fundraisingGoal body with
                  | Some fundraisingGoal =>
                      if truthy fundraisingGoal then fundraisingGoal else 0%Q
                  | None => 0%Q
                  end))
              now;
          ret (if login_ok then Sent 201 (user, school)
               else Refused 500 "Registration successful but failed to login")
      end
  end.

(** [POST /api/register/student] *)
Definition registerStudent (body : RegisterStudent.t) (random : list byte)
  (now : Z) (login_ok : bool) : M Amount (Reply (User.t * Student.t)) :=
  await school <-
    match RegisterStudent.schoolId body with
    | Some schoolId => getSchool schoolId
    | None => ret None
    end;
  match school, RegisterStudent.schoolId body with
  | Some _, Some schoolId =>
      await existingUser <- getUserByUsername (RegisterStudent.username body);
      match existingUser with
      | Some _ => ret (Refused 400 "Username already exists")
      | None =>
          await existingEmail <- getUserByEmail (RegisterStudent.email body);
          match existingEmail with
          | Some _ => ret (Refused 400 "Email already exists")
          | None =>
              await user <-
                createUser
                  (InsertUser.mk (RegisterStudent.username body)
                     (RegisterStudent.email body)
                     (hashPassword (RegisterStudent.password body) random)
                     "student")
                  now;
              await student <-
                createStudent
                  (InsertStudent.mk (User.id user) schoolId
                     (RegisterStudent.firstName body)
                     (RegisterStudent.lastName body)
                     (RegisterStudent.grade body)
                     (match RegisterStudent.personalGoal body with
                      | Some personalGoal =>
                          if truthy personalGoal then Some personalGoal
                          else None
                      | None => None
                      end))
                  now;
              ret (if login_ok then Sent 201 (user, student)
                   else Refused 500
                          "Registration successful but failed to login")
          end
      end
  | _, _ => ret (Refused 400 "Selected school does not exist")
  end.

(** *** The requests that write to the store *)

Inductive request : Type :=
| Register (body : InsertUser.t) (random : list byte) (now : Z)
    (login_ok : bool)
| RegisterSchool (body : RegisterSchool.t) (random : list byte) (now : Z)
    (login_ok : bool)
| RegisterStudent (body : RegisterStudent.t) (random : list byte) (now : Z)
    (login_ok : bool)
| PostDonation (validatedData : InsertDonation.t Amount + string) (now : Z)
| PostEvent (req_user : option User.t) (schoolId : option Z) (body : Event)
    (now : Z)
| PutEvent (req_user : option User.t) (eventId : option Z) (body : Event)
| DeleteEvent_ (req_user : option User.t) (eventId : option Z).

(** The store after a request that is served from its arrival to its answer
    with no other request in between.  (A registration that overlaps with
    other requests is served in two turns: see [take_turn] below.) *)
Definition serve (r : request) (st : MemStorage Amount) : MemStorage Amount :=
  match r with
  | Register body random now login_ok =>
      exec (register body random now login_ok) st
  | RegisterSchool body random now login_ok =>
      exec (registerSchool body random now login_ok) st
  | RegisterStudent body random now login_ok =>
      exec (registerStudent body random now login_ok) st
  | PostDonation validatedData now => exec (postDonation validatedData now) st
  | PostEvent req_user schoolId body now =>
      exec (postEvent req_user schoolId body now) st
  | PutEvent req_user eventId body => exec (putEvent req_user eventId body) st
  | DeleteEvent_ req_user eventId => exec (deleteEventRoute req_user eventId) st
  end.

(** The stores the server goes through when it serves one request at a
    time. *)
Inductive served : MemStorage Amount -> Prop :=
| served_start : served constructor
| served_request (st : MemStorage Amount) (r : request) :
    served st -> served (serve r st).

Fixpoint serve_all (rs : list request) (st : MemStorage Amount)
  : MemStorage Amount :=
  match rs with
  | [] => st
  | r :: rest => serve_all rest (serve r st)
  end.

(** The records a registration stores: [random] is the salt drawn for the
    password, [userId] the id the new user was given. *)
Definition plain_account (body : InsertUser.t) (random : list byte)
  : InsertUser.t :=
  InsertUser.mk (InsertUser.username body) (InsertUser.email body)
    (hashPassword (InsertUser.password body) random) (InsertUser.role body).

Definition school_account (body : RegisterSchool.t) (random : list byte)
  : InsertUser.t :=
  InsertUser.mk (RegisterSchool.username body) (RegisterSchool.email body)
    (hashPassword (RegisterSchool.password body) random) "school".

Definition school_record (body : RegisterSchool.t) (userId : Z)
  : InsertSchool.t :=
  InsertSchool.mk userId (RegisterSchool.schoolName body)
    (RegisterSchool.adminName body) (RegisterSchool.address body)
    (RegisterSchool.phone body)
    (match RegisterSchool.fundraisingGoal body with
     | Some fundraisingGoal =>
         if truthy fundraisingGoal then fundraisingGoal else 0%Q
     | None => 0%Q
     end).

Definition student_account (body : RegisterStudent.t) (random : list byte)
  : InsertUser.t :=
  InsertUser.mk (RegisterStudent.username body) (RegisterStudent.email body)
    (hashPassword (RegisterStudent.password body) random) "student".

Definition student_record (body : RegisterStudent.t) (userId schoolId : Z)
  : InsertStudent.t :=
  InsertStudent.mk userId schoolId (RegisterStudent.firstName body)
    (RegisterStudent.lastName body) (RegisterStudent.grade body)
    (match RegisterStudent.personalGoal body with
     | Some personalGoal =>
         if truthy personalGoal then Some personalGoal else None
     | None => None
     end).

(** The user name and the password a registration is made with. *)
Definition credentials (r : request) : option (string * string) :=
  match r with
  | Register body _ _ _ =>
      Some (InsertUser.username body, InsertUser.password body)
  | RegisterSchool body _ _ _ =>
      Some (RegisterSchool.username body, RegisterSchool.password body)
  | RegisterStudent body _ _ _ =>
      Some (RegisterStudent.username body, RegisterStudent.password body)
  | _ => None
  end.

End Auth.

Arguments request : clear implicits.

(** *** Registrations that overlap

    A handler runs without interruption from one [await] to the next, and
    after an [await] of a method of the store it goes on before any other
    request is looked at.  [hashPassword] awaits the key derivation, which
    ends in a later turn of the event loop: the requests that arrive
    meanwhile are served first.  The three registrations call it between
    their checks and their writes, so a registration is served in two
    turns, and [serve] above is the case where nothing comes in between. *)

(** The server: the store, and the registrations whose password is being
    hashed, oldest first. *)
Module Server.
Record t (Amount : Type) := mk {
  store : MemStorage Amount;
  hashing : list (request Amount) }.
Arguments mk {Amount}.
Arguments store {Amount}.
Arguments hashing {Amount}.
End Server.

Section Overlap.

Context {Amount : Type}.
Variable scrypt : string -> string -> list byte.

Notation "'await' x <- c ; k" := (bind c (fun x => k))
  (at level 10, x name, c at level 100, k at level 200, only parsing).

(** [POST /api/register] up to the call of [hashPassword]: the refusal, or
    [None] when the handler goes on; and from its return. *)
Definition register_checks (body : InsertUser.t)
  : M Amount (option (Reply User.t)) :=
  await existingUser <- getUserByUsername (InsertUser.username body);
  match existingUser with
  | Some _ => ret (Some (Refused 400 "Username already exists"))
  | None => ret None
  end.

Definition register_writes (body : InsertUser.t) (random : list byte)
  (now : Z) (login_ok : bool) : M Amount (Reply User.t) :=
  await user <- createUser (plain_account scrypt body random) now;
  ret (if login_ok then Sent 201 user else Refused 500 "").

(** [POST /api/register/school] *)
Definition registerSchool_checks (body : RegisterSchool.t)
  : M Amount (option (Reply (User.t * School.t))) :=
  await existingUser <- getUserByUsername (RegisterSchool.username body);
  match existingUser with
  | Some _ => ret (Some (Refused 400 "Username already exists"))
  | None =>
      await existingEmail <- getUserByEmail (RegisterSchool.email body);
      match existingEmail with
      | Some _ => ret (Some (Refused 400 "Email already exists"))
      | None => ret None
      end
  end.

Definition registerSchool_writes (body : RegisterSchool.t)
  (random : list byte) (now : Z) (login_ok : bool)
  : M Amount (Reply (User.t * School.t)) :=
  await user <- createUser (school_account scrypt body random) now;
  await school <- createSchool (school_record body (User.id user)) now;
  ret (if login_ok then Sent 201 (user, school)
       else Refused 500 "Registration successful but failed to login").

(** [POST /api/register/student] *)
Definition registerStudent_checks (body : RegisterStudent.t)
  : M Amount (option (Reply (User.t * Student.t))) :=
  await school <-
    match RegisterStudent.schoolId body with
    | Some schoolId => getSchool schoolId
    | None => ret None
    end;
  match school with
  | None => ret (Some (Refused 400 "Selected school does not exist"))
  | Some _ =>
      await existingUser <- getUserByUsername (RegisterStudent.username body);
      match existingUser with
      | Some _ => ret (Some (Refused 400 "Username already exists"))
      | None =>
          await existingEmail <- getUserByEmail (RegisterStudent.email body);
          match existingEmail with
          | Some _ => ret (Some (Refused 400 "Email already exists"))
          | None => ret None
          end
      end
  end.

(** [schoolId] is the school of the body, which the checks have found. *)
Definition registerStudent_writes (body : RegisterStudent.t) (schoolId : Z)
  (random : list byte) (now : Z) (login_ok : bool)
  : M Amount (Reply (User.t * Student.t)) :=
  await user <- createUser (student_account scrypt body random) now;
  await student <-
    createStudent (student_record body (User.id user) schoolId) now;
  ret (if login_ok then Sent 201 (user, student)
       else Refused 500 "Registration successful but failed to login").

(** The requests that call [hashPassword]. *)
Definition hashes_password (r : request Amount) : bool :=
  match r with
  | Register _ _ _ _ | RegisterSchool _ _ _ _ | RegisterStudent _ _ _ _ =>
      true
  | _ => false
  end.

(** The checks of a registration let it through. *)
Definition passes_checks (r : request Amount) (st : MemStorage Amount)
  : bool :=
  match r with
  | Register body _ _ _ =>
      match eval (register_checks body) st with
      | None => true
      | Some _ => false
      end
  | RegisterSchool body _ _ _ =>
      match eval (registerSchool_checks body) st with
      | None => true
      | Some _ => false
      end
  | RegisterStudent body _ _ _ =>
      match eval (registerStudent_checks body) st with
      | None => true
      | Some _ => false
      end
  | _ => true
  end.

(** The store after the writes of a registration. *)
Definition writes (r : request Amount) (st : MemStorage Amount)
  : MemStorage Amount :=
  match r with
  | Register body random now login_ok =>
      exec (register_writes body random now login_ok) st
  | RegisterSchool body random now login_ok =>
      exec (registerSchool_writes body random now login_ok) st
  | RegisterStudent body random now login_ok =>
      match RegisterStudent.schoolId body with
      | Some schoolId =>
          exec (registerStudent_writes body schoolId random now login_ok) st
      | None => st
      end
  | _ => st
  end.

(** A turn of the event loop: a request arrives, and is served up to its
    first call of [hashPassword] or to its end; or the key derivation of
    the [n]-th registration in flight ends, and its writes run. *)
Inductive turn : Type :=
| Arrives (r : request Amount)
| Hashed (n : nat).

Definition take_turn (t : turn) (s : Server.t Amount) : Server.t Amount :=
  match t with
  | Arrives r =>
      if hashes_password r then
        if passes_checks r (Server.store s)
        then Server.mk (Server.store s) (Server.hashing s ++ [r])
        else s
      else Server.mk (serve scrypt r (Server.store s)) (Server.hashing s)
  | Hashed n =>
      match nth_error (Server.hashing s) n with
      | Some r =>
          Server.mk (writes r (Server.store s))
            (firstn n (Server.hashing s) ++ skipn (S n) (Server.hashing s))
      | None => s
      end
  end.

Fixpoint take_turns (ts : list turn) (s : Server.t Amount)
  : Server.t Amount :=
  match ts with
  | [] => s
  | t :: rest => take_turns rest (take_turn t s)
  end.

(** The states the server goes through. *)
Inductive serving : Server.t Amount -> Prop :=
| serving_start : serving (Server.mk constructor [])
| serving_turn (s : Server.t Amount) (t : turn) :
    serving s -> serving (take_turn t s).

(** Every school and every student belongs to one user of the matching
    role, and no user has two schools or two students. *)
Definition accounts_owned (st : MemStorage Amount) : Prop :=
  NoDup (map School.userId (JsMap.values (schools st))) /\
  NoDup (map Student.userId (JsMap.values (students st))) /\
  Forall
    (fun school =>
       exists user, JsMap.get (School.userId school) (users st) = Some user
                    /\ User.role user = "school"%string)
    (JsMap.values (schools st)) /\
  Forall
    (fun student =>
       exists user, JsMap.get (Student.userId student) (users st) = Some user
                    /\ User.role user = "student"%string)
    (JsMap.values (students st)).

(** The school a student registers for is in the store. *)
Definition school_known (r : request Amount) (st : MemStorage Amount)
  : bool :=
  match r with
  | RegisterStudent body _ _ _ =>
      match RegisterStudent.schoolId body with
      | Some schoolId => JsMap.has schoolId (schools st)
      | None => false
      end
  | _ => true
  end.

End Overlap.

Arguments turn : clear implicits.

(** *** The profile of the session user ([GET /api/profile]) *)

(** [{ user, school, stats }] or [{ user, student, school, stats }]; a
    field that is [undefined] is left out of the JSON. *)
Inductive Profile : Type :=
| SchoolProfile (user : User.t) (school : School.t) (stats : SchoolStats.t)
| StudentProfile (user : User.t) (student : Student.t)
    (school : option School.t) (stats : StudentStats.t).

Section ProfileRoute.

Context {Amount : Type}.
Variable Number : Amount -> number.

Notation "'await' x <- c ; k" := (bind c (fun x => k))
  (at level 10, x name, c at level 100, k at level 200, only parsing).

Definition profile (req_user : option User.t) : M Amount (Reply Profile) :=
  match req_user with
  | None => ret (Refused 401 "Not authenticated")
  | Some user =>
      let userId := User.id user in
      if String.eqb (User.role user) "school" then
        await school <- getSchoolByUserId userId;
        match school with
        | None => ret (Refused 404 "School profile not found")
        | Some school =>
            await stats <- getSchoolStats Number (School.id school);
            ret (Sent 200 (SchoolProfile user school stats))
        end
      else if String.eqb (User.role user) "student" then
        await student <- getStudentByUserId userId;
        match student with
        | None => ret (Refused 404 "Student profile not found")
        | Some student =>
            await school <- getSchool (Student.schoolId student);
            await stats <- getStudentStats Number (Student.id student);
            ret (Sent 200 (StudentProfile user student school stats))
        end
      else ret (Refused 400 "Unknown user role")
  end.

End ProfileRoute.

(** Every collection enumerates its keys in increasing order, and the keys
    are positive and below the counter of the collection. *)
Definition ordered_below (bound : Z) (keys : list Z) : Prop :=
  (0 < bound)%Z /\
  StronglySorted Z.lt keys /\ Forall (fun k => (0 < k < bound)%Z) keys.

Definition collections_ordered {Amount : Type} (st : MemStorage Amount)
  : Prop :=
  ordered_below (userCurrentId st) (JsMap.keys (users st)) /\
  ordered_below (schoolCurrentId st) (JsMap.keys (schools st)) /\
  ordered_below (studentCurrentId st) (JsMap.keys (students st)) /\
  ordered_below (donationCurrentId st) (JsMap.keys (donations st)) /\
  ordered_below (eventCurrentId st) (JsMap.keys (events st)).

(** * Numbers as doubles

    The definitions above compute with exact rationals.  What depends on the
    rounding of the arithmetic is stated over this module, where a
    JavaScript [number] is an IEEE 754 binary64 value ([spec_float] with a
    precision of 53 bits): [+], [-], [*] and [/] round to nearest, ties to
    even, and yield [NaN] and the infinities as the standard says. *)

Module Double.

Definition prec : Z := 53.
Definition emax : Z := 1024.

Abbreviation double := spec_float (only parsing).

Definition zero : double := S754_zero false.
Definition add : double -> double -> double := SFadd prec emax.
Definition sub : double -> double -> double := SFsub prec emax.
Definition mul : double -> double -> double := SFmul prec emax.
Definition div : double -> double -> double := SFdiv prec emax.

(** An integer as a float.  The mantissa is left as it is: the operations
    round their results, not their arguments. *)
Definition of_Z (n : Z) : double :=
  match n with
  | Z0 => zero
  | Zpos m => S754_finite false m 0
  | Zneg m => S754_finite true m 0
  end.

(** The double nearest to a rational (the quotient of two integers, rounded
    once): what [Number] makes of a decimal string and what a JSON number
    is read as. *)
Definition of_number (x : Q) : double :=
  div (of_Z (Qnum x)) (of_Z (Zpos (Qden x))).

(** The rational a finite double stands for. *)
Definition value (x : double) : option Q :=
  match x with
  | S754_zero _ => Some 0%Q
  | S754_finite s m e =>
      Some (inject_Z (cond_Zopp s (Zpos m)) * Qpower 2 e)%Q
  | S754_infinity _ | S754_nan => None
  end.

Definition val (x : double) : Q :=
  match value x with Some v => v | None => 0%Q end.

(** [x] is finite and stands for [q]. *)
Definition is_exactly (x : double) (q : Q) : bool :=
  match value x with Some v => Qeq_bool v q | None => false end.

(** Truthiness of a number: [0], [-0] and [NaN] are falsy. *)
Definition truthy (x : double) : bool :=
  match x with
  | S754_zero _ | S754_nan => false
  | S754_infinity _ | S754_finite _ _ _ => true
  end.

(** What [Math.round] returns: an integer, [NaN] or an infinity.  ([-0] is
    held as [0]; JSON writes both as [0].) *)
Inductive rounded : Type :=
| Int (n : Z)
| NaN
| Infinity (negative : bool).

(** [Math.round]: the nearest integer, halves towards plus infinity; the
    integer is found without rounding. *)
Definition Math_round (x : double) : rounded :=
  match x with
  | S754_zero _ => Int 0
  | S754_finite _ _ _ => Int (Qfloor (val x + (1 # 2)))
  | S754_infinity s => Infinity s
  | S754_nan => NaN
  end.

(** [Math.min(bound, x)] for an integer [bound]. *)
Definition Math_min (bound : Z) (x : rounded) : rounded :=
  match x with
  | Int n => Int (Z.min bound n)
  | Infinity false => Int bound
  | Infinity true => Infinity true
  | NaN => NaN
  end.

(** The greater of two numbers as [Math.max] has it: [NaN] if one of them
    is, and [+0] above [-0]. *)
Definition max2 (a b : double) : double :=
  match SFcompare a b with
  | Some Lt => b
  | Some Gt => a
  | Some Eq => match a with S754_zero true => b | _ => a end
  | None => S754_nan
  end.

(** [Math.max(...xs)] *)
Definition Math_max (xs : list double) : double :=
  fold_left max2 xs (S754_infinity true).

(** What [sort] reads of the result of a comparator: its sign, and [0] for
    [NaN]. *)
Definition sign (x : double) : number :=
  match x with
  | S754_finite false _ _ | S754_infinity false => 1%Q
  | S754_finite true _ _ | S754_infinity true => (-1)%Q
  | S754_zero _ | S754_nan => 0%Q
  end.

Module SchoolStats.
Record t := mk {
    totalRaised : double; totalDonations : nat; activeStudents : nat }.
End SchoolStats.

Module StudentStats.
Record t := mk {
    totalRaised : double; totalDonations : nat;
    largestDonation : double; averageDonation : double }.
End StudentStats.

Module TopStudent.
Record t := mk {
    student : Student.t; amountRaised : double; goalProgress : rounded }.
End TopStudent.

Section Stats.

Context {Amount : Type}.
Variable Number : Amount -> double.

Notation "'await' x <- c ; k" := (bind c (fun x => k))
  (at level 10, x name, c at level 100, k at level 200, only parsing).

(** [ds.reduce((sum, donation) => sum + Number(donation.amount), 0)] *)
Definition reduce_amounts (ds : list (Donation.t Amount)) : double :=
  fold_left (fun sum donation => add sum (Number (Donation.amount donation)))
    ds zero.

Definition getSchoolStats (schoolId : Z) : M Amount SchoolStats.t :=
  await schoolStudents <- getStudentsBySchoolId schoolId;
  let studentIds := map Student.id schoolStudents in
  await allDonations <-
    gets (fun st =>
      List.filter
        (fun donation =>
           Array_includes studentIds (Donation.studentId donation))
        (JsMap.values (donations st)));
  let totalRaised := reduce_amounts allDonations in
  ret (SchoolStats.mk totalRaised (length allDonations)
         (length schoolStudents)).

Definition getStudentStats (studentId : Z) : M Amount StudentStats.t :=
  await studentDonations <- getDonationsByStudentId studentId;
  let totalRaised := reduce_amounts studentDonations in
  let largestDonation :=
    if (0 <? length studentDonations)%nat
    then Math_max (map (fun d => Number (Donation.amount d)) studentDonations)
    else zero in
  let averageDonation :=
    if (0 <? length studentDonations)%nat
    then div totalRaised (of_Z (Z.of_nat (length studentDonations)))
    else zero in
  ret (StudentStats.mk totalRaised (length studentDonations)
         largestDonation averageDonation).

(** The personal goal of a student, as the number that is stored. *)
Definition personalGoal (student : Student.t) : option double :=
  option_map of_number (Student.personalGoal student).

(** The [goalProgress] expression of [getTopPerformingStudents]. *)
Definition topGoalProgress (student : Student.t) (stats : StudentStats.t)
  : rounded :=
  match personalGoal student with
  | Some personalGoal =>
      if truthy personalGoal
      then Math_round
             (mul (div (StudentStats.totalRaised stats) personalGoal)
                (of_Z 100))
      else Int 0
  | None => Int 0
  end.

(** [limit] is [None] when the argument is omitted (default [10]). *)
Definition getTopPerformingStudents (schoolId : Z) (limit : option Z)
  : M Amount (list TopStudent.t) :=
  let limit := match limit with Some n => n | None => 10%Z end in
  await schoolStudents <- getStudentsBySchoolId schoolId;
  await studentsWithProgress <-
    Promise_all_map
      (fun student =>
         await stats <- getStudentStats (Student.id student);
         ret (TopStudent.mk student (StudentStats.totalRaised stats)
                (topGoalProgress student stats)))
      schoolStudents;
  let sortedStudents :=
    Array_sort
      (fun a b =>
         sign (sub (TopStudent.amountRaised b) (TopStudent.amountRaised a)))
      studentsWithProgress in
  ret (Array_slice0 sortedStudents limit).

(** The [goalProgress] expression of the dashboards
    ([GET /api/students/dashboard], [GET /api/schools/:id/students]);
    [parseFloat] of a number that is truthy is that number. *)
Definition dashboardGoalProgress (student : Student.t)
  (stats : StudentStats.t) : rounded :=
  match personalGoal student with
  | Some personalGoal =>
      if truthy personalGoal
      then Math_min 100
             (Math_round
                (mul (div (StudentStats.totalRaised stats) personalGoal)
                   (of_Z 100)))
      else Int 0
  | None => Int 0
  end.

(** The rational the amount of a donation stands for. *)
Definition amount_value (a : Amount) : number := val (Number a).

(** No addition of the sum [sum + x1 + x2 + ...], taken from the left, is
    rounded. *)
Fixpoint adds_exactly_from (sum : double) (xs : list double) : bool :=
  match xs with
  | [] => true
  | x :: rest =>
      is_exactly (add sum x) (val sum + val x)
      && adds_exactly_from (add sum x) rest
  end.

(** [reduce_amounts ds] is computed without rounding. *)
Definition adds_exactly (ds : list (Donation.t Amount)) : bool :=
  adds_exactly_from zero (map (fun d => Number (Donation.amount d)) ds).

End Stats.

End Double.

(** ** Sample stores

    Amounts are held as numbers here, so [Number] is the identity.  The
    first store is the example of the specification (students A and B of one
    school, with donations 30, 40 and 50) with a third student who received
    nothing. *)

Module Sample.

Definition Number (x : number) : number := x.

Definition admin : InsertUser.t :=
  InsertUser.mk "hill" "office@hill.example" "scrypt" "school".

Definition hill : InsertSchool.t :=
  InsertSchool.mk 1 "Hill School" "Dana" "1 Hill Road" "555-0100" 1000%Q.

Definition pupil (userId : Z) (firstName grade : string)
  (personalGoal : option number) : InsertStudent.t :=
  InsertStudent.mk userId 1 firstName "Doe" grade personalGoal.

Definition account (username : string) : InsertUser.t :=
  InsertUser.mk username (username ++ "@hill.example") "scrypt" "student".

Definition ops : list (op number) :=
  [ CreateUser admin 1000;
    CreateSchool hill 1001;
    CreateUser (account "a") 1002;
    CreateStudent (pupil 2 "A" "5" (Some 100%Q)) 1002;
    CreateUser (account "b") 1003;
    CreateStudent (pupil 3 "B" "6" (Some 200%Q)) 1003;
    CreateUser (account "c") 1004;
    CreateStudent (pupil 4 "C" "5" None) 1004;
    CreateDonation (InsertDonation.mk 1 30%Q) 1005;
    CreateDonation (InsertDonation.mk 2 50%Q) 1006;
    CreateDonation (InsertDonation.mk 1 40%Q) 1007;
    CreateEvent {[ "schoolId" := JNumber 1%Q; "title" := JString "Fun run" ]} 1008
  ]%Z%string.

Definition store : MemStorage number := snd (run ops constructor).

(** A student whose goal is exceeded: 150 raised for a goal of 100. *)
Definition ops_exceeded : list (op number) :=
  [ CreateUser admin 1000;
    CreateSchool hill 1001;
    CreateUser (account "a") 1002;
    CreateStudent (pupil 2 "A" "5" (Some 100%Q)) 1002;
    CreateDonation (InsertDonation.mk 1 150%Q) 1003 ]%Z%string.

Definition store_exceeded : MemStorage number :=
  snd (run ops_exceeded constructor).

(** A student whose grade label is the name of a member of
    [Object.prototype], and a donation of 50 to that student. *)
Definition ops_prototype_grade : list (op number) :=
  [ CreateUser admin 1000;
    CreateSchool hill 1001;
    CreateUser (account "a") 1002;
    CreateStudent (pupil 2 "A" "constructor" (Some 100%Q)) 1002;
    CreateDonation (InsertDonation.mk 1 50%Q) 1003 ]%Z%string.

Definition store_prototype_grade : MemStorage number :=
  snd (run ops_prototype_grade constructor).

(** Amounts with cents: 10.10 to the second student, then 20.20 and 30.30
    to the first. *)
Definition ops_cents : list (op number) :=
  [ CreateUser admin 1000;
    CreateSchool hill 1001;
    CreateUser (account "a") 1002;
    CreateStudent (pupil 2 "A" "5" (Some 100%Q)) 1002;
    CreateUser (account "b") 1003;
    CreateStudent (pupil 3 "B" "6" (Some 200%Q)) 1003;
    CreateDonation (InsertDonation.mk 2 (1010 # 100)%Q) 1005;
    CreateDonation (InsertDonation.mk 1 (2020 # 100)%Q) 1006;
    CreateDonation (InsertDonation.mk 1 (3030 # 100)%Q) 1007 ]%Z%string.

Definition store_cents : MemStorage number := snd (run ops_cents constructor).

(** 115 raised for a goal of 200. *)
Definition ops_half : list (op number) :=
  [ CreateUser admin 1000;
    CreateSchool hill 1001;
    CreateUser (account "a") 1002;
    CreateStudent (pupil 2 "A" "5" (Some 200%Q)) 1002;
    CreateDonation (InsertDonation.mk 1 115%Q) 1003 ]%Z%string.

Definition store_half : MemStorage number := snd (run ops_half constructor).

(** 29 raised for a goal of 1e-320. *)
Definition ops_tiny_goal : list (op number) :=
  [ CreateUser admin 1000;
    CreateSchool hill 1001;
    CreateUser (account "a") 1002;
    CreateStudent (pupil 2 "A" "5" (Some (1 # 10 ^ 320)%Q)) 1002;
    CreateDonation (InsertDonation.mk 1 29%Q) 1003 ]%Z%string.

Definition store_tiny_goal : MemStorage number :=
  snd (run ops_tiny_goal constructor).

(** The session user of student A. *)
Definition user_a : User.t :=
  User.mk 2 "a" "a@hill.example" "scrypt" "student" 1002.

End Sample.

(** ** A sample session

    Two schools register, then a student of the first school; a donation is
    made to the student, the first school announces two events, one of
    them with a date that cannot be read, and the second school one. *)

Module Session.

(** A stand-in for the key derivation: the bytes of the password followed
    by those of the salt. *)
Definition scrypt (password salt : string) : list byte :=
  list_byte_of_string (password ++ salt).

(** The dates the session uses, as times in milliseconds. *)
Definition Date_parse (s : string) : option Z :=
  if String.eqb s "2030-01-01T00:00:00.000Z" then Some 1893456000000%Z
  else if String.eqb s "2030-06-01T00:00:00.000Z" then Some 1906502400000%Z
  else None.

Definition salt : list byte := [Byte.x5a; Byte.x01; Byte.xff].

Definition hill_body : RegisterSchool.t :=
  RegisterSchool.mk "hill" "office@hill.example" "secret" "secret"
    "Hill School" "Dana" "1 Hill Road" "555-0100" (Some 1000%Q).

Definition vale_body : RegisterSchool.t :=
  RegisterSchool.mk "vale" "office@vale.example" "hidden" "hidden"
    "Vale School" "Eli" "2 Vale Road" "555-0200" None.

Definition a_body : RegisterStudent.t :=
  RegisterStudent.mk "a" "a@hill.example" "pw-a" "A" "Doe" "5" (Some 1%Z)
    (Some 100%Q) true.

(** The session users of the two schools. *)
Definition hill_user : User.t :=
  User.mk 1 "hill" "office@hill.example" (hashPassword scrypt "secret" salt)
    "school" 1000.

Definition vale_user : User.t :=
  User.mk 2 "vale" "office@vale.example" (hashPassword scrypt "hidden" salt)
    "school" 1001.

Definition registrations : list (request number) :=
  [ RegisterSchool hill_body salt 1000 true;
    RegisterSchool vale_body salt 1001 false ]%Z.

Definition enrolment : request number :=
  RegisterStudent a_body salt 1002%Z true.

Definition later : list (request number) :=
  [ PostDonation (inl (InsertDonation.mk 1 30%Q)) 1005;
    PostEvent (Some hill_user) (Some 1)
      {[ "title" := JString "Fun run";
         "date" := JString "2030-06-01T00:00:00.000Z" ]} 1006;
    PostEvent (Some hill_user) (Some 1)
      {[ "title" := JString "Bake sale"; "date" := JString "soon" ]} 1007;
    PostEvent (Some vale_user) (Some 2)
      {[ "title" := JString "Quiz";
         "date" := JString "2030-01-01T00:00:00.000Z" ]} 1008
  ]%Z%string.

(** The store after the registrations, and after the whole session. *)
Definition registered : MemStorage number :=
  serve_all scrypt registrations constructor.

Definition store : MemStorage number :=
  serve_all scrypt later (serve scrypt enrolment registered).

(** The first registration of the session while its password is hashed,
    and the registration of the student likewise. *)
Definition hill_in_flight : Server.t number :=
  take_turn scrypt (Arrives (RegisterSchool hill_body salt 1000%Z true))
    (Server.mk constructor []).

Definition a_in_flight : Server.t number :=
  take_turn scrypt (Arrives enrolment) (Server.mk registered []).

(** After the session, two registrations of the name "twin": the second
    arrives while the password of the first is hashed. *)
Definition twin_first : InsertUser.t :=
  InsertUser.mk "twin" "first@hill.example" "pw-1" "student".

Definition twin_second : InsertUser.t :=
  InsertUser.mk "twin" "second@hill.example" "pw-2" "student".

Definition twins : list (turn number) :=
  [ Arrives (Register twin_first salt 1009%Z true);
    Arrives (Register twin_second salt 1010%Z true);
    Hashed 0; Hashed 0 ].

Definition after_twins : Server.t number :=
  take_turns scrypt twins (Server.mk store []).

End Session.

(** * Properties *)

Section Properties.

Context {Amount : Type}.
Variable Number : Amount -> number.

Implicit Types st : MemStorage Amount.
Implicit Types ds : list (Donation.t Amount).

(** ** Arithmetic of the aggregation *)

Lemma fold_left_amounts ds (a : number) :
  (fold_left (fun sum donation => sum + Number (Donation.amount donation))
     ds a == a + sum_amounts Number ds)%Q.
Proof.
  revert a. induction ds as [|d ds IH]; intros a; simpl.
  - ring.
  - rewrite IH. ring.
Qed.

Lemma reduce_amounts_sum ds :
  (reduce_amounts Number ds == sum_amounts Number ds)%Q.
Proof. unfold reduce_amounts. rewrite fold_left_amounts. ring. Qed.

Lemma sum_amounts_cons (d : Donation.t Amount) ds :
  sum_amounts Number (d :: ds)
  = (Number (Donation.amount d) + sum_amounts Number ds)%Q.
Proof. reflexivity. Qed.

Lemma sum_amounts_Qsum ds :
  sum_amounts Number ds = Qsum (map (fun d => Number (Donation.amount d)) ds).
Proof. induction ds as [|d ds IH]; simpl; [reflexivity | now rewrite IH]. Qed.




(** ** Student statistics *)


(** ** School statistics *)

Lemma includes_enrolled_ids (studs : list Student.t) (schoolId k : Z) :
  Array_includes
    (map Student.id
       (List.filter (fun s => (Student.schoolId s =? schoolId)%Z) studs)) k
  = existsb
      (fun s => ((Student.schoolId s =? schoolId)
                 && (Student.id s =? k))%Z%bool) studs.
Proof.
  unfold Array_includes.
  induction studs as [|s studs IH]; simpl; [reflexivity |].
  destruct (Student.schoolId s =? schoolId)%Z; simpl.
  - now rewrite IH, (Z.eqb_sym k).
  - exact IH.
Qed.

Lemma school_donations_code st (schoolId : Z) :
  List.filter
    (fun donation =>
       Array_includes
         (map Student.id (eval (getStudentsBySchoolId schoolId) st))
         (Donation.studentId donation))
    (JsMap.values (donations st))
  = school_donations st schoolId.
Proof.
  unfold school_donations, getStudentsBySchoolId, eval, gets. cbn [fst].
  apply List.filter_ext. intros d. apply includes_enrolled_ids.
Qed.

Lemma getSchoolStats_eval st (schoolId : Z) :
  eval (getSchoolStats Number schoolId) st
  = SchoolStats.mk (reduce_amounts Number (school_donations st schoolId))
      (length (school_donations st schoolId))
      (length (enrolled st schoolId)).
Proof.
  pose proof (school_donations_code st schoolId) as H.
  unfold getSchoolStats, getStudentsBySchoolId, eval, bind, gets, ret in *.
  cbn [fst snd] in *. rewrite H. reflexivity.
Qed.

Lemma filter_nothing {A : Type} (l : list A) :
  List.filter (fun _ => false) l = [].
Proof. induction l; simpl; auto. Qed.

Lemma school_donations_no_student st (schoolId : Z) :
  enrolled st schoolId = [] -> school_donations st schoolId = [].
Proof.
  intros H. rewrite <- school_donations_code.
  unfold getStudentsBySchoolId, eval, gets. cbn [fst].
  unfold enrolled in H. rewrite H. apply filter_nothing.
Qed.


(** ** The aggregation methods only read *)

Lemma Promise_all_map_pure {A B : Type} (f : A -> M Amount B) (xs : list A) st :
  (forall x st', f x st' = (eval (f x) st', st')) ->
  Promise_all_map f xs st = (map (fun x => eval (f x) st) xs, st).
Proof.
  intros Hf. induction xs as [|x xs IH]; [reflexivity |].
  cbn [Promise_all_map map]. unfold bind at 1. rewrite Hf.
  unfold bind at 1. rewrite IH. reflexivity.
Qed.

Lemma getTopPerformingStudents_run st (schoolId : Z) (limit : option Z) :
  getTopPerformingStudents Number schoolId limit st
  = (Array_slice0
       (Array_sort
          (fun a b => (TopStudent.amountRaised b - TopStudent.amountRaised a)%Q)
          (map (progress_entry Number st) (enrolled st schoolId)))
       (match limit with Some n => n | None => 10%Z end),
     st).
Proof.
  unfold getTopPerformingStudents. unfold bind at 1.
  unfold getStudentsBySchoolId at 1, gets at 1.
  unfold bind at 1. rewrite Promise_all_map_pure by reflexivity.
  reflexivity.
Qed.

(** C7. [getStudentStats], [getSchoolStats] and [getTopPerformingStudents]
    return the store they were given: the five collections and the five id
    counters are unchanged. *)
Theorem aggregation_reads_only st (id : Z) (limit : option Z) :
  exec (getStudentStats Number id) st = st /\
  exec (getSchoolStats Number id) st = st /\
  exec (getTopPerformingStudents Number id limit) st = st.
Proof.
  split; [reflexivity |]. split; [reflexivity |].
  unfold exec. rewrite getTopPerformingStudents_run. reflexivity.
Qed.

(** ** Sorting by a comparator that is a difference of keys *)

Section SortFacts.

Context {A : Type} (cmp : A -> A -> number) (key : A -> number).
Hypothesis cmp_key : forall a b, (cmp a b == key a - key b)%Q.

Lemma cmp_pos_iff (a b : A) : (0 < cmp a b)%Q <-> (key b < key a)%Q.
Proof. rewrite cmp_key. split; intros H; lra. Qed.

Lemma sort_insert_perm (x : A) (l : list A) :
  Permutation (sort_insert cmp x l) (x :: l).
Proof.
  induction l as [|y r IH]; cbn [sort_insert]; [reflexivity |].
  destruct (Qlt_le_dec 0 (cmp x y)); [| reflexivity].
  rewrite IH. apply perm_swap.
Qed.

Lemma Array_sort_perm (l : list A) : Permutation (Array_sort cmp l) l.
Proof.
  induction l as [|x l IH]; [reflexivity |].
  change (Array_sort cmp (x :: l)) with (sort_insert cmp x (Array_sort cmp l)).
  rewrite sort_insert_perm. now constructor.
Qed.

Lemma sort_insert_sorted (x : A) (l : list A) :
  StronglySorted (fun a b => (key a <= key b)%Q) l ->
  StronglySorted (fun a b => (key a <= key b)%Q) (sort_insert cmp x l).
Proof.
  induction l as [|y r IH]; intros Hs; cbn [sort_insert].
  - constructor; constructor.
  - apply StronglySorted_inv in Hs as [Hr Hy].
    destruct (Qlt_le_dec 0 (cmp x y)) as [Hlt | Hle].
    + constructor; [now apply IH |].
      apply (Permutation_Forall (Permutation_sym (sort_insert_perm x r))).
      constructor; [| exact Hy].
      apply cmp_pos_iff in Hlt. lra.
    + assert (Hxy : (key x <= key y)%Q) by (rewrite cmp_key in Hle; lra).
      constructor; [constructor; assumption |].
      constructor; [exact Hxy |].
      eapply List.Forall_impl; [| exact Hy].
      intros z Hz. cbv beta in Hz. lra.
Qed.

Lemma Array_sort_sorted (l : list A) :
  StronglySorted (fun a b => (key a <= key b)%Q) (Array_sort cmp l).
Proof.
  induction l as [|x l IH]; [constructor |].
  change (Array_sort cmp (x :: l)) with (sort_insert cmp x (Array_sort cmp l)).
  now apply sort_insert_sorted.
Qed.

(** Stability: the elements of any one key keep their relative order. *)
Lemma sort_insert_stable (v : number) (x : A) (l : list A) :
  List.filter (fun a => Qeq_bool (key a) v) (sort_insert cmp x l)
  = List.filter (fun a => Qeq_bool (key a) v) (x :: l).
Proof.
  induction l as [|y r IH]; cbn [sort_insert]; [reflexivity |].
  destruct (Qlt_le_dec 0 (cmp x y)) as [Hlt | Hle]; [| reflexivity].
  apply cmp_pos_iff in Hlt.
  cbn [List.filter] in *. rewrite IH.
  destruct (Qeq_bool (key y) v) eqn:Ey, (Qeq_bool (key x) v) eqn:Ex;
    try reflexivity.
  apply Qeq_bool_iff in Ey, Ex. rewrite Ey, Ex in Hlt.
  exfalso. revert Hlt. apply Qlt_irrefl.
Qed.

Lemma Array_sort_stable (v : number) (l : list A) :
  List.filter (fun a => Qeq_bool (key a) v) (Array_sort cmp l)
  = List.filter (fun a => Qeq_bool (key a) v) l.
Proof.
  induction l as [|x l IH]; [reflexivity |].
  change (Array_sort cmp (x :: l)) with (sort_insert cmp x (Array_sort cmp l)).
  rewrite sort_insert_stable. cbn [List.filter]. now rewrite IH.
Qed.

End SortFacts.

(** ** Slices *)

Lemma Array_slice0_firstn {A : Type} (xs : list A) (e : Z) :
  exists n, Array_slice0 xs e = firstn n xs.
Proof. unfold Array_slice0. eauto. Qed.

Lemma Array_slice0_length {A : Type} (xs : list A) (e : Z) :
  (0 <= e)%Z -> (Z.of_nat (length (Array_slice0 xs e)) <= e)%Z.
Proof.
  intros He. unfold Array_slice0.
  destruct (e <? 0)%Z eqn:E; [apply Z.ltb_lt in E; lia |].
  rewrite length_firstn. lia.
Qed.

Lemma StronglySorted_firstn {A : Type} (R : A -> A -> Prop) (n : nat)
  (l : list A) :
  StronglySorted R l -> StronglySorted R (firstn n l).
Proof.
  revert n. induction l as [|x l IH]; intros [|n] Hs; cbn [firstn];
    try constructor.
  - apply IH. now apply StronglySorted_inv in Hs.
  - apply StronglySorted_inv in Hs as [_ Hx].
    rewrite List.Forall_forall in *. intros y Hy. apply Hx.
    rewrite <- (firstn_skipn n l). apply in_or_app. now left.
Qed.

Lemma filter_firstn_prefix {A : Type} (P : A -> bool) (n : nat) (l : list A) :
  prefix (List.filter P (firstn n l)) (List.filter P l).
Proof.
  exists (List.filter P (skipn n l)).
  now rewrite <- List.filter_app, firstn_skipn.
Qed.

Lemma map_filter_comm {A B : Type} (f : A -> B) (P : B -> bool) (l : list A) :
  List.filter P (map f l) = map f (List.filter (fun a => P (f a)) l).
Proof.
  induction l as [|a l IH]; cbn [map List.filter]; [reflexivity |].
  destruct (P (f a)); cbn [map]; now rewrite IH.
Qed.

Lemma StronglySorted_weaken {A : Type} (R R' : A -> A -> Prop) (l : list A) :
  (forall a b, R a b -> R' a b) -> StronglySorted R l -> StronglySorted R' l.
Proof.
  intros HR. induction 1 as [|x l Hs IH Hx]; constructor; [exact IH |].
  eapply List.Forall_impl; [| exact Hx]. intros b. apply HR.
Qed.

(** ** Ranking *)

Lemma prefix_map {A B : Type} (f : A -> B) (l1 l2 : list A) :
  prefix l1 l2 -> prefix (map f l1) (map f l2).
Proof. intros [k ->]. exists (map f k). apply map_app. Qed.

Lemma In_firstn {A : Type} (n : nat) (x : A) (l : list A) :
  In x (firstn n l) -> In x l.
Proof.
  intros H. rewrite <- (firstn_skipn n l). apply in_or_app. now left.
Qed.

(** C3, for a limit that is not negative (10 when omitted):
    [getTopPerformingStudents] returns at most [limit] entries, in
    non-increasing order of [amountRaised]; the entries that raised a given
    amount are, in the same order, the first of the enrolled students who
    raised that amount. *)
Theorem getTopPerformingStudents_ranking st (schoolId : Z) (limit : option Z) :
  (forall n, limit = Some n -> (0 <= n)%Z) ->
  let result := eval (getTopPerformingStudents Number schoolId limit) st in
  (Z.of_nat (length result)
   <= match limit with Some n => n | None => 10 end)%Z /\
  StronglySorted
    (fun a b => (TopStudent.amountRaised b <= TopStudent.amountRaised a)%Q)
    result /\
  forall v : number,
    prefix
      (map TopStudent.student
         (List.filter (fun e => Qeq_bool (TopStudent.amountRaised e) v) result))
      (List.filter (fun s => Qeq_bool (raised Number st s) v)
         (enrolled st schoolId)).
Proof.
  intros Hlimit. cbv zeta. unfold eval.
  rewrite getTopPerformingStudents_run. cbn [fst].
  set (cmp := fun a b : TopStudent.t =>
                (TopStudent.amountRaised b - TopStudent.amountRaised a)%Q).
  set (key := fun a : TopStudent.t => (- TopStudent.amountRaised a)%Q).
  assert (Hcmp : forall a b, (cmp a b == key a - key b)%Q)
    by (intros a b; unfold cmp, key; ring).
  set (entries := map (progress_entry Number st) (enrolled st schoolId)).
  split; [| split].
  - apply Array_slice0_length. destruct limit as [n|]; [now apply Hlimit | lia].
  - destruct (Array_slice0_firstn (Array_sort cmp entries)
                (match limit with Some n => n | None => 10%Z end)) as [n ->].
    apply StronglySorted_firstn.
    apply StronglySorted_weaken
      with (R := fun a b : TopStudent.t => (key a <= key b)%Q).
    + unfold key. intros a b H. lra.
    + now apply Array_sort_sorted.
  - intros v.
    destruct (Array_slice0_firstn (Array_sort cmp entries)
                (match limit with Some n => n | None => 10%Z end)) as [n ->].
    assert (Hkey : forall l : list TopStudent.t,
               List.filter (fun e => Qeq_bool (TopStudent.amountRaised e) v) l
               = List.filter (fun e => Qeq_bool (key e) (- v)) l).
    { intros l. apply List.filter_ext. intros e. unfold key.
      destruct (Qeq_bool (TopStudent.amountRaised e) v) eqn:E1,
               (Qeq_bool (- TopStudent.amountRaised e) (- v)) eqn:E2;
        try reflexivity.
      - apply Qeq_bool_iff in E1. apply Qeq_bool_neq in E2.
        exfalso. apply E2. now rewrite E1.
      - apply Qeq_bool_iff in E2. apply Qeq_bool_neq in E1.
        exfalso. apply E1. lra. }
    replace (List.filter (fun s => Qeq_bool (raised Number st s) v)
               (enrolled st schoolId))
      with (map TopStudent.student
              (List.filter
                 (fun e => Qeq_bool (TopStudent.amountRaised e) v) entries)).
    + apply prefix_map.
      rewrite (Hkey entries), <- (Array_sort_stable cmp key Hcmp (- v) entries).
      rewrite <- Hkey. apply filter_firstn_prefix.
    + unfold entries. rewrite map_filter_comm, map_map. cbn.
      apply map_id.
Qed.

(** ** Goal progress *)

Lemma Math_round_rounds (x : number) : rounds_to x (Qfloor (x + (1 # 2))).
Proof.
  unfold rounds_to.
  pose proof (Qfloor_le (x + (1 # 2))) as Hle.
  pose proof (Qlt_floor (x + (1 # 2))) as Hlt.
  rewrite inject_Z_plus in Hlt. change (inject_Z 1) with 1%Q in Hlt.
  split; lra.
Qed.

Lemma rounds_to_Qeq (x y : number) (n : Z) :
  (x == y)%Q -> rounds_to x n -> rounds_to y n.
Proof. unfold rounds_to. intros E [H1 H2]. rewrite <- E. now split. Qed.

Lemma dashboardGoalProgress_cap (student : Student.t) (stats : StudentStats.t) :
  dashboardGoalProgress student stats
  = Qmin 100 (topGoalProgress student stats).
Proof.
  unfold dashboardGoalProgress, topGoalProgress, Math_min.
  destruct (Student.personalGoal student) as [goal|]; [| reflexivity].
  destruct (truthy goal); reflexivity.
Qed.

(** ** [Map] facts *)

Section JsMapFacts.

Context {V : Type}.
Implicit Types m : JsMap.t V.

Lemma JsMap_get_In (k : Z) m :
  JsMap.get k m = None <-> ~ In k (JsMap.keys m).
Proof.
  induction m as [|[k' v'] m IH]; cbn [JsMap.get JsMap.keys map fst In].
  - tauto.
  - destruct (Z.eqb_spec k' k) as [-> | Hne].
    + split; [discriminate | tauto].
    + rewrite IH. unfold JsMap.keys. tauto.
Qed.

Lemma JsMap_has_In (k : Z) m :
  JsMap.has k m = true <-> In k (JsMap.keys m).
Proof.
  unfold JsMap.has. pose proof (JsMap_get_In k m) as H.
  destruct (JsMap.get k m); split; intros H'; try reflexivity.
  - destruct (in_dec Z.eq_dec k (JsMap.keys m)) as [Hin | Hout]; [exact Hin |].
    apply H in Hout. discriminate.
  - discriminate.
  - exfalso. now apply H.
Qed.

Lemma JsMap_set_fresh (k : Z) (v : V) m :
  ~ In k (JsMap.keys m) -> JsMap.set k v m = m ++ [(k, v)].
Proof.
  induction m as [|[k' v'] m IH]; cbn [JsMap.set JsMap.keys map fst In app];
    intros Hk; [reflexivity |].
  destruct (Z.eqb_spec k' k) as [-> | Hne]; [tauto |].
  rewrite IH; [reflexivity | unfold JsMap.keys; tauto].
Qed.

Lemma JsMap_get_set_same (k : Z) (v : V) m :
  JsMap.get k (JsMap.set k v m) = Some v.
Proof.
  induction m as [|[k' v'] m IH]; cbn [JsMap.set JsMap.get].
  - now rewrite Z.eqb_refl.
  - destruct (Z.eqb_spec k' k) as [-> | Hne]; cbn [JsMap.get].
    + now rewrite Z.eqb_refl.
    + destruct (Z.eqb_spec k' k); [contradiction | exact IH].
Qed.

Lemma JsMap_get_set_other (k j : Z) (v : V) m :
  j <> k -> JsMap.get j (JsMap.set k v m) = JsMap.get j m.
Proof.
  intros Hjk.
  induction m as [|[k' v'] m IH]; cbn [JsMap.set JsMap.get].
  - destruct (Z.eqb_spec k j); [congruence | reflexivity].
  - destruct (Z.eqb_spec k' k) as [-> | Hne]; cbn [JsMap.get].
    + destruct (Z.eqb_spec k j); [congruence | reflexivity].
    + now rewrite IH.
Qed.

(** Writing a present key keeps the enumeration order. *)
Lemma JsMap_keys_set_present (k : Z) (v : V) m :
  In k (JsMap.keys m) -> JsMap.keys (JsMap.set k v m) = JsMap.keys m.
Proof.
  induction m as [|[k' v'] m IH]; cbn [JsMap.set JsMap.keys map fst In];
    [tauto |].
  destruct (Z.eqb_spec k' k) as [-> | Hne]; cbn [map fst]; [reflexivity |].
  intros [? | Hin]; [contradiction |].
  f_equal. now apply IH.
Qed.

Lemma JsMap_has_set (k j : Z) (v : V) m :
  JsMap.has j m = true -> JsMap.has j (JsMap.set k v m) = true.
Proof.
  unfold JsMap.has. destruct (Z.eq_dec j k) as [-> | Hne].
  - now rewrite JsMap_get_set_same.
  - now rewrite JsMap_get_set_other.
Qed.

End JsMapFacts.

(** ** Ids *)

Lemma collection_eqb_eq (c d : collection) :
  collection_eqb c d = true <-> c = d.
Proof. destruct c, d; cbn; split; congruence. Qed.

Lemma createUser_run (u : InsertUser.t) (now : Z) st :
  createUser u now st
  = let user :=
      User.mk (userCurrentId st) (InsertUser.username u) (InsertUser.email u)
        (InsertUser.password u) (InsertUser.role u) now in
    (user,
     mkStorage (JsMap.set (userCurrentId st) user (users st)) (schools st)
       (students st) (donations st) (events st) (userCurrentId st + 1)
       (schoolCurrentId st) (studentCurrentId st) (donationCurrentId st)
       (eventCurrentId st)).
Proof. reflexivity. Qed.

Lemma createSchool_run (s : InsertSchool.t) (now : Z) st :
  createSchool s now st
  = let school :=
      School.mk (schoolCurrentId st) (InsertSchool.userId s)
        (InsertSchool.name s) (InsertSchool.adminName s)
        (InsertSchool.address s) (InsertSchool.phone s)
        (InsertSchool.fundraisingGoal s) now in
    (school,
     mkStorage (users st) (JsMap.set (schoolCurrentId st) school (schools st))
       (students st) (donations st) (events st) (userCurrentId st)
       (schoolCurrentId st + 1) (studentCurrentId st) (donationCurrentId st)
       (eventCurrentId st)).
Proof. reflexivity. Qed.

Lemma createStudent_run (s : InsertStudent.t) (now : Z) st :
  createStudent s now st
  = let student :=
      Student.mk (studentCurrentId st) (InsertStudent.userId s)
        (InsertStudent.schoolId s) (InsertStudent.firstName s)
        (InsertStudent.lastName s) (InsertStudent.grade s)
        (InsertStudent.personalGoal s) now in
    (student,
     mkStorage (users st) (schools st)
       (JsMap.set (studentCurrentId st) student (students st)) (donations st)
       (events st) (userCurrentId st) (schoolCurrentId st)
       (studentCurrentId st + 1) (donationCurrentId st) (eventCurrentId st)).
Proof. reflexivity. Qed.

Lemma createDonation_run (d : InsertDonation.t Amount) (now : Z) st :
  createDonation d now st
  = let donation :=
      Donation.mk (donationCurrentId st) (InsertDonation.studentId d)
        (InsertDonation.amount d) now in
    (donation,
     mkStorage (users st) (schools st) (students st)
       (JsMap.set (donationCurrentId st) donation (donations st)) (events st)
       (userCurrentId st) (schoolCurrentId st) (studentCurrentId st)
       (donationCurrentId st + 1) (eventCurrentId st)).
Proof. reflexivity. Qed.

Lemma createEvent_run (e : Event) (now : Z) st :
  createEvent e now st
  = let event : Event :=
      <["createdAt"%string := JDate now]>
        (<["id"%string := JNumber (inject_Z (eventCurrentId st))]> e) in
    (event,
     mkStorage (users st) (schools st) (students st) (donations st)
       (JsMap.set (eventCurrentId st) event (events st)) (userCurrentId st)
       (schoolCurrentId st) (studentCurrentId st) (donationCurrentId st)
       (eventCurrentId st + 1)).
Proof. reflexivity. Qed.

Lemma updateEvent_run (id : Z) (patch : Event) st :
  updateEvent id patch st
  = match JsMap.get id (events st) with
    | None => (None, st)
    | Some existing =>
        (Some (patch ∪ existing),
         mkStorage (users st) (schools st) (students st) (donations st)
           (JsMap.set id (patch ∪ existing) (events st)) (userCurrentId st)
           (schoolCurrentId st) (studentCurrentId st) (donationCurrentId st)
           (eventCurrentId st))
    end.
Proof.
  unfold updateEvent, bind, getEvent, gets.
  destruct (JsMap.get id (events st)); reflexivity.
Qed.

Lemma deleteEvent_run (id : Z) st :
  deleteEvent id st
  = match JsMap.get id (events st) with
    | None => (false, st)
    | Some _ =>
        (true,
         mkStorage (users st) (schools st) (students st) (donations st)
           (JsMap.delete id (events st)) (userCurrentId st)
           (schoolCurrentId st) (studentCurrentId st) (donationCurrentId st)
           (eventCurrentId st))
    end.
Proof.
  unfold deleteEvent, bind, getEvent, gets, events_delete, JsMap.has.
  destruct (JsMap.get id (events st)) eqn:E; [| reflexivity].
  cbn [ret]. now rewrite E.
Qed.

Lemma created_event_id (e : Event) (now id : Z) :
  (<["createdAt"%string := JDate now]>
     (<["id"%string := JNumber (inject_Z id)]> e) : Event) !! "id"%string
  = Some (JNumber (inject_Z id)).
Proof. rewrite lookup_insert_ne by done. apply lookup_insert_eq. Qed.

Lemma step_counter (o : op Amount) st (c : collection) :
  (counter c st <= counter c (snd (step o st)))%Z /\
  forall i, fst (step o st) = Some (c, i) ->
            i = counter c st /\ counter c (snd (step o st)) = (i + 1)%Z.
Proof.
  destruct o as [u now | s now | s now | d now | e now | id patch | id];
    cbn [step].
  - rewrite createUser_run. cbv zeta. cbn [fst snd User.id].
    destruct c; cbn; (split; [lia | intros i [= <-]; split; reflexivity]).
  - rewrite createSchool_run. cbv zeta. cbn [fst snd School.id].
    destruct c; cbn; (split; [lia | intros i [= <-]; split; reflexivity]).
  - rewrite createStudent_run. cbv zeta. cbn [fst snd Student.id].
    destruct c; cbn; (split; [lia | intros i [= <-]; split; reflexivity]).
  - rewrite createDonation_run. cbv zeta. cbn [fst snd Donation.id].
    destruct c; cbn; (split; [lia | intros i [= <-]; split; reflexivity]).
  - rewrite createEvent_run. cbv beta iota zeta.
    rewrite created_event_id, Qfloor_Z.
    cbn [fst snd].
    destruct c; cbn; (split; [lia | intros i [= <-]; split; reflexivity]).
  - unfold exec. rewrite updateEvent_run.
    destruct (JsMap.get id (events st)); cbn [fst snd];
      destruct c; cbn; (split; [lia | discriminate]).
  - unfold exec. rewrite deleteEvent_run.
    destruct (JsMap.get id (events st)); cbn [fst snd];
      destruct c; cbn; (split; [lia | discriminate]).
Qed.

Lemma run_cons (o : op Amount) (rest : list (op Amount)) st :
  run (o :: rest) st
  = (match fst (step o st) with
     | Some a => a :: fst (run rest (snd (step o st)))
     | None => fst (run rest (snd (step o st)))
     end,
     snd (run rest (snd (step o st)))).
Proof.
  cbn [run]. destruct (step o st) as [a st']. cbn [fst snd].
  destruct (run rest st') as [log st'']. reflexivity.
Qed.

Lemma run_ids_from (ops : list (op Amount)) st (c : collection) :
  Forall (fun i => (counter c st <= i)%Z) (assigned_ids c (fst (run ops st)))
  /\ StronglySorted Z.lt (assigned_ids c (fst (run ops st))).
Proof.
  revert st. induction ops as [|o rest IH]; intros st.
  - split; constructor.
  - rewrite run_cons. cbn [fst].
    destruct (IH (snd (step o st))) as [Hge Hsorted].
    destruct (step_counter o st c) as [Hmono Hassigned].
    assert (Hrest : Forall (fun i => (counter c st <= i)%Z)
                      (assigned_ids c (fst (run rest (snd (step o st)))))).
    { eapply List.Forall_impl; [| exact Hge]. intros i Hi. cbv beta in Hi. lia. }
    destruct (fst (step o st)) as [[c' i]|] eqn:E; [| now split].
    unfold assigned_ids in *. cbn [List.filter fst].
    destruct (collection_eqb c' c) eqn:Ec; [| now split].
    apply collection_eqb_eq in Ec. subst c'.
    destruct (Hassigned i eq_refl) as [Hi Hnext].
    cbn [map snd]. split.
    + constructor; [lia | exact Hrest].
    + constructor; [exact Hsorted |].
      eapply List.Forall_impl; [| exact Hge]. intros j Hj. cbv beta in Hj. lia.
Qed.

Lemma StronglySorted_lt_NoDup (l : list Z) : StronglySorted Z.lt l -> NoDup l.
Proof.
  induction 1 as [|x l Hs IH Hx]; constructor; [| exact IH].
  intros Hin. apply list_elem_of_In in Hin.
  rewrite List.Forall_forall in Hx. specialize (Hx x Hin). lia.
Qed.

(** C8. Along any run of writes from the initial store, the ids assigned in
    one collection are positive, pairwise distinct, and strictly increasing
    in creation order. *)
Theorem assigned_ids_increasing (ops : list (op Amount)) (c : collection) :
  let ids := assigned_ids c (fst (run ops constructor)) in
  Forall (fun i => (0 < i)%Z) ids /\ NoDup ids /\ StronglySorted Z.lt ids.
Proof.
  cbv zeta. destruct (run_ids_from ops constructor c) as [Hge Hsorted].
  split; [| split; [now apply StronglySorted_lt_NoDup | exact Hsorted]].
  eapply List.Forall_impl; [| exact Hge].
  intros i Hi. cbv beta in Hi. destruct c; cbn in Hi; lia.
Qed.

(** ** Reachable stores *)

Lemma fresh_key (k : Z) (ks : list Z) :
  Forall (fun k' => (k' < k)%Z) ks -> ~ In k ks.
Proof.
  rewrite List.Forall_forall. intros H Hin. specialize (H k Hin). lia.
Qed.

Lemma keys_app {V : Type} (m m' : JsMap.t V) :
  JsMap.keys (m ++ m') = JsMap.keys m ++ JsMap.keys m'.
Proof. apply map_app. Qed.

Lemma values_app {V : Type} (m m' : JsMap.t V) :
  JsMap.values (m ++ m') = JsMap.values m ++ JsMap.values m'.
Proof. apply map_app. Qed.

Lemma NoDup_snoc (k : Z) (ks : list Z) :
  NoDup ks -> ~ In k ks -> NoDup (ks ++ [k]).
Proof.
  intros Hnd Hk. apply NoDup_app. split; [exact Hnd |]. split.
  - intros x Hx Hx'. apply list_elem_of_In in Hx.
    apply list_elem_of_singleton in Hx'. now subst.
  - apply NoDup_singleton.
Qed.

Lemma constructor_invariant : store_invariant (@constructor Amount).
Proof.
  repeat split; cbn; try constructor.
Qed.

Lemma step_invariant (o : op Amount) st :
  store_invariant st -> route_guard o st = true ->
  store_invariant (snd (step o st)).
Proof.
  intros ((Hsid & Hdid & Hsnd & Hdnd) & (Hsref & Hdref) & Hslt & Hdlt) Hguard.
  destruct o as [u now | s now | s now | d now | e now | id patch | id];
    cbn [step route_guard] in *.
  - rewrite createUser_run. cbv zeta. cbn [snd].
    repeat split; assumption.
  - rewrite createSchool_run. cbv zeta. cbn [snd].
    repeat split; try assumption. cbn [students schools].
    eapply List.Forall_impl; [| exact Hsref].
    intros x Hx. now apply JsMap_has_set.
  - rewrite createStudent_run. cbv zeta. cbn [snd].
    pose proof (fresh_key _ _ Hslt) as Hfresh.
    unfold store_invariant, keys_are_ids, references_exist.
    cbn [students donations schools studentCurrentId donationCurrentId].
    rewrite (JsMap_set_fresh _ _ _ Hfresh), keys_app, values_app.
    cbn [JsMap.keys JsMap.values map fst snd].
    repeat split; try assumption.
    + apply Forall_app. split; [exact Hsid |]. now constructor.
    + now apply NoDup_snoc.
    + apply Forall_app. split; [exact Hsref |]. now constructor.
    + eapply List.Forall_impl; [| exact Hdref].
      intros x Hx. cbv beta in *. apply JsMap_has_In.
      apply JsMap_has_In in Hx. rewrite keys_app. apply in_or_app. now left.
    + apply Forall_app. split.
      * eapply List.Forall_impl; [| exact Hslt]. intros x Hx. cbv beta in *. lia.
      * constructor; [lia | constructor].
  - rewrite createDonation_run. cbv zeta. cbn [snd].
    pose proof (fresh_key _ _ Hdlt) as Hfresh.
    unfold store_invariant, keys_are_ids, references_exist.
    cbn [students donations schools studentCurrentId donationCurrentId].
    rewrite (JsMap_set_fresh _ _ _ Hfresh), keys_app, values_app.
    cbn [JsMap.keys JsMap.values map fst snd].
    repeat split; try assumption.
    + apply Forall_app. split; [exact Hdid |]. now constructor.
    + now apply NoDup_snoc.
    + apply Forall_app. split; [exact Hdref |]. now constructor.
    + apply Forall_app. split.
      * eapply List.Forall_impl; [| exact Hdlt]. intros x Hx. cbv beta in *. lia.
      * constructor; [lia | constructor].
  - rewrite createEvent_run. cbv beta iota zeta. cbn [snd].
    repeat split; assumption.
  - unfold exec. rewrite updateEvent_run.
    destruct (JsMap.get id (events st)); cbn [snd]; repeat split; assumption.
  - unfold exec. rewrite deleteEvent_run.
    destruct (JsMap.get id (events st)); cbn [snd]; repeat split; assumption.
Qed.

Lemma reachable_invariant st : reachable st -> store_invariant st.
Proof.
  induction 1 as [|st o _ IH Hguard].
  - apply constructor_invariant.
  - now apply step_invariant.
Qed.

Lemma reachable_run (ops : list (op Amount)) st :
  reachable st -> guarded_run ops st = true -> reachable (snd (run ops st)).
Proof.
  revert st. induction ops as [|o rest IH]; intros st Hst Hg; [exact Hst |].
  cbn [guarded_run] in Hg. apply andb_true_iff in Hg as [Ho Hrest].
  rewrite run_cons. cbn [snd]. apply IH; [| exact Hrest].
  now apply reachable_step.
Qed.

(** ** School totals against student totals *)

Lemma Qsum_cons (x : number) (xs : list number) :
  Qsum (x :: xs) = (x + Qsum xs)%Q.
Proof. reflexivity. Qed.

Lemma list_sum_head (n : nat) (ns : list nat) :
  list_sum (n :: ns) = (n + list_sum ns)%nat.
Proof. reflexivity. Qed.

Lemma Qsum_ext {A : Type} (f g : A -> number) (l : list A) :
  (forall a, In a l -> (f a == g a)%Q) ->
  (Qsum (map f l) == Qsum (map g l))%Q.
Proof.
  induction l as [|a l IH]; intros H; cbn [map]; [reflexivity |].
  rewrite !Qsum_cons, (H a) by now left.
  rewrite IH; [reflexivity |].
  intros b Hb. apply H. now right.
Qed.

Section Partition.

Context {A : Type} (p q : A -> bool).
Hypothesis disjoint : forall a, p a = true -> q a = true -> False.

Lemma filter_or_length (l : list A) :
  length (List.filter (fun a => p a || q a) l)
  = (length (List.filter p l) + length (List.filter q l))%nat.
Proof.
  induction l as [|a l IH]; cbn [List.filter]; [reflexivity |].
  pose proof (disjoint a) as Ha.
  destruct (p a), (q a); cbn [orb length]; first [lia | exfalso; auto].
Qed.

End Partition.

Lemma sum_filter_or (p q : Donation.t Amount -> bool) ds :
  (forall d, p d = true -> q d = true -> False) ->
  (sum_amounts Number (List.filter (fun d => p d || q d) ds)
   == sum_amounts Number (List.filter p ds)
      + sum_amounts Number (List.filter q ds))%Q.
Proof.
  intros disjoint.
  induction ds as [|d ds IH]; cbn [List.filter]; [cbn; ring |].
  pose proof (disjoint d) as Hd.
  destruct (p d), (q d); cbn [orb]; [exfalso; auto | | |];
    rewrite ?sum_amounts_cons, IH; ring.
Qed.

(** Donations to a set of distinct student ids, split by student. *)
Lemma donations_by_ids_length (ids : list Z) ds :
  NoDup ids ->
  length (List.filter (fun d => Array_includes ids (Donation.studentId d)) ds)
  = list_sum
      (map (fun i =>
              length (List.filter (fun d => (Donation.studentId d =? i)%Z) ds))
         ids).
Proof.
  induction ids as [|i ids IH]; intros Hnd.
  - cbn. now rewrite filter_nothing.
  - apply NoDup_cons in Hnd as [Hi Hnd].
    cbn [map]. rewrite list_sum_head, <- IH by exact Hnd.
    unfold Array_includes. cbn [existsb].
    apply (filter_or_length (fun d => (Donation.studentId d =? i)%Z)
             (fun d => existsb (Z.eqb (Donation.studentId d)) ids)).
    intros d Hp Hq.
    apply Z.eqb_eq in Hp. apply existsb_exists in Hq as (j & Hj & Hjd).
    apply Z.eqb_eq in Hjd. apply Hi. apply list_elem_of_In. congruence.
Qed.

Lemma donations_by_ids_sum (ids : list Z) ds :
  NoDup ids ->
  (sum_amounts Number
     (List.filter (fun d => Array_includes ids (Donation.studentId d)) ds)
   == Qsum
        (map (fun i =>
                sum_amounts Number
                  (List.filter (fun d => (Donation.studentId d =? i)%Z) ds))
           ids))%Q.
Proof.
  induction ids as [|i ids IH]; intros Hnd.
  - cbn. rewrite filter_nothing. reflexivity.
  - apply NoDup_cons in Hnd as [Hi Hnd].
    cbn [map]. rewrite Qsum_cons, <- IH by exact Hnd.
    unfold Array_includes. cbn [existsb].
    apply (sum_filter_or (fun d => (Donation.studentId d =? i)%Z)
             (fun d => existsb (Z.eqb (Donation.studentId d)) ids)).
    intros d Hp Hq.
    apply Z.eqb_eq in Hp. apply existsb_exists in Hq as (j & Hj & Hjd).
    apply Z.eqb_eq in Hjd. apply Hi. apply list_elem_of_In. congruence.
Qed.

Lemma NoDup_map_filter {A : Type} (f : A -> Z) (p : A -> bool) (l : list A) :
  NoDup (map f l) -> NoDup (map f (List.filter p l)).
Proof.
  induction l as [|a l IH]; cbn [map List.filter]; intros Hnd; [constructor |].
  apply NoDup_cons in Hnd as [Ha Hnd].
  destruct (p a); [| now apply IH].
  cbn [map]. apply NoDup_cons. split; [| now apply IH].
  intros Hin. apply Ha. apply list_elem_of_In in Hin. apply list_elem_of_In.
  apply in_map_iff in Hin as (b & Hb & Hin).
  apply List.filter_In in Hin as [Hin _].
  apply in_map_iff. eauto.
Qed.

Lemma ids_are_keys (m : JsMap.t Student.t) :
  Forall (fun kv => Student.id (snd kv) = fst kv) m ->
  map Student.id (JsMap.values m) = JsMap.keys m.
Proof.
  induction 1 as [|[k s] m Hk _ IH]; [reflexivity |].
  unfold JsMap.values, JsMap.keys in *. cbn [map fst snd] in *.
  now rewrite Hk, IH.
Qed.

Lemma enrolled_ids_NoDup st (schoolId : Z) :
  store_invariant st -> NoDup (map Student.id (enrolled st schoolId)).
Proof.
  intros ((Hsid & _ & Hsnd & _) & _). unfold enrolled.
  apply NoDup_map_filter. now rewrite (ids_are_keys _ Hsid).
Qed.

Lemma school_donations_by_ids st (schoolId : Z) :
  school_donations st schoolId
  = List.filter
      (fun d =>
         Array_includes (map Student.id (enrolled st schoolId))
           (Donation.studentId d))
      (JsMap.values (donations st)).
Proof. symmetry. apply school_donations_code. Qed.

Lemma school_count_by_student st (schoolId : Z) :
  store_invariant st ->
  length (school_donations st schoolId)
  = list_sum
      (map (fun s =>
              StudentStats.totalDonations
                (eval (getStudentStats Number (Student.id s)) st))
         (enrolled st schoolId)).
Proof.
  intros Hinv. pose proof (enrolled_ids_NoDup st schoolId Hinv) as Hnd.
  rewrite school_donations_by_ids, donations_by_ids_length by exact Hnd.
  now rewrite map_map.
Qed.

Lemma school_total_by_student st (schoolId : Z) :
  store_invariant st ->
  (reduce_amounts Number (school_donations st schoolId)
   == Qsum (map (raised Number st) (enrolled st schoolId)))%Q.
Proof.
  intros Hinv. pose proof (enrolled_ids_NoDup st schoolId Hinv) as Hnd.
  rewrite school_donations_by_ids, reduce_amounts_sum.
  rewrite donations_by_ids_sum by exact Hnd.
  rewrite map_map. apply Qsum_ext. intros s _.
  unfold raised, getStudentStats, getDonationsByStudentId, eval, bind, gets, ret.
  cbn [fst snd StudentStats.totalRaised].
  symmetry. apply reduce_amounts_sum.
Qed.

(** ** Schools without students *)

Lemma no_school_no_student st (schoolId : Z) :
  store_invariant st ->
  eval (getSchool schoolId) st = None -> enrolled st schoolId = [].
Proof.
  intros (_ & (Hsref & _) & _) Hnone.
  unfold getSchool, eval, gets in Hnone. cbn [fst] in Hnone.
  unfold enrolled.
  induction (JsMap.values (students st)) as [|s l IH]; [reflexivity |].
  apply Forall_cons in Hsref as [Hs Hl]. cbn [List.filter].
  destruct (Z.eqb_spec (Student.schoolId s) schoolId) as [E | _];
    [| now apply IH].
  unfold JsMap.has in Hs. rewrite E, Hnone in Hs. discriminate.
Qed.

(** C9. In a store the routes can produce, for a [schoolId] that is the id
    of no school, or of a school without students, [getSchoolStats] returns
    the all-zero record and [getTopPerformingStudents] the empty array.
    Neither reads the collection of schools: their results stay the same
    when that collection is replaced. *)
Theorem stats_of_unknown_school st (schoolId : Z) (limit : option Z) :
  reachable st ->
  eval (getSchool schoolId) st = None \/ enrolled st schoolId = [] ->
  eval (getSchoolStats Number schoolId) st = SchoolStats.mk 0%Q 0 0 /\
  eval (getTopPerformingStudents Number schoolId limit) st = [] /\
  forall schools' : JsMap.t School.t,
    let st' :=
      mkStorage (users st) schools' (students st) (donations st) (events st)
        (userCurrentId st) (schoolCurrentId st) (studentCurrentId st)
        (donationCurrentId st) (eventCurrentId st) in
    eval (getSchoolStats Number schoolId) st'
    = eval (getSchoolStats Number schoolId) st
    /\ eval (getTopPerformingStudents Number schoolId limit) st'
       = eval (getTopPerformingStudents Number schoolId limit) st.
Proof.
  intros Hreach Hschool. apply reachable_invariant in Hreach.
  assert (E : enrolled st schoolId = []).
  { destruct Hschool as [Hnone | E]; [| exact E].
    now apply no_school_no_student. }
  split; [| split].
  - rewrite getSchoolStats_eval, (school_donations_no_student _ _ E), E.
    reflexivity.
  - unfold eval. rewrite getTopPerformingStudents_run, E. cbn [fst map].
    destruct (Array_slice0_firstn
                (Array_sort
                   (fun a b : TopStudent.t =>
                      (TopStudent.amountRaised b - TopStudent.amountRaised a)%Q)
                   [])
                (match limit with Some n => n | None => 10%Z end)) as [n ->].
    cbn. now destruct n.
  - intros schools'. cbv zeta. split.
    + rewrite !getSchoolStats_eval. reflexivity.
    + unfold eval. rewrite !getTopPerformingStudents_run. reflexivity.
Qed.

(** ** Updating an event *)

(** C10. [updateEvent] on an id without event returns [undefined] and the
    store it was given.  On the id of an event, for a patch with the keys of
    [Partial<InsertEvent>] (neither [id] nor [createdAt]), the event stored
    and returned keeps [id], [createdAt] and every field the patch does not
    have, and takes the value of the patch for every field it has; the other
    events, the enumeration order and everything else in the store are
    unchanged. *)
Theorem updateEvent_spec st (id : Z) (patch : Event) :
  patch !! "id"%string = None ->
  patch !! "createdAt"%string = None ->
  match eval (getEvent id) st with
  | None => updateEvent id patch st = (None, st)
  | Some existing =>
      exists (updated : Event) (st' : MemStorage Amount),
        updateEvent id patch st = (Some updated, st') /\
        eval (getEvent id) st' = Some updated /\
        updated !! "id"%string = existing !! "id"%string /\
        updated !! "createdAt"%string = existing !! "createdAt"%string /\
        (forall k : string, patch !! k = None -> updated !! k = existing !! k) /\
        (forall (k : string) (v : jsval),
            patch !! k = Some v -> updated !! k = Some v) /\
        (forall j : Z, j <> id ->
                       eval (getEvent j) st' = eval (getEvent j) st) /\
        JsMap.keys (events st') = JsMap.keys (events st) /\
        same_except_events st st'
  end.
Proof.
  intros Hid Hcreated. rewrite updateEvent_run.
  unfold getEvent, eval, gets. cbn [fst].
  destruct (JsMap.get id (events st)) as [existing|] eqn:E; [| reflexivity].
  assert (Hkeep : forall k : string,
             patch !! k = None -> (patch ∪ existing) !! k = existing !! k)
    by (intros k Hk; now apply lookup_union_r).
  eexists. eexists. split; [reflexivity |]. cbn [events].
  split; [apply JsMap_get_set_same |].
  split; [now apply Hkeep |]. split; [now apply Hkeep |].
  split; [exact Hkeep |].
  split; [intros k v Hk; now apply lookup_union_Some_l |].
  split; [intros j Hj; now apply JsMap_get_set_other |].
  split.
  - apply JsMap_keys_set_present. apply JsMap_has_In.
    unfold JsMap.has. now rewrite E.
  - repeat split.
Qed.

(** ** Class rankings *)

Lemma gradeGroups_step_run (g : JsObject.t GradeGroup.t) (s : Student.t) st :
  gradeGroups_step Number g s st
  = (add_to_group g (Student.grade s) (raised Number st s), st).
Proof. reflexivity. Qed.

Lemma gradeGroups_loop_run (students : list Student.t)
  (g : JsObject.t GradeGroup.t) st :
  gradeGroups_loop Number g students st
  = (fold_left
       (fun g s => add_to_group g (Student.grade s) (raised Number st s))
       students g,
     st).
Proof.
  revert g. induction students as [|s students IH]; intros g; [reflexivity |].
  cbn [gradeGroups_loop fold_left]. unfold bind.
  rewrite gradeGroups_step_run. apply IH.
Qed.

Section JsObjectFacts.

Context {V : Type}.
Implicit Types o : JsObject.t V.

Lemma get_own_set_same (k : string) (v : V) o :
  JsObject.get_own k (JsObject.set k v o) = Some v.
Proof.
  induction o as [|[k' v'] o IH]; cbn [JsObject.set JsObject.get_own].
  - now rewrite String.eqb_refl.
  - destruct (String.eqb_spec k' k) as [-> | Hne]; cbn [JsObject.get_own].
    + now rewrite String.eqb_refl.
    + destruct (String.eqb_spec k' k); [contradiction | exact IH].
Qed.

Lemma get_own_set_other (k j : string) (v : V) o :
  j <> k -> JsObject.get_own j (JsObject.set k v o) = JsObject.get_own j o.
Proof.
  intros Hjk.
  induction o as [|[k' v'] o IH]; cbn [JsObject.set JsObject.get_own].
  - destruct (String.eqb_spec k j); [congruence | reflexivity].
  - destruct (String.eqb_spec k' k) as [-> | Hne]; cbn [JsObject.get_own].
    + destruct (String.eqb_spec k j); [congruence | reflexivity].
    + now rewrite IH.
Qed.

Lemma set_keys_present (k : string) (v : V) o :
  In k (map fst o) -> map fst (JsObject.set k v o) = map fst o.
Proof.
  induction o as [|[k' v'] o IH]; cbn [JsObject.set map fst In]; [tauto |].
  destruct (String.eqb_spec k' k) as [-> | Hne]; cbn [map fst]; [reflexivity |].
  intros [? | Hin]; [contradiction |]. f_equal. now apply IH.
Qed.

Lemma set_absent (k : string) (v : V) o :
  ~ In k (map fst o) -> JsObject.set k v o = o ++ [(k, v)].
Proof.
  induction o as [|[k' v'] o IH]; cbn [JsObject.set map fst In app];
    intros Hk; [reflexivity |].
  destruct (String.eqb_spec k' k) as [-> | Hne]; [tauto |].
  rewrite IH; [reflexivity | tauto].
Qed.

Lemma set_keys_NoDup (k : string) (v : V) o :
  NoDup (map fst o) -> NoDup (map fst (JsObject.set k v o)).
Proof.
  intros Hnd. destruct (in_dec string_dec k (map fst o)) as [Hin | Hout].
  - now rewrite set_keys_present.
  - rewrite (set_absent _ _ _ Hout), map_app. cbn [map fst].
    apply NoDup_app. split; [exact Hnd |]. split.
    + intros x Hx Hx'. apply list_elem_of_In in Hx.
      apply list_elem_of_singleton in Hx'. now subst.
    + apply NoDup_singleton.
Qed.

Lemma get_own_In (k : string) (v : V) o :
  NoDup (map fst o) -> In (k, v) o -> JsObject.get_own k o = Some v.
Proof.
  induction o as [|[k' v'] o IH]; cbn [map fst In JsObject.get_own];
    intros Hnd Hin; [tauto |].
  apply NoDup_cons in Hnd as [Hk' Hnd].
  destruct Hin as [[= -> ->] | Hin].
  - now rewrite String.eqb_refl.
  - destruct (String.eqb_spec k' k) as [-> | Hne]; [| now apply IH].
    exfalso. apply Hk'. apply list_elem_of_In.
    apply in_map_iff. exists (k, v). auto.
Qed.

End JsObjectFacts.

Lemma group_total_cons (kv : string * GradeGroup.t)
  (g : JsObject.t GradeGroup.t) :
  group_total (kv :: g) = (GradeGroup.totalRaised (snd kv) + group_total g)%Q.
Proof. reflexivity. Qed.

Lemma group_total_set (k : string) (v : GradeGroup.t)
  (g : JsObject.t GradeGroup.t) :
  (group_total (JsObject.set k v g)
   == group_total g - own_total k g + GradeGroup.totalRaised v)%Q.
Proof.
  unfold own_total.
  induction g as [|[k' v'] g IH]; cbn [JsObject.set JsObject.get_own].
  - cbn. ring.
  - destruct (String.eqb_spec k' k) as [-> | Hne].
    + rewrite !group_total_cons. cbn [snd]. ring.
    + rewrite !group_total_cons, IH. cbn [snd]. ring.
Qed.

Lemma group_total_Qsum (g : JsObject.t GradeGroup.t) :
  group_total g = Qsum (map (fun kv => GradeGroup.totalRaised (snd kv)) g).
Proof.
  induction g as [|kv g IH]; [reflexivity |].
  cbn [map]. now rewrite group_total_cons, Qsum_cons, IH.
Qed.

(** A grade that names no member of the prototype gets its group, and the
    amount is added to it. *)
Lemma add_to_group_own (g : JsObject.t GradeGroup.t) (k : string) (x : number) :
  JsObject.inherited k = false ->
  exists (g1 : JsObject.t GradeGroup.t) (v : GradeGroup.t),
    add_to_group g k x
    = JsObject.set k
        (GradeGroup.mk (GradeGroup.totalRaised v + x) (GradeGroup.count v + 1))%Q
        g1
    /\ JsObject.get_own k g1 = Some v
    /\ (GradeGroup.totalRaised v == own_total k g)%Q
    /\ (group_total g1 == group_total g)%Q
    /\ (forall j, j <> k -> JsObject.get_own j g1 = JsObject.get_own j g)
    /\ (NoDup (map fst g) -> NoDup (map fst g1)).
Proof.
  intros Hk. unfold add_to_group, ensure_group, accumulate, JsObject.get, own_total.
  rewrite Hk.
  destruct (JsObject.get_own k g) as [v|] eqn:E.
  - rewrite E. exists g, v. repeat split; auto; reflexivity.
  - rewrite get_own_set_same.
    exists (JsObject.set k (GradeGroup.mk 0 0) g), (GradeGroup.mk 0 0).
    split; [reflexivity |]. split; [apply get_own_set_same |].
    split; [reflexivity |]. split.
    + rewrite group_total_set. unfold own_total. rewrite E. cbn. ring.
    + split; [intros j Hj; now apply get_own_set_other |].
      apply set_keys_NoDup.
Qed.

Lemma add_to_group_total (g : JsObject.t GradeGroup.t) (k : string)
  (x : number) :
  JsObject.inherited k = false ->
  (group_total (add_to_group g k x) == group_total g + x)%Q.
Proof.
  intros Hk.
  destruct (add_to_group_own g k x Hk) as (g1 & v & -> & Hv & Hv0 & Ht & _).
  rewrite group_total_set. unfold own_total. rewrite Hv.
  cbn [GradeGroup.totalRaised]. rewrite Ht. ring.
Qed.

Lemma add_to_group_own_total (g : JsObject.t GradeGroup.t) (k j : string)
  (x : number) :
  JsObject.inherited k = false ->
  (own_total j (add_to_group g k x)
   == own_total j g + (if String.eqb k j then x else 0))%Q.
Proof.
  intros Hk.
  destruct (add_to_group_own g k x Hk) as (g1 & v & -> & Hv & Hv0 & _ & Hj & _).
  unfold own_total at 1.
  destruct (String.eqb_spec k j) as [<- | Hne].
  - rewrite get_own_set_same. cbn [GradeGroup.totalRaised]. now rewrite Hv0.
  - rewrite get_own_set_other by congruence. rewrite Hj by congruence.
    unfold own_total. ring.
Qed.

Lemma add_to_group_NoDup (g : JsObject.t GradeGroup.t) (k : string)
  (x : number) :
  JsObject.inherited k = false ->
  NoDup (map fst g) -> NoDup (map fst (add_to_group g k x)).
Proof.
  intros Hk Hnd.
  destruct (add_to_group_own g k x Hk) as (g1 & v & -> & _ & _ & _ & _ & H1).
  apply set_keys_NoDup. now apply H1.
Qed.

(** A grade that names a member of the prototype and has no group yet
    leaves [gradeGroups] as it is: the student is not counted. *)
Lemma add_to_group_inherited (g : JsObject.t GradeGroup.t) (k : string)
  (x : number) :
  JsObject.inherited k = true -> JsObject.get_own k g = None ->
  add_to_group g k x = g.
Proof.
  intros Hk Hown. unfold add_to_group, ensure_group, accumulate, JsObject.get.
  rewrite Hown, Hk. cbv beta iota zeta. now rewrite Hown.
Qed.

(** When every grade label names a member of the prototype, no group is
    ever created and the class rankings are empty. *)
Lemma classRankings_all_inherited (students : list Student.t)
  (schoolStats : SchoolStats.t) st :
  Forall (fun s => JsObject.inherited (Student.grade s) = true) students ->
  eval (classRankings Number students schoolStats) st = [].
Proof.
  intros Hall. unfold eval, classRankings, bind.
  rewrite gradeGroups_loop_run. cbn [fst].
  replace (fold_left _ students JsObject.empty)
    with (JsObject.empty : JsObject.t GradeGroup.t); [reflexivity |].
  induction Hall as [|s students Hs _ IH]; [reflexivity |].
  cbn [fold_left]. now rewrite add_to_group_inherited.
Qed.

Section GroupsOfStudents.

Variable amount : Student.t -> number.

Lemma Qsum_nil : Qsum [] = 0%Q.
Proof. reflexivity. Qed.

Lemma groups_total (students : list Student.t) (g : JsObject.t GradeGroup.t) :
  Forall (fun s => JsObject.inherited (Student.grade s) = false) students ->
  (group_total
     (fold_left (fun g s => add_to_group g (Student.grade s) (amount s))
        students g)
   == group_total g + Qsum (map amount students))%Q.
Proof.
  intros Hall. revert g.
  induction Hall as [|s students Hs _ IH]; intros g; cbn [map fold_left].
  - rewrite Qsum_nil. ring.
  - rewrite IH, add_to_group_total, Qsum_cons by exact Hs. ring.
Qed.

Lemma groups_own_total (students : list Student.t)
  (g : JsObject.t GradeGroup.t) (j : string) :
  Forall (fun s => JsObject.inherited (Student.grade s) = false) students ->
  (own_total j
     (fold_left (fun g s => add_to_group g (Student.grade s) (amount s))
        students g)
   == own_total j g
      + Qsum (map amount
                (List.filter (fun s => String.eqb (Student.grade s) j)
                   students)))%Q.
Proof.
  intros Hall. revert g.
  induction Hall as [|s students Hs _ IH]; intros g;
    cbn [List.filter fold_left].
  - cbn [map]. rewrite Qsum_nil. ring.
  - rewrite IH, add_to_group_own_total by exact Hs.
    destruct (String.eqb (Student.grade s) j); cbn [map];
      rewrite ?Qsum_cons; ring.
Qed.

Lemma groups_NoDup (students : list Student.t) (g : JsObject.t GradeGroup.t) :
  Forall (fun s => JsObject.inherited (Student.grade s) = false) students ->
  NoDup (map fst g) ->
  NoDup
    (map fst
       (fold_left (fun g s => add_to_group g (Student.grade s) (amount s))
          students g)).
Proof.
  intros Hall. revert g.
  induction Hall as [|s students Hs _ IH]; intros g Hnd; [exact Hnd |].
  cbn [fold_left]. apply IH. now apply add_to_group_NoDup.
Qed.

End GroupsOfStudents.

Lemma Qsum_perm (l l' : list number) :
  Permutation l l' -> (Qsum l == Qsum l')%Q.
Proof.
  induction 1 as [| x l l' _ IH | x y l | l l' l'' _ IH1 _ IH2].
  - reflexivity.
  - rewrite !Qsum_cons, IH. reflexivity.
  - rewrite !Qsum_cons. ring.
  - now rewrite IH1.
Qed.

Lemma Qsum_zero {A : Type} (f : A -> number) (l : list A) :
  (forall a, In a l -> f a = 0%Q) -> (Qsum (map f l) == 0)%Q.
Proof.
  induction l as [|a l IH]; intros H; cbn [map]; [reflexivity |].
  rewrite Qsum_cons, (H a) by now left.
  rewrite IH; [ring |]. intros b Hb. apply H. now right.
Qed.

Lemma Qsum_scale {A : Type} (f : A -> number) (c : number) (l : list A) :
  (Qsum (map (fun a => f a * c) l) == Qsum (map f l) * c)%Q.
Proof.
  induction l as [|a l IH]; cbn [map]; [rewrite !Qsum_nil; ring |].
  rewrite !Qsum_cons, IH. ring.
Qed.

Lemma Math_round_error (x : number) : (Qabs (Math_round x - x) <= 1 # 2)%Q.
Proof.
  destruct (Math_round_rounds x) as [H1 H2]. unfold Math_round.
  apply Qabs_Qle_condition. split; lra.
Qed.

(** Rounding [n] numbers moves their sum by at most [n / 2]. *)
Lemma sum_round_error {A : Type} (f : A -> number) (l : list A) :
  (Qabs (Qsum (map (fun a => Math_round (f a)) l) - Qsum (map f l))
   <= inject_Z (Z.of_nat (length l)) * (1 # 2))%Q.
Proof.
  induction l as [|a l IH]; cbn [map length].
  - rewrite !Qsum_nil. cbn. discriminate.
  - rewrite !Qsum_cons, Nat2Z.inj_succ, <- Z.add_1_r, inject_Z_plus.
    change (inject_Z 1) with 1%Q.
    pose proof (Math_round_error (f a)) as Ha.
    apply Qabs_Qle_condition in Ha, IH. apply Qabs_Qle_condition.
    destruct Ha, IH. split; lra.
Qed.

Lemma filter_partition_perm {A : Type} (p q : A -> bool) (l : list A) :
  (forall a, q a = negb (p a)) ->
  Permutation (List.filter p l ++ List.filter q l) l.
Proof.
  intros Hq. induction l as [|a l IH]; cbn [List.filter]; [reflexivity |].
  rewrite (Hq a). destruct (p a); cbn [negb app].
  - now constructor.
  - rewrite <- Permutation_middle. now constructor.
Qed.

Lemma index_entries_filter {V : Type} (o : JsObject.t V) :
  map snd (JsObject.index_entries o)
  = List.filter
      (fun kv => match JsObject.array_index (fst kv) with
                 | Some _ => true
                 | None => false
                 end) o.
Proof.
  unfold JsObject.index_entries.
  induction o as [|kv o IH]; cbn [flat_map List.filter]; [reflexivity |].
  destruct (JsObject.array_index (fst kv)); cbn [app map snd]; now rewrite IH.
Qed.

(** [Object.keys] enumerates every own property once. *)
Lemma entries_perm {V : Type} (o : JsObject.t V) :
  Permutation (JsObject.entries o) o.
Proof.
  unfold JsObject.entries.
  rewrite (Permutation_map snd (Array_sort_perm _ (JsObject.index_entries o))).
  rewrite index_entries_filter. unfold JsObject.named_entries.
  apply filter_partition_perm.
  intros kv. now destruct (JsObject.array_index (fst kv)).
Qed.

Lemma classRankings_run (students : list Student.t)
  (schoolStats : SchoolStats.t) st :
  classRankings Number students schoolStats st
  = (classRankings_of
       (fold_left
          (fun g s => add_to_group g (Student.grade s) (raised Number st s))
          students JsObject.empty)
       schoolStats,
     st).
Proof.
  unfold classRankings, bind. now rewrite gradeGroups_loop_run.
Qed.

Lemma classRankings_eval (students : list Student.t)
  (schoolStats : SchoolStats.t) st :
  eval (classRankings Number students schoolStats) st
  = classRankings_of
      (fold_left
         (fun g s => add_to_group g (Student.grade s) (raised Number st s))
         students JsObject.empty)
      schoolStats.
Proof. unfold eval. now rewrite classRankings_run. Qed.

Lemma classRankings_of_perm (g : JsObject.t GradeGroup.t)
  (schoolStats : SchoolStats.t) :
  Permutation (classRankings_of g schoolStats) (map (ranking_of schoolStats) g).
Proof.
  unfold classRankings_of. rewrite Array_sort_perm.
  apply Permutation_map, entries_perm.
Qed.

Lemma classRankings_of_sorted (g : JsObject.t GradeGroup.t)
  (schoolStats : SchoolStats.t) :
  StronglySorted
    (fun a b => (ClassRanking.totalRaised b <= ClassRanking.totalRaised a)%Q)
    (classRankings_of g schoolStats).
Proof.
  unfold classRankings_of.
  apply StronglySorted_weaken
    with (R := fun a b : ClassRanking.t =>
                 (- ClassRanking.totalRaised a <= - ClassRanking.totalRaised b)%Q).
  - intros a b H. lra.
  - apply Array_sort_sorted
      with (key := fun a : ClassRanking.t => (- ClassRanking.totalRaised a)%Q).
    intros a b. ring.
Qed.

Lemma percentages_zero (g : JsObject.t GradeGroup.t)
  (schoolStats : SchoolStats.t) :
  (SchoolStats.totalRaised schoolStats <= 0)%Q ->
  (Qsum (map ClassRanking.percentage (classRankings_of g schoolStats)) == 0)%Q.
Proof.
  intros Hle.
  rewrite (Qsum_perm _ _
             (Permutation_map ClassRanking.percentage
                (classRankings_of_perm g schoolStats))).
  rewrite map_map. apply Qsum_zero. intros kv _.
  unfold ranking_of. cbn [ClassRanking.percentage].
  destruct (Qlt_le_dec 0 (SchoolStats.totalRaised schoolStats));
    [lra | reflexivity].
Qed.

Lemma percentages_hundred (g : JsObject.t GradeGroup.t)
  (schoolStats : SchoolStats.t) :
  (0 < SchoolStats.totalRaised schoolStats)%Q ->
  (group_total g == SchoolStats.totalRaised schoolStats)%Q ->
  (Qabs (Qsum (map ClassRanking.percentage (classRankings_of g schoolStats))
         - 100)
   <= inject_Z (Z.of_nat (length (classRankings_of g schoolStats)))
      * (1 # 2))%Q.
Proof.
  intros Hpos Htotal.
  rewrite (Permutation_length (classRankings_of_perm g schoolStats)).
  rewrite (Qsum_perm _ _
             (Permutation_map ClassRanking.percentage
                (classRankings_of_perm g schoolStats))).
  rewrite length_map, map_map.
  set (t := SchoolStats.totalRaised schoolStats) in *.
  set (share := fun kv : string * GradeGroup.t =>
                  (GradeGroup.totalRaised (snd kv) / t * 100)%Q).
  assert (Hpct : map (fun kv => ClassRanking.percentage
                                   (ranking_of schoolStats kv)) g
                 = map (fun kv => Math_round (share kv)) g).
  { apply map_ext. intros kv. unfold ranking_of, share.
    cbn [ClassRanking.percentage]. fold t.
    destruct (Qlt_le_dec 0 t); [reflexivity | lra]. }
  rewrite Hpct.
  assert (Hshares : (Qsum (map share g) == 100)%Q).
  { unfold share.
    rewrite (Qsum_ext _
               (fun kv => GradeGroup.totalRaised (snd kv) * (/ t * 100))%Q)
      by (intros kv _; unfold Qdiv; ring).
    rewrite Qsum_scale, <- group_total_Qsum, Htotal.
    field. lra. }
  rewrite <- Hshares. apply sum_round_error.
Qed.

(** The class rankings of a school none of whose students has a grade label
    that names a member of [Object.prototype], in a store the routes can
    produce: the total of a group is the sum of what the students of the
    grade raised; its percentage is the integer nearest to
    [100 * groupTotal / schoolTotal] when the school total is positive, else
    [0]; the groups are in non-increasing order of their totals; the
    percentages of [n] groups sum to [100] within [n / 2] when the school
    total is positive, and to [0] otherwise. *)
Lemma classRankings_spec st (schoolId : Z) :
  reachable st ->
  Forall (fun s => JsObject.inherited (Student.grade s) = false)
    (enrolled st schoolId) ->
  let schoolStats := eval (getSchoolStats Number schoolId) st in
  let schoolTotal := SchoolStats.totalRaised schoolStats in
  let rankings :=
    eval (classRankings Number (enrolled st schoolId) schoolStats) st in
  (forall r, In r rankings ->
     (ClassRanking.totalRaised r
      == Qsum (map (raised Number st)
                 (List.filter
                    (fun s => String.eqb (Student.grade s) (ClassRanking.grade r))
                    (enrolled st schoolId))))%Q
     /\ if Qlt_le_dec 0 schoolTotal
        then exists n : Z,
            ClassRanking.percentage r = inject_Z n
            /\ rounds_to (100 * ClassRanking.totalRaised r / schoolTotal) n
        else ClassRanking.percentage r = 0%Q) /\
  StronglySorted
    (fun a b => (ClassRanking.totalRaised b <= ClassRanking.totalRaised a)%Q)
    rankings /\
  ((0 < schoolTotal)%Q ->
   (Qabs (Qsum (map ClassRanking.percentage rankings) - 100)
    <= inject_Z (Z.of_nat (length rankings)) * (1 # 2))%Q) /\
  ((schoolTotal <= 0)%Q ->
   (Qsum (map ClassRanking.percentage rankings) == 0)%Q).
Proof.
  intros Hreach Hgrades. apply reachable_invariant in Hreach.
  cbv zeta. rewrite classRankings_eval.
  set (schoolStats := eval (getSchoolStats Number schoolId) st).
  set (g := fold_left _ _ _).
  assert (Hnd : NoDup (map fst g))
    by (apply groups_NoDup; [exact Hgrades | constructor]).
  assert (Htotal : (group_total g == SchoolStats.totalRaised schoolStats)%Q).
  { unfold g. rewrite groups_total by exact Hgrades.
    unfold schoolStats. rewrite getSchoolStats_eval.
    cbn [SchoolStats.totalRaised].
    rewrite school_total_by_student by exact Hreach. cbn. ring. }
  split; [| split; [apply classRankings_of_sorted | split]].
  - intros r Hr.
    apply (Permutation_in _ (classRankings_of_perm g schoolStats)) in Hr.
    apply in_map_iff in Hr as ([k v] & <- & Hin).
    unfold ranking_of.
    cbn [ClassRanking.totalRaised ClassRanking.grade ClassRanking.percentage
         fst snd].
    split.
    + pose proof (groups_own_total (raised Number st) (enrolled st schoolId)
                    JsObject.empty k Hgrades) as Hown.
      fold g in Hown. unfold own_total in Hown.
      rewrite (get_own_In k v g Hnd Hin) in Hown. cbn in Hown.
      rewrite Hown. ring.
    + destruct (Qlt_le_dec 0 (SchoolStats.totalRaised schoolStats));
        [| reflexivity].
      eexists. split; [reflexivity |].
      eapply rounds_to_Qeq; [| apply Math_round_rounds].
      unfold Qdiv. ring.
  - intros Hpos. now apply percentages_hundred.
  - apply percentages_zero.
Qed.

(** ** The dashboard in terms of the aggregation methods *)

Lemma studentDashboard_body (req_user : option User.t) (today : Z) st
  (body : StudentDashboard Amount) :
  eval (studentDashboard Number req_user today) st = Json body ->
  let student := sd_student body in
  let school := sd_school body in
  eval (getSchool (Student.schoolId student)) st = Some school /\
  sd_stats body = eval (getStudentStats Number (Student.id student)) st /\
  sd_goalProgress body = dashboardGoalProgress student (sd_stats body) /\
  sd_schoolStats body = eval (getSchoolStats Number (School.id school)) st /\
  sd_schoolGoalProgress body = schoolGoalProgress school (sd_schoolStats body) /\
  sd_classRankings body
  = eval (classRankings Number (enrolled st (School.id school))
            (sd_schoolStats body)) st.
Proof.
  unfold studentDashboard.
  destruct req_user as [user|]; [| discriminate].
  destruct (negb (String.eqb (User.role user) "student")); [discriminate |].
  unfold eval at 1, bind at 1, getStudentByUserId at 1, gets at 1.
  destruct (List.find _ _) as [student|]; [| discriminate].
  unfold bind at 1, getSchool at 1, gets at 1.
  destruct (JsMap.get (Student.schoolId student) (schools st)) as [school|] eqn:E;
    [| discriminate].
  unfold bind at 1. change (getStudentStats Number (Student.id student) st)
    with (eval (getStudentStats Number (Student.id student)) st, st).
  unfold bind at 1, getDonationsByStudentId at 1, gets at 1.
  unfold bind at 1. change (getSchoolStats Number (School.id school) st)
    with (eval (getSchoolStats Number (School.id school)) st, st).
  unfold bind at 1, getStudentsBySchoolId at 1, gets at 1.
  unfold bind at 1. rewrite classRankings_run.
  cbn [fst ret]. intros [= <-].
  cbn [sd_student sd_school sd_stats sd_goalProgress sd_schoolStats
       sd_schoolGoalProgress sd_classRankings].
  rewrite classRankings_eval.
  repeat split. unfold getSchool, eval, gets. cbn [fst]. exact E.
Qed.

(** * Further properties of the store *)

(** ** Enumeration order *)

Lemma ordered_below_nil : ordered_below 1 [].
Proof. split; [lia | split; constructor]. Qed.

Lemma ordered_below_fresh (bound : Z) (ks : list Z) :
  ordered_below bound ks -> ~ In bound ks.
Proof.
  intros (_ & _ & Hlt) Hin. rewrite List.Forall_forall in Hlt.
  specialize (Hlt _ Hin). cbv beta in Hlt. lia.
Qed.

Lemma StronglySorted_snoc (k : Z) (ks : list Z) :
  StronglySorted Z.lt ks -> Forall (fun j => (j < k)%Z) ks ->
  StronglySorted Z.lt (ks ++ [k]).
Proof.
  induction 1 as [|x ks Hs IH Hx]; intros Hlt; cbn [app].
  - repeat constructor.
  - apply Forall_cons in Hlt as [Hxk Hlt].
    constructor; [now apply IH |].
    apply Forall_app. split; [exact Hx |]. now constructor.
Qed.

Lemma ordered_below_snoc (bound : Z) (ks : list Z) :
  ordered_below bound ks -> ordered_below (bound + 1) (ks ++ [bound]).
Proof.
  intros (Hpos & Hs & Hlt). split; [lia |]. split.
  - apply StronglySorted_snoc; [exact Hs |].
    eapply List.Forall_impl; [| exact Hlt]. intros j Hj. cbv beta in Hj. lia.
  - apply Forall_app. split.
    + eapply List.Forall_impl; [| exact Hlt]. intros j Hj. cbv beta in Hj. lia.
    + constructor; [lia | constructor].
Qed.

Lemma ordered_below_set {V : Type} (bound : Z) (v : V) (m : JsMap.t V) :
  ordered_below bound (JsMap.keys m) ->
  JsMap.set bound v m = m ++ [(bound, v)]
  /\ ordered_below (bound + 1) (JsMap.keys (JsMap.set bound v m)).
Proof.
  intros H. pose proof (ordered_below_fresh _ _ H) as Hfresh.
  rewrite (JsMap_set_fresh _ _ _ Hfresh). split; [reflexivity |].
  rewrite keys_app. now apply ordered_below_snoc.
Qed.

Lemma JsMap_delete_keys {V : Type} (k j : Z) (m : JsMap.t V) :
  In j (JsMap.keys (JsMap.delete k m)) -> In j (JsMap.keys m).
Proof.
  induction m as [|[k' v'] m IH]; cbn [JsMap.delete JsMap.keys map fst];
    [tauto |].
  destruct (k' =? k)%Z; cbn [map fst In]; [tauto |].
  intros [-> | Hin]; [now left | right; now apply IH].
Qed.

Lemma ordered_below_delete {V : Type} (bound k : Z) (m : JsMap.t V) :
  ordered_below bound (JsMap.keys m) ->
  ordered_below bound (JsMap.keys (JsMap.delete k m)).
Proof.
  intros (Hpos & Hs & Hlt). split; [exact Hpos |]. split.
  - clear Hlt. induction m as [|[k' v'] m IH];
      cbn [JsMap.delete JsMap.keys map fst] in *; [constructor |].
    apply StronglySorted_inv in Hs as [Hs Hk'].
    destruct (k' =? k)%Z; [exact Hs |].
    cbn [map fst]. constructor; [now apply IH |].
    rewrite List.Forall_forall in *. intros j Hj. apply Hk'.
    now apply JsMap_delete_keys in Hj.
  - rewrite List.Forall_forall in *. intros j Hj. apply Hlt.
    now apply JsMap_delete_keys in Hj.
Qed.

Lemma ordered_below_update {V : Type} (bound k : Z) (v v' : V)
  (m : JsMap.t V) :
  JsMap.get k m = Some v' ->
  ordered_below bound (JsMap.keys m) ->
  ordered_below bound (JsMap.keys (JsMap.set k v m)).
Proof.
  intros Hget H. rewrite JsMap_keys_set_present; [exact H |].
  apply JsMap_has_In. unfold JsMap.has. now rewrite Hget.
Qed.

Ltac split_collections :=
  unfold collections_ordered;
  cbn [snd users schools students donations events userCurrentId
       schoolCurrentId studentCurrentId donationCurrentId eventCurrentId];
  split; [| split; [| split; [| split]]]; try assumption.

Lemma step_ordered (o : op Amount) st :
  collections_ordered st -> collections_ordered (snd (step o st)).
Proof.
  intros (Hu & Hsc & Hst & Hd & He).
  destruct o as [u now | s now | s now | d now | e now | id patch | id];
    cbn [step].
  - rewrite createUser_run. cbv zeta. split_collections.
    now apply ordered_below_set.
  - rewrite createSchool_run. cbv zeta. split_collections.
    now apply ordered_below_set.
  - rewrite createStudent_run. cbv zeta. split_collections.
    now apply ordered_below_set.
  - rewrite createDonation_run. cbv zeta. split_collections.
    now apply ordered_below_set.
  - rewrite createEvent_run. cbv beta iota zeta. split_collections.
    now apply ordered_below_set.
  - unfold exec. rewrite updateEvent_run.
    destruct (JsMap.get id (events st)) eqn:E; split_collections.
    eapply ordered_below_update; eassumption.
  - unfold exec. rewrite deleteEvent_run.
    destruct (JsMap.get id (events st)); split_collections.
    now apply ordered_below_delete.
Qed.

Lemma reachable_ordered st : reachable st -> collections_ordered st.
Proof.
  induction 1 as [|st o _ IH _].
  - repeat (split; [apply ordered_below_nil |]). apply ordered_below_nil.
  - now apply step_ordered.
Qed.

Lemma step_school_keys (o : op Amount) st :
  collections_ordered st ->
  Forall (fun kv => School.id (snd kv) = fst kv) (schools st) ->
  Forall (fun kv => School.id (snd kv) = fst kv) (schools (snd (step o st))).
Proof.
  intros (_ & Hsc & _) Hkeys.
  destruct o as [u now | s now | s now | d now | e now | id patch | id];
    cbn [step].
  - now rewrite createUser_run.
  - rewrite createSchool_run. cbv zeta. cbn [snd schools].
    destruct (ordered_below_set _ (School.mk (schoolCurrentId st)
                (InsertSchool.userId s) (InsertSchool.name s)
                (InsertSchool.adminName s) (InsertSchool.address s)
                (InsertSchool.phone s) (InsertSchool.fundraisingGoal s) now)
                _ Hsc) as [-> _].
    apply Forall_app. split; [exact Hkeys |]. now constructor.
  - now rewrite createStudent_run.
  - now rewrite createDonation_run.
  - now rewrite createEvent_run.
  - unfold exec. rewrite updateEvent_run.
    now destruct (JsMap.get id (events st)).
  - unfold exec. rewrite deleteEvent_run.
    now destruct (JsMap.get id (events st)).
Qed.

Lemma reachable_school_keys st :
  reachable st -> Forall (fun kv => School.id (snd kv) = fst kv) (schools st).
Proof.
  induction 1 as [|st o Hreach IH _]; [constructor |].
  apply step_school_keys; [now apply reachable_ordered | exact IH].
Qed.

Lemma sorted_values {V : Type} (id : V -> Z) (m : JsMap.t V) :
  Forall (fun kv => id (snd kv) = fst kv) m ->
  StronglySorted Z.lt (JsMap.keys m) ->
  StronglySorted (fun a b => (id a < id b)%Z) (JsMap.values m).
Proof.
  induction 1 as [|[k v] m Hk Hm IH]; cbn [JsMap.keys JsMap.values map fst snd];
    intros Hs; [constructor |].
  apply StronglySorted_inv in Hs as [Hs Hlt].
  constructor; [now apply IH |].
  cbn [fst snd] in Hk. rewrite Hk.
  clear IH Hs. induction Hm as [|[k' v'] m Hk' Hm IH]; [constructor |].
  cbn [map fst snd] in *. apply Forall_cons in Hlt as [Hlt1 Hlt].
  constructor; [now rewrite Hk' | now apply IH].
Qed.

Lemma StronglySorted_filter {A : Type} (R : A -> A -> Prop) (p : A -> bool)
  (l : list A) :
  StronglySorted R l -> StronglySorted R (List.filter p l).
Proof.
  induction 1 as [|x l Hs IH Hx]; cbn [List.filter]; [constructor |].
  destruct (p x); [| exact IH].
  constructor; [exact IH |].
  rewrite List.Forall_forall in *. intros y Hy. apply Hx.
  now apply List.filter_In in Hy.
Qed.

(** X1. In every store the routes can produce, [getAllSchools],
    [getStudentsBySchoolId] and [getDonationsByStudentId] list their
    entities in strictly increasing order of id, that is in creation order,
    and every id they list is positive and below the counter of its
    collection. *)
Theorem enumeration_in_id_order st (k : Z) :
  reachable st ->
  StronglySorted (fun a b => (School.id a < School.id b)%Z)
    (eval getAllSchools st) /\
  StronglySorted (fun a b => (Student.id a < Student.id b)%Z)
    (eval (getStudentsBySchoolId k) st) /\
  StronglySorted (fun a b => (Donation.id a < Donation.id b)%Z)
    (eval (getDonationsByStudentId k) st) /\
  Forall (fun s => (0 < School.id s < schoolCurrentId st)%Z)
    (eval getAllSchools st) /\
  Forall (fun s => (0 < Student.id s < studentCurrentId st)%Z)
    (eval (getStudentsBySchoolId k) st) /\
  Forall (fun d => (0 < Donation.id d < donationCurrentId st)%Z)
    (eval (getDonationsByStudentId k) st).
Proof.
  intros Hreach.
  destruct (reachable_ordered st Hreach)
    as (_ & (_ & Hsc & Hscb) & (_ & Hst & Hstb) & (_ & Hd & Hdb) & _).
  destruct (reachable_invariant st Hreach) as ((Hsid & Hdid & _) & _).
  pose proof (reachable_school_keys st Hreach) as Hscid.
  unfold getAllSchools, getStudentsBySchoolId, getDonationsByStudentId, eval,
    gets. cbn [fst].
  assert (Hbound : forall (V : Type) (id : V -> Z) (m : JsMap.t V) (c : Z),
             Forall (fun kv => id (snd kv) = fst kv) m ->
             Forall (fun j => (0 < j < c)%Z) (JsMap.keys m) ->
             Forall (fun v => (0 < id v < c)%Z) (JsMap.values m)).
  { intros V id m c Hid. induction Hid as [|[j v] m Hj _ IH];
      cbn [JsMap.keys JsMap.values map fst snd]; intros Hb; [constructor |].
    apply Forall_cons in Hb as [Hb1 Hb]. cbn [fst snd] in Hj.
    constructor; [now rewrite Hj | now apply IH]. }
  split; [now apply sorted_values |].
  split; [apply StronglySorted_filter; now apply sorted_values |].
  split; [apply StronglySorted_filter; now apply sorted_values |].
  split; [now apply Hbound |].
  split.
  - pose proof (Hbound _ Student.id _ _ Hsid Hstb) as H.
    rewrite List.Forall_forall in *. intros x Hx. apply H.
    now apply List.filter_In in Hx.
  - pose proof (Hbound _ Donation.id _ _ Hdid Hdb) as H.
    rewrite List.Forall_forall in *. intros x Hx. apply H.
    now apply List.filter_In in Hx.
Qed.

(** ** Creating entities *)

Lemma filter_snoc {A : Type} (p : A -> bool) (l : list A) (x : A) :
  List.filter p (l ++ [x]) = List.filter p l ++ (if p x then [x] else []).
Proof. rewrite List.filter_app. cbn. now destruct (p x). Qed.

Lemma JsMap_get_snoc_fresh {V : Type} (k : Z) (v : V) (m : JsMap.t V) :
  ~ In k (JsMap.keys m) ->
  JsMap.get k m = None
  /\ JsMap.get k (m ++ [(k, v)]) = Some v
  /\ forall j, j <> k -> JsMap.get j (m ++ [(k, v)]) = JsMap.get j m.
Proof.
  intros Hfresh. pose proof (JsMap_set_fresh k v m Hfresh) as Hset.
  split; [now apply JsMap_get_In |]. rewrite <- Hset. split.
  - apply JsMap_get_set_same.
  - intros j Hj. now apply JsMap_get_set_other.
Qed.

Lemma createDonation_fresh st (d : InsertDonation.t Amount) (now : Z) :
  collections_ordered st ->
  let donation := eval (createDonation d now) st in
  let st' := exec (createDonation d now) st in
  donations st' = donations st ++ [(donationCurrentId st, donation)]
  /\ students st' = students st
  /\ forall studentId,
      eval (getDonationsByStudentId studentId) st'
      = eval (getDonationsByStudentId studentId) st
        ++ (if (InsertDonation.studentId d =? studentId)%Z
            then [donation] else []).
Proof.
  intros (_ & _ & _ & Hd & _). cbv zeta.
  unfold eval, exec. rewrite createDonation_run. cbv zeta.
  unfold getDonationsByStudentId, gets. cbn [fst snd donations students].
  destruct (ordered_below_set _ (Donation.mk (donationCurrentId st)
              (InsertDonation.studentId d) (InsertDonation.amount d) now)
              _ Hd) as [-> _].
  split; [reflexivity |]. split; [reflexivity |].
  intros studentId. rewrite values_app. cbn [JsMap.values map snd].
  now rewrite filter_snoc.
Qed.

Lemma createStudent_fresh st (s : InsertStudent.t) (now : Z) :
  collections_ordered st ->
  let student := eval (createStudent s now) st in
  let st' := exec (createStudent s now) st in
  students st' = students st ++ [(studentCurrentId st, student)]
  /\ donations st' = donations st
  /\ forall schoolId,
      enrolled st' schoolId
      = enrolled st schoolId
        ++ (if (InsertStudent.schoolId s =? schoolId)%Z
            then [student] else []).
Proof.
  intros (_ & _ & Hst & _). cbv zeta.
  unfold eval, exec. rewrite createStudent_run. cbv zeta.
  unfold enrolled. cbn [fst snd donations students].
  destruct (ordered_below_set _ (Student.mk (studentCurrentId st)
              (InsertStudent.userId s) (InsertStudent.schoolId s)
              (InsertStudent.firstName s) (InsertStudent.lastName s)
              (InsertStudent.grade s) (InsertStudent.personalGoal s) now)
              _ Hst) as [-> _].
  split; [reflexivity |]. split; [reflexivity |].
  intros schoolId. rewrite values_app. cbn [JsMap.values map snd].
  now rewrite filter_snoc.
Qed.

(** X2. In a store the routes can produce, a create never overwrites: the
    new entity gets a key no entity had, is returned by its id, and comes
    last in the enumerations ([getAllSchools], [getStudentsBySchoolId],
    [getDonationsByStudentId]); every other id reads as before. *)
Theorem create_appends st (now : Z) :
  reachable st ->
  (forall u : InsertUser.t,
      let user := eval (createUser u now) st in
      let st' := exec (createUser u now) st in
      eval (getUser (User.id user)) st = None
      /\ eval (getUser (User.id user)) st' = Some user
      /\ forall j, j <> User.id user ->
                   eval (getUser j) st' = eval (getUser j) st) /\
  (forall s : InsertSchool.t,
      let school := eval (createSchool s now) st in
      let st' := exec (createSchool s now) st in
      eval (getSchool (School.id school)) st = None
      /\ eval (getSchool (School.id school)) st' = Some school
      /\ (forall j, j <> School.id school ->
                    eval (getSchool j) st' = eval (getSchool j) st)
      /\ eval getAllSchools st' = eval getAllSchools st ++ [school]) /\
  (forall s : InsertStudent.t,
      let student := eval (createStudent s now) st in
      let st' := exec (createStudent s now) st in
      eval (getStudent (Student.id student)) st = None
      /\ eval (getStudent (Student.id student)) st' = Some student
      /\ (forall j, j <> Student.id student ->
                    eval (getStudent j) st' = eval (getStudent j) st)
      /\ forall schoolId,
          eval (getStudentsBySchoolId schoolId) st'
          = eval (getStudentsBySchoolId schoolId) st
            ++ (if (InsertStudent.schoolId s =? schoolId)%Z
                then [student] else [])) /\
  (forall d : InsertDonation.t Amount,
      let donation := eval (createDonation d now) st in
      let st' := exec (createDonation d now) st in
      eval (getDonation (Donation.id donation)) st = None
      /\ eval (getDonation (Donation.id donation)) st' = Some donation
      /\ (forall j, j <> Donation.id donation ->
                    eval (getDonation j) st' = eval (getDonation j) st)
      /\ forall studentId,
          eval (getDonationsByStudentId studentId) st'
          = eval (getDonationsByStudentId studentId) st
            ++ (if (InsertDonation.studentId d =? studentId)%Z
                then [donation] else [])).
Proof.
  intros Hreach.
  destruct (reachable_ordered st Hreach) as (Hu & Hsc & Hst & Hd & _).
  split; [| split; [| split]].
  - intros u. cbv zeta. unfold eval, exec. rewrite createUser_run. cbv zeta.
    unfold getUser, gets. cbn [fst snd users User.id].
    destruct (ordered_below_set _ (User.mk (userCurrentId st)
                (InsertUser.username u) (InsertUser.email u)
                (InsertUser.password u) (InsertUser.role u) now) _ Hu)
      as [-> _].
    apply JsMap_get_snoc_fresh. now apply ordered_below_fresh in Hu.
  - intros s. cbv zeta. unfold eval, exec. rewrite createSchool_run. cbv zeta.
    unfold getSchool, getAllSchools, gets. cbn [fst snd schools School.id].
    destruct (ordered_below_set _ (School.mk (schoolCurrentId st)
                (InsertSchool.userId s) (InsertSchool.name s)
                (InsertSchool.adminName s) (InsertSchool.address s)
                (InsertSchool.phone s) (InsertSchool.fundraisingGoal s) now)
                _ Hsc) as [-> _].
    apply ordered_below_fresh in Hsc.
    destruct (JsMap_get_snoc_fresh _ (School.mk (schoolCurrentId st)
                (InsertSchool.userId s) (InsertSchool.name s)
                (InsertSchool.adminName s) (InsertSchool.address s)
                (InsertSchool.phone s) (InsertSchool.fundraisingGoal s) now)
                _ Hsc) as (H1 & H2 & H3).
    split; [exact H1 | split; [exact H2 | split; [exact H3 |]]].
    now rewrite values_app.
  - intros s. cbv zeta. unfold eval, exec. rewrite createStudent_run. cbv zeta.
    unfold getStudent, getStudentsBySchoolId, gets.
    cbn [fst snd students Student.id].
    destruct (ordered_below_set _ (Student.mk (studentCurrentId st)
                (InsertStudent.userId s) (InsertStudent.schoolId s)
                (InsertStudent.firstName s) (InsertStudent.lastName s)
                (InsertStudent.grade s) (InsertStudent.personalGoal s) now)
                _ Hst) as [-> _].
    apply ordered_below_fresh in Hst.
    destruct (JsMap_get_snoc_fresh _ (Student.mk (studentCurrentId st)
                (InsertStudent.userId s) (InsertStudent.schoolId s)
                (InsertStudent.firstName s) (InsertStudent.lastName s)
                (InsertStudent.grade s) (InsertStudent.personalGoal s) now)
                _ Hst) as (H1 & H2 & H3).
    split; [exact H1 | split; [exact H2 | split; [exact H3 |]]].
    intros schoolId. rewrite values_app. cbn [JsMap.values map snd].
    now rewrite filter_snoc.
  - intros d. cbv zeta. unfold eval, exec. rewrite createDonation_run. cbv zeta.
    unfold getDonation, getDonationsByStudentId, gets.
    cbn [fst snd donations Donation.id].
    destruct (ordered_below_set _ (Donation.mk (donationCurrentId st)
                (InsertDonation.studentId d) (InsertDonation.amount d) now)
                _ Hd) as [-> _].
    apply ordered_below_fresh in Hd.
    destruct (JsMap_get_snoc_fresh _ (Donation.mk (donationCurrentId st)
                (InsertDonation.studentId d) (InsertDonation.amount d) now)
                _ Hd) as (H1 & H2 & H3).
    split; [exact H1 | split; [exact H2 | split; [exact H3 |]]].
    intros studentId. rewrite values_app. cbn [JsMap.values map snd].
    now rewrite filter_snoc.
Qed.

(** ** Deleting and updating events *)

Lemma JsMap_get_delete_other {V : Type} (k j : Z) (m : JsMap.t V) :
  j <> k -> JsMap.get j (JsMap.delete k m) = JsMap.get j m.
Proof.
  intros Hjk.
  induction m as [|[k' v'] m IH]; cbn [JsMap.delete JsMap.get]; [reflexivity |].
  destruct (Z.eqb_spec k' k) as [-> | Hne]; cbn [JsMap.get].
  - destruct (Z.eqb_spec k j); [congruence | reflexivity].
  - now rewrite IH.
Qed.

Lemma JsMap_get_delete_same {V : Type} (k : Z) (m : JsMap.t V) :
  StronglySorted Z.lt (JsMap.keys m) -> JsMap.get k (JsMap.delete k m) = None.
Proof.
  induction m as [|[k' v'] m IH]; cbn [JsMap.delete JsMap.keys map fst];
    intros Hs; [reflexivity |].
  apply StronglySorted_inv in Hs as [Hs Hk'].
  destruct (Z.eqb_spec k' k) as [-> | Hne].
  - apply JsMap_get_In. intros Hin.
    rewrite List.Forall_forall in Hk'. specialize (Hk' _ Hin). lia.
  - cbn [JsMap.get]. destruct (Z.eqb_spec k' k); [contradiction |].
    now apply IH.
Qed.

Lemma JsMap_set_set {V : Type} (k : Z) (v1 v2 : V) (m : JsMap.t V) :
  JsMap.set k v2 (JsMap.set k v1 m) = JsMap.set k v2 m.
Proof.
  induction m as [|[k' v'] m IH]; cbn [JsMap.set].
  - now rewrite Z.eqb_refl.
  - destruct (Z.eqb_spec k' k) as [-> | Hne]; cbn [JsMap.set].
    + now rewrite Z.eqb_refl.
    + destruct (Z.eqb_spec k' k); [contradiction |]. now rewrite IH.
Qed.

(** X3. In a store the routes can produce, [deleteEvent] on an id without
    event returns [false] and the store it was given; on the id of an event
    it returns [true], after which [getEvent] of that id is [undefined], a
    second [deleteEvent] returns [false], every other event reads as before
    and nothing but the collection of events has changed (the counter is not
    moved back, so the id is not given out again). *)
Theorem deleteEvent_spec st (id : Z) :
  reachable st ->
  match eval (getEvent id) st with
  | None => deleteEvent id st = (false, st)
  | Some _ =>
      let st' := exec (deleteEvent id) st in
      eval (deleteEvent id) st = true
      /\ eval (getEvent id) st' = None
      /\ (forall j, j <> id -> eval (getEvent j) st' = eval (getEvent j) st)
      /\ deleteEvent id st' = (false, st')
      /\ same_except_events st st'
  end.
Proof.
  intros Hreach.
  destruct (reachable_ordered st Hreach)
    as (_ & _ & _ & _ & _ & Hsorted & _).
  unfold eval, exec. rewrite deleteEvent_run.
  unfold getEvent, gets. cbn [fst].
  destruct (JsMap.get id (events st)) as [e|] eqn:E; [| reflexivity].
  cbv zeta. cbn [fst snd events].
  assert (Hgone : JsMap.get id (JsMap.delete id (events st)) = None)
    by now apply JsMap_get_delete_same.
  split; [reflexivity |]. split; [exact Hgone |].
  split; [intros j Hj; now apply JsMap_get_delete_other |].
  split; [| repeat split].
  rewrite deleteEvent_run. cbn [events]. now rewrite Hgone.
Qed.

(** X4. Two updates of an event in a row are one update with the merged
    patch, where the later patch wins: the result and the store are the
    same.  In particular sending a patch twice changes nothing more than
    sending it once. *)
Theorem updateEvent_twice st (id : Z) (patch1 patch2 : Event) :
  updateEvent id patch2 (exec (updateEvent id patch1) st)
  = updateEvent id (patch2 ∪ patch1) st
  /\ exec (updateEvent id patch1) (exec (updateEvent id patch1) st)
     = exec (updateEvent id patch1) st.
Proof.
  assert (H : forall p1 p2 : Event,
             updateEvent id p2 (exec (updateEvent id p1) st)
             = updateEvent (Amount := Amount) id (p2 ∪ p1) st).
  { intros p1 p2. unfold exec. rewrite !updateEvent_run.
    destruct (JsMap.get id (events st)) as [e|] eqn:E; cbn [snd events].
    - rewrite JsMap_get_set_same, JsMap_set_set.
      now rewrite (assoc_L (∪) p2 p1 e).
    - now rewrite E. }
  split; [apply H |].
  unfold exec at 1. rewrite H. now rewrite (idemp_L (∪) patch1).
Qed.

(** ** How the statistics move *)

Lemma getStudentStats_of st (studentId : Z) :
  eval (getStudentStats Number studentId) st
  = let ds := eval (getDonationsByStudentId studentId) st in
    StudentStats.mk (reduce_amounts Number ds) (length ds)
      (match map (fun d => Number (Donation.amount d)) ds with
       | x :: xs => Math_max x xs
       | [] => 0%Q
       end)
      (if (0 <? length ds)%nat
       then (reduce_amounts Number ds / inject_Z (Z.of_nat (length ds)))%Q
       else 0%Q).
Proof. reflexivity. Qed.

Lemma reduce_amounts_snoc ds (d : Donation.t Amount) :
  reduce_amounts Number (ds ++ [d])
  = (reduce_amounts Number ds + Number (Donation.amount d))%Q.
Proof. unfold reduce_amounts. now rewrite fold_left_app. Qed.

Lemma largest_snoc (xs : list number) (x : number) :
  match xs ++ [x] with
  | y :: ys => Math_max y ys
  | [] => 0%Q
  end
  = if (length xs =? 0)%nat then x
    else Qmax (match xs with y :: ys => Math_max y ys | [] => 0%Q end) x.
Proof.
  destruct xs as [|y ys]; [reflexivity |].
  cbn [app length Nat.eqb]. unfold Math_max. now rewrite fold_left_app.
Qed.

Lemma school_donations_snoc st (schoolId : Z) (k : Z) (d : Donation.t Amount) :
  List.filter
    (fun donation =>
       Array_includes (map Student.id (enrolled st schoolId))
         (Donation.studentId donation))
    (JsMap.values (donations st ++ [(k, d)]))
  = school_donations st schoolId
    ++ (if Array_includes (map Student.id (enrolled st schoolId))
             (Donation.studentId d)
        then [d] else []).
Proof.
  rewrite values_app. cbn [JsMap.values map snd].
  now rewrite filter_snoc, <- school_donations_by_ids.
Qed.

(** X5. In a store the routes can produce, storing a donation of amount
    [x] for a student adds [x] to the student's [totalRaised] and one to
    [totalDonations], makes [largestDonation] the greater of the former
    largest and [x] ([x] itself for a first donation), and leaves the
    statistics of every other student as they were.  A school counts the
    donation exactly when the student is one of its students. *)
Theorem createDonation_stats st (d : InsertDonation.t Amount) (now : Z) :
  reachable st ->
  let studentId := InsertDonation.studentId d in
  let x := Number (InsertDonation.amount d) in
  let st' := exec (createDonation d now) st in
  let before := eval (getStudentStats Number studentId) st in
  let after := eval (getStudentStats Number studentId) st' in
  StudentStats.totalRaised after = (StudentStats.totalRaised before + x)%Q /\
  StudentStats.totalDonations after = S (StudentStats.totalDonations before) /\
  StudentStats.largestDonation after
  = (if (StudentStats.totalDonations before =? 0)%nat then x
     else Qmax (StudentStats.largestDonation before) x) /\
  StudentStats.averageDonation after
  = (StudentStats.totalRaised after
     / inject_Z (Z.of_nat (StudentStats.totalDonations after)))%Q /\
  (forall j, j <> studentId ->
             eval (getStudentStats Number j) st'
             = eval (getStudentStats Number j) st) /\
  forall schoolId,
    let school_before := eval (getSchoolStats Number schoolId) st in
    let school_after := eval (getSchoolStats Number schoolId) st' in
    if Array_includes (map Student.id (enrolled st schoolId)) studentId
    then SchoolStats.totalRaised school_after
         = (SchoolStats.totalRaised school_before + x)%Q
         /\ SchoolStats.totalDonations school_after
            = S (SchoolStats.totalDonations school_before)
         /\ SchoolStats.activeStudents school_after
            = SchoolStats.activeStudents school_before
    else school_after = school_before.
Proof.
  intros Hreach. cbv zeta.
  destruct (createDonation_fresh st d now (reachable_ordered st Hreach))
    as (Hdons & Hst' & Hby).
  set (st' := exec (createDonation d now) st) in *.
  set (donation := eval (createDonation d now) st) in *.
  assert (Hamount : Number (Donation.amount donation)
                    = Number (InsertDonation.amount d)) by reflexivity.
  pose proof (Hby (InsertDonation.studentId d)) as Hmine.
  rewrite Z.eqb_refl in Hmine.
  rewrite !getStudentStats_of. cbv zeta. rewrite Hmine.
  cbn [StudentStats.totalRaised StudentStats.totalDonations
       StudentStats.largestDonation StudentStats.averageDonation].
  split; [now rewrite reduce_amounts_snoc, Hamount |].
  split; [rewrite length_app; cbn; lia |].
  split; [rewrite map_app; cbn [map]; rewrite largest_snoc, length_map,
            Hamount; reflexivity |].
  split.
  { rewrite length_app. cbn [length].
    replace (0 <? length _ + 1)%nat with true; [reflexivity |].
    symmetry. apply Nat.ltb_lt. lia. }
  split.
  - intros j Hj. rewrite !getStudentStats_of. cbv zeta. rewrite (Hby j).
    destruct (Z.eqb_spec (InsertDonation.studentId d) j); [congruence |].
    now rewrite app_nil_r.
  - intros schoolId.
    assert (Hen : enrolled st' schoolId = enrolled st schoolId)
      by (unfold enrolled; now rewrite Hst').
    rewrite !getSchoolStats_eval, Hen.
    rewrite (school_donations_by_ids st' schoolId), Hen, Hdons.
    rewrite school_donations_snoc.
    change (Donation.studentId donation) with (InsertDonation.studentId d).
    destruct (Array_includes _ (InsertDonation.studentId d)).
    + cbn [SchoolStats.totalRaised SchoolStats.totalDonations
           SchoolStats.activeStudents].
      rewrite reduce_amounts_snoc, length_app, Hamount. cbn [length].
      repeat split. lia.
    + now rewrite app_nil_r.
Qed.

Lemma filter_all_false {A : Type} (p : A -> bool) (l : list A) :
  (forall a, In a l -> p a = false) -> List.filter p l = [].
Proof.
  induction l as [|a l IH]; intros H; cbn [List.filter]; [reflexivity |].
  rewrite (H a) by now left. apply IH. intros b Hb. apply H. now right.
Qed.

(** No donation of a store the routes can produce names the id the next
    student will get. *)
Lemma no_donation_for_next_student st :
  reachable st ->
  eval (getDonationsByStudentId (studentCurrentId st)) st = [].
Proof.
  intros Hreach.
  destruct (reachable_invariant st Hreach) as (_ & (_ & Hdref) & Hslt & _).
  unfold getDonationsByStudentId, eval, gets. cbn [fst].
  apply filter_all_false. intros d Hd.
  rewrite List.Forall_forall in Hdref, Hslt.
  specialize (Hdref d Hd). apply JsMap_has_In in Hdref.
  specialize (Hslt _ Hdref). cbv beta in Hslt.
  apply Z.eqb_neq. lia.
Qed.

(** X6. In a store the routes can produce, a student just created has no
    donation and all-zero statistics; creating the student leaves the
    statistics of every student id and the totals of every school as they
    were, and adds one to [activeStudents] of the student's school only. *)
Theorem createStudent_stats st (s : InsertStudent.t) (now : Z) :
  reachable st ->
  let student := eval (createStudent s now) st in
  let st' := exec (createStudent s now) st in
  eval (getDonationsByStudentId (Student.id student)) st' = [] /\
  eval (getStudentStats Number (Student.id student)) st'
  = StudentStats.mk 0%Q 0 0%Q 0%Q /\
  (forall j, eval (getStudentStats Number j) st'
             = eval (getStudentStats Number j) st) /\
  forall schoolId,
    let before := eval (getSchoolStats Number schoolId) st in
    eval (getSchoolStats Number schoolId) st'
    = SchoolStats.mk (SchoolStats.totalRaised before)
        (SchoolStats.totalDonations before)
        (SchoolStats.activeStudents before
         + (if (InsertStudent.schoolId s =? schoolId)%Z then 1 else 0)).
Proof.
  intros Hreach. cbv zeta.
  destruct (createStudent_fresh st s now (reachable_ordered st Hreach))
    as (Hstudents & Hdons & Hen).
  pose proof (no_donation_for_next_student st Hreach) as Hnone.
  set (st' := exec (createStudent s now) st) in *.
  set (student := eval (createStudent s now) st) in *.
  change (Student.id student) with (studentCurrentId st).
  assert (Hby : forall j, eval (getDonationsByStudentId j) st'
                          = eval (getDonationsByStudentId j) st).
  { intros j. unfold getDonationsByStudentId, eval, gets. cbn [fst].
    now rewrite Hdons. }
  split; [now rewrite Hby |].
  split; [rewrite getStudentStats_of, Hby, Hnone; reflexivity |].
  split; [intros j; now rewrite !getStudentStats_of, Hby |].
  intros schoolId. rewrite !getSchoolStats_eval.
  assert (Hsd : school_donations st' schoolId = school_donations st schoolId).
  { rewrite !school_donations_by_ids, Hdons, Hen.
    apply List.filter_ext_in. intros d Hd.
    unfold Array_includes. rewrite map_app, existsb_app.
    destruct (InsertStudent.schoolId s =? schoolId)%Z; cbn [map existsb];
      [| now rewrite orb_false_r].
    replace (Donation.studentId d =? Student.id student)%Z with false;
      [now rewrite !orb_false_r |].
    symmetry. apply Z.eqb_neq. intros Heq.
    unfold getDonationsByStudentId, eval, gets in Hnone. cbn [fst] in Hnone.
    assert (Hin : In d (List.filter
                          (fun donation =>
                             (Donation.studentId donation
                              =? studentCurrentId st)%Z)
                          (JsMap.values (donations st)))).
    { apply List.filter_In. split; [exact Hd |]. now apply Z.eqb_eq. }
    rewrite Hnone in Hin. exact Hin. }
  rewrite Hsd, Hen, length_app.
  cbn [SchoolStats.totalRaised SchoolStats.totalDonations
       SchoolStats.activeStudents].
  now destruct (InsertStudent.schoolId s =? schoolId)%Z.
Qed.

(** ** Donations of a school *)

Lemma filter_or_perm {A : Type} (p q : A -> bool) (l : list A) :
  (forall a, p a = true -> q a = true -> False) ->
  Permutation (List.filter (fun a => p a || q a) l)
    (List.filter p l ++ List.filter q l).
Proof.
  intros disjoint.
  induction l as [|a l IH]; cbn [List.filter]; [reflexivity |].
  pose proof (disjoint a) as Ha.
  destruct (p a), (q a); cbn [orb app].
  - exfalso. auto.
  - now constructor.
  - rewrite <- Permutation_middle. now constructor.
  - exact IH.
Qed.

Lemma donations_by_ids_perm (ids : list Z) ds :
  NoDup ids ->
  Permutation
    (List.filter (fun d => Array_includes ids (Donation.studentId d)) ds)
    (concat
       (map (fun i =>
               List.filter (fun d => (Donation.studentId d =? i)%Z) ds)
          ids)).
Proof.
  induction ids as [|i ids IH]; intros Hnd.
  - cbn. now rewrite filter_nothing.
  - apply NoDup_cons in Hnd as [Hi Hnd].
    cbn [map concat]. rewrite <- IH by exact Hnd.
    unfold Array_includes. cbn [existsb].
    apply (filter_or_perm (fun d => (Donation.studentId d =? i)%Z)
             (fun d => existsb (Z.eqb (Donation.studentId d)) ids)).
    intros d Hp Hq.
    apply Z.eqb_eq in Hp. apply existsb_exists in Hq as (j & Hj & Hjd).
    apply Z.eqb_eq in Hjd. apply Hi. apply list_elem_of_In. congruence.
Qed.

Lemma getDonationsBySchoolId_eval st (schoolId : Z) :
  getDonationsBySchoolId schoolId st = (school_donations st schoolId, st).
Proof.
  unfold getDonationsBySchoolId, bind, getStudentsBySchoolId, gets.
  f_equal. apply (school_donations_code st schoolId).
Qed.

(** X7. [getDonationsBySchoolId] returns the donations [getSchoolStats]
    counts and sums, and leaves the store as it is.  In a store the routes
    can produce they are, up to order, the donations of the students of the
    school taken student by student, each donation once. *)
Theorem getDonationsBySchoolId_spec st (schoolId : Z) :
  reachable st ->
  let ds := eval (getDonationsBySchoolId schoolId) st in
  let stats := eval (getSchoolStats Number schoolId) st in
  exec (getDonationsBySchoolId schoolId) st = st /\
  SchoolStats.totalDonations stats = length ds /\
  (SchoolStats.totalRaised stats == sum_amounts Number ds)%Q /\
  Permutation ds
    (concat
       (map (fun s => eval (getDonationsByStudentId (Student.id s)) st)
          (enrolled st schoolId))).
Proof.
  intros Hreach. cbv zeta.
  assert (Heval : eval (getDonationsBySchoolId schoolId) st
                  = school_donations st schoolId)
    by (unfold eval; now rewrite getDonationsBySchoolId_eval).
  rewrite Heval, getSchoolStats_eval. unfold exec.
  rewrite getDonationsBySchoolId_eval.
  cbn [snd SchoolStats.totalDonations SchoolStats.totalRaised].
  split; [reflexivity |]. split; [reflexivity |].
  split; [apply reduce_amounts_sum |].
  rewrite school_donations_by_ids.
  rewrite (donations_by_ids_perm _ _
             (enrolled_ids_NoDup st schoolId (reachable_invariant st Hreach))).
  now rewrite map_map.
Qed.

(** * Properties of the routes *)

(** ** The first entries of a sorted array *)

Lemma StronglySorted_app_le {A : Type} (R : A -> A -> Prop) (l1 l2 : list A) :
  StronglySorted R (l1 ++ l2) ->
  forall x y, In x l1 -> In y l2 -> R x y.
Proof.
  induction l1 as [|a l1 IH]; cbn [app]; intros Hs x y Hx Hy; [destruct Hx |].
  apply StronglySorted_inv in Hs as [Hs Ha].
  destruct Hx as [<- | Hx]; [| now apply IH].
  rewrite List.Forall_forall in Ha. apply Ha. apply in_or_app. now right.
Qed.

Section TopOfSorted.

Context {A : Type} (cmp : A -> A -> number) (key : A -> number).
Hypothesis cmp_key : forall a b, (cmp a b == key a - key b)%Q.

(** The slice [0 .. n] of the sorted array holds the [min n (length l)]
    elements of least key: what it leaves out has keys at least as large. *)
Lemma slice_of_sorted (l : list A) (n : Z) :
  (0 <= n)%Z ->
  let result := Array_slice0 (Array_sort cmp l) n in
  length result = Nat.min (Z.to_nat n) (length l) /\
  StronglySorted (fun a b => (key a <= key b)%Q) result /\
  exists rest,
    Permutation (result ++ rest) l
    /\ forall x y, In x result -> In y rest -> (key x <= key y)%Q.
Proof.
  intros Hn. cbv zeta. unfold Array_slice0.
  pose proof (Array_sort_perm cmp l) as Hperm.
  pose proof (Array_sort_sorted cmp key cmp_key l) as Hsorted.
  rewrite (Permutation_length Hperm).
  destruct (n <? 0)%Z eqn:E; [apply Z.ltb_lt in E; lia |].
  set (k := Z.to_nat (Z.min n (Z.of_nat (length l)))).
  split; [rewrite length_firstn, (Permutation_length Hperm); lia |].
  split; [now apply StronglySorted_firstn |].
  exists (skipn k (Array_sort cmp l)). split.
  - now rewrite firstn_skipn.
  - apply StronglySorted_app_le. now rewrite firstn_skipn.
Qed.

End TopOfSorted.

(** Sorting only looks at the comparator on the elements of the array. *)
Lemma sort_insert_ext {A : Type} (cmp cmp' : A -> A -> number) (x : A)
  (l : list A) :
  (forall y, In y l -> cmp x y = cmp' x y) ->
  sort_insert cmp x l = sort_insert cmp' x l.
Proof.
  induction l as [|y l IH]; intros H; cbn [sort_insert]; [reflexivity |].
  rewrite (H y) by now left.
  destruct (Qlt_le_dec 0 (cmp' x y)); [| reflexivity].
  rewrite IH; [reflexivity |]. intros z Hz. apply H. now right.
Qed.

Lemma Array_sort_ext {A : Type} (cmp cmp' : A -> A -> number) (l : list A) :
  (forall x y, In x l -> In y l -> cmp x y = cmp' x y) ->
  Array_sort cmp l = Array_sort cmp' l.
Proof.
  induction l as [|x l IH]; intros H; [reflexivity |].
  change (Array_sort cmp (x :: l)) with (sort_insert cmp x (Array_sort cmp l)).
  change (Array_sort cmp' (x :: l))
    with (sort_insert cmp' x (Array_sort cmp' l)).
  rewrite IH by (intros a b Ha Hb; apply H; now right).
  apply sort_insert_ext. intros y Hy. apply H; [now left |].
  right. now apply (Permutation_in _ (Array_sort_perm cmp' l)).
Qed.

(** ** Student dashboard: days remaining and recent donations *)

Lemma studentDashboard_more (req_user : option User.t) (today : Z) st
  (body : StudentDashboard Amount) :
  eval (studentDashboard Number req_user today) st = Json body ->
  sd_daysRemaining body = daysRemaining (sd_school body) today /\
  sd_recentDonations body
  = recentDonations
      (eval (getDonationsByStudentId (Student.id (sd_student body))) st).
Proof.
  unfold studentDashboard.
  destruct req_user as [user|]; [| discriminate].
  destruct (negb (String.eqb (User.role user) "student")); [discriminate |].
  unfold eval at 1, bind at 1, getStudentByUserId at 1, gets at 1.
  destruct (List.find _ _) as [student|]; [| discriminate].
  unfold bind at 1, getSchool at 1, gets at 1.
  destruct (JsMap.get (Student.schoolId student) (schools st)) as [school|];
    [| discriminate].
  unfold bind at 1. change (getStudentStats Number (Student.id student) st)
    with (eval (getStudentStats Number (Student.id student)) st, st).
  unfold bind at 1, getDonationsByStudentId at 1, gets at 1.
  unfold bind at 1. change (getSchoolStats Number (School.id school) st)
    with (eval (getSchoolStats Number (School.id school)) st, st).
  unfold bind at 1, getStudentsBySchoolId at 1, gets at 1.
  unfold bind at 1. rewrite classRankings_run.
  cbn [fst ret]. intros [= <-].
  cbn [sd_student sd_school sd_daysRemaining sd_recentDonations].
  split; reflexivity.
Qed.

(** X8. The student dashboard reports
    [max(0, 30 - floor(elapsed / 86400000))] days remaining, where
    [elapsed] is the time in milliseconds since the school was created: never
    negative, at most 30 once the school exists, and 0 exactly from 30 full
    days on. *)
Theorem dashboard_daysRemaining (req_user : option User.t) (today : Z) st
  (body : StudentDashboard Amount) :
  eval (studentDashboard Number req_user today) st = Json body ->
  let elapsed := (today - School.createdAt (sd_school body))%Z in
  sd_daysRemaining body = Z.max 0 (30 - elapsed / 86400000)%Z /\
  (0 <= sd_daysRemaining body)%Z /\
  ((0 <= elapsed)%Z -> (sd_daysRemaining body <= 30)%Z) /\
  (sd_daysRemaining body = 0%Z <-> (30 * 86400000 <= elapsed)%Z).
Proof.
  intros Hbody. apply studentDashboard_more in Hbody as [-> _].
  cbv zeta. unfold daysRemaining, Math_floor. cbv zeta.
  change (1000 * 60 * 60 * 24)%Z with 86400000%Z.
  rewrite <- Zdiv_Qdiv.
  set (elapsed := (today - School.createdAt (sd_school body))%Z).
  pose proof (Z.div_le_lower_bound elapsed 86400000 30 ltac:(lia)) as Hlow.
  pose proof (Z.div_lt_upper_bound elapsed 86400000 30 ltac:(lia)) as Hup.
  pose proof (Z.div_pos elapsed 86400000) as Hpos.
  repeat split; try lia.
Qed.

(** X9. The student dashboard shows the five most recent donations of the
    student, or all of them when there are fewer: most recent first, and no
    donation left out was made after one that is shown. *)
Theorem dashboard_recentDonations (req_user : option User.t) (today : Z) st
  (body : StudentDashboard Amount) :
  eval (studentDashboard Number req_user today) st = Json body ->
  let donations :=
    eval (getDonationsByStudentId (Student.id (sd_student body))) st in
  let shown := sd_recentDonations body in
  length shown = Nat.min 5 (length donations) /\
  StronglySorted
    (fun a b => (Donation.createdAt b <= Donation.createdAt a)%Z) shown /\
  exists rest,
    Permutation (shown ++ rest) donations
    /\ forall x y, In x shown -> In y rest ->
                   (Donation.createdAt y <= Donation.createdAt x)%Z.
Proof.
  intros Hbody. apply studentDashboard_more in Hbody as [_ ->].
  cbv zeta. unfold recentDonations.
  set (donations := eval (getDonationsByStudentId _) st).
  set (cmp := fun a b : Donation.t Amount =>
                (inject_Z (Donation.createdAt b)
                 - inject_Z (Donation.createdAt a))%Q).
  set (key := fun a : Donation.t Amount =>
                (- inject_Z (Donation.createdAt a))%Q).
  assert (Hcmp : forall a b, (cmp a b == key a - key b)%Q)
    by (intros a b; unfold cmp, key; ring).
  destruct (slice_of_sorted cmp key Hcmp donations 5 ltac:(lia))
    as (Hlen & Hsorted & rest & Hperm & Hrest).
  split; [exact Hlen |]. split.
  - eapply StronglySorted_weaken; [| exact Hsorted].
    intros a b H. unfold key in H. apply Qopp_le_compat in H.
    rewrite !Qopp_opp in H. now rewrite Zle_Qle.
  - exists rest. split; [exact Hperm |].
    intros x y Hx Hy. specialize (Hrest x y Hx Hy). unfold key in Hrest.
    apply Qopp_le_compat in Hrest. rewrite !Qopp_opp in Hrest.
    now rewrite Zle_Qle.
Qed.

(** ** School dashboard *)

Lemma push_donations_eq (student : Student.t) ds
  (acc : list (RecentDonation.t Amount)) :
  push_donations student ds acc
  = acc ++ map (fun d => RecentDonation.mk d (student_ref student)) ds.
Proof.
  unfold push_donations. revert acc.
  induction ds as [|d ds IH]; intros acc; cbn [fold_left map].
  - now rewrite app_nil_r.
  - now rewrite IH, <- app_assoc.
Qed.

(** The array the loops of the school dashboard build. *)
Lemma collect_donations_run (students : list Student.t)
  (acc : list (RecentDonation.t Amount)) st :
  collect_donations acc students st
  = (acc
     ++ concat
          (map (fun s =>
                  map (fun d => RecentDonation.mk d (student_ref s))
                    (eval (getDonationsByStudentId (Student.id s)) st))
             students),
     st).
Proof.
  revert acc. induction students as [|s students IH]; intros acc;
    cbn [collect_donations map concat].
  - unfold ret. now rewrite app_nil_r.
  - unfold bind. unfold getDonationsByStudentId at 1, gets at 1.
    rewrite IH, push_donations_eq, <- app_assoc. reflexivity.
Qed.

Lemma schoolDashboard_body (req_user : option User.t) st (status : Z)
  (body : SchoolDashboard Amount) :
  eval (schoolDashboard Number req_user) st = Sent status body ->
  status = 200%Z /\
  (exists user,
      req_user = Some user /\ User.role user = "school"%string
      /\ eval (getSchoolByUserId (User.id user)) st = Some (sb_school body)) /\
  sb_stats body = eval (getSchoolStats Number (School.id (sb_school body))) st /\
  sb_topStudents body
  = eval (getTopPerformingStudents Number (School.id (sb_school body))
            (Some 5%Z)) st /\
  sb_recentDonations body
  = Array_slice0
      (Array_sort
         (fun a b =>
            inject_Z (Donation.createdAt (RecentDonation.donation b))
            - inject_Z (Donation.createdAt (RecentDonation.donation a)))%Q
         (concat
            (map (fun s =>
                    map (fun d => RecentDonation.mk d (student_ref s))
                      (eval (getDonationsByStudentId (Student.id s)) st))
               (enrolled st (School.id (sb_school body))))))
      5%Z.
Proof.
  unfold schoolDashboard.
  destruct req_user as [user|]; [| discriminate].
  destruct (String.eqb_spec (User.role user) "school") as [Hrole | _];
    cbn [negb]; [| discriminate].
  unfold eval at 1, bind at 1, getSchoolByUserId at 1, gets at 1.
  destruct (List.find _ _) as [school|] eqn:Efind; [| discriminate].
  unfold bind at 1. change (getSchoolStats Number (School.id school) st)
    with (eval (getSchoolStats Number (School.id school)) st, st).
  unfold bind at 1. rewrite getTopPerformingStudents_run.
  unfold bind at 1, getStudentsBySchoolId at 1, gets at 1.
  unfold bind at 1. rewrite collect_donations_run.
  cbn [fst ret app]. intros [= <- <-].
  cbn [sb_school sb_stats sb_topStudents sb_recentDonations].
  split; [reflexivity |]. split.
  - exists user. repeat split; [exact Hrole |].
    unfold getSchoolByUserId, eval, gets. cbn [fst]. exact Efind.
  - split; [reflexivity |]. split; [| reflexivity].
    unfold eval. now rewrite getTopPerformingStudents_run.
Qed.

Lemma In_concat_map {A B : Type} (f : A -> list B) (l : list A) (b : B) :
  In b (concat (map f l)) <-> exists a, In a l /\ In b (f a).
Proof.
  rewrite in_concat. split.
  - intros (bs & Hbs & Hb). apply in_map_iff in Hbs as (a & <- & Ha). eauto.
  - intros (a & Ha & Hb). exists (f a). split; [now apply in_map | exact Hb].
Qed.

(** X10. The school dashboard is sent only to a user of role [school] and
    shows the school that user owns.  In a store the routes can produce,
    its recent donations are the five most recent donations made to
    students of the school (all of them when there are fewer), most recent
    first, each with the id and the names of the student it was made to;
    and it lists at most five top students. *)
Theorem schoolDashboard_spec (req_user : option User.t) st (status : Z)
  (body : SchoolDashboard Amount) :
  reachable st ->
  eval (schoolDashboard Number req_user) st = Sent status body ->
  let schoolId := School.id (sb_school body) in
  let shown := sb_recentDonations body in
  let all := eval (getDonationsBySchoolId schoolId) st in
  (exists user,
      req_user = Some user /\ User.role user = "school"%string
      /\ eval (getSchoolByUserId (User.id user)) st = Some (sb_school body)) /\
  (length (sb_topStudents body) <= 5)%nat /\
  length shown = Nat.min 5 (length all) /\
  StronglySorted
    (fun a b =>
       (Donation.createdAt (RecentDonation.donation b)
        <= Donation.createdAt (RecentDonation.donation a))%Z) shown /\
  (forall r, In r shown ->
             exists s, In s (enrolled st schoolId)
                       /\ RecentDonation.student r = student_ref s
                       /\ Donation.studentId (RecentDonation.donation r)
                          = Student.id s) /\
  exists rest,
    Permutation (map RecentDonation.donation shown ++ rest) all
    /\ forall x y, In x shown -> In y rest ->
                   (Donation.createdAt y
                    <= Donation.createdAt (RecentDonation.donation x))%Z.
Proof.
  intros Hreach Hbody.
  apply schoolDashboard_body in Hbody as (_ & Huser & _ & Htop & Hrecent).
  cbv zeta. set (schoolId := School.id (sb_school body)) in *.
  split; [exact Huser |]. split.
  { rewrite Htop.
    pose proof (Array_slice0_length
                  (Array_sort
                     (fun a b : TopStudent.t =>
                        (TopStudent.amountRaised b
                         - TopStudent.amountRaised a)%Q)
                     (map (progress_entry Number st) (enrolled st schoolId)))
                  5 ltac:(lia)) as H.
    unfold eval. rewrite getTopPerformingStudents_run. cbn [fst]. lia. }
  set (decorated :=
         concat
           (map (fun s =>
                   map (fun d => RecentDonation.mk d (student_ref s))
                     (eval (getDonationsByStudentId (Student.id s)) st))
              (enrolled st schoolId))) in *.
  assert (Hdecorated : map RecentDonation.donation decorated
                       = concat
                           (map (fun s =>
                                   eval (getDonationsByStudentId (Student.id s))
                                     st)
                              (enrolled st schoolId))).
  { unfold decorated. rewrite concat_map, map_map. f_equal.
    apply map_ext. intros s. rewrite map_map. apply map_id. }
  assert (Hall : Permutation (map RecentDonation.donation decorated)
                   (eval (getDonationsBySchoolId schoolId) st)).
  { rewrite Hdecorated. unfold eval at 2.
    rewrite getDonationsBySchoolId_eval. cbn [fst].
    rewrite school_donations_by_ids.
    rewrite (donations_by_ids_perm _ _
               (enrolled_ids_NoDup st schoolId
                  (reachable_invariant st Hreach))).
    now rewrite map_map. }
  set (cmp := fun a b : RecentDonation.t Amount =>
                (inject_Z (Donation.createdAt (RecentDonation.donation b))
                 - inject_Z (Donation.createdAt (RecentDonation.donation a)))%Q)
    in *.
  set (key := fun a : RecentDonation.t Amount =>
                (- inject_Z (Donation.createdAt (RecentDonation.donation a)))%Q).
  assert (Hcmp : forall a b, (cmp a b == key a - key b)%Q)
    by (intros a b; unfold cmp, key; ring).
  destruct (slice_of_sorted cmp key Hcmp decorated 5 ltac:(lia))
    as (Hlen & Hsorted & rest & Hperm & Hrest).
  rewrite <- Hrecent in Hlen, Hsorted, Hperm, Hrest.
  split.
  { rewrite Hlen, <- (Permutation_length Hall), length_map. reflexivity. }
  split.
  { eapply StronglySorted_weaken; [| exact Hsorted].
    intros a b H. unfold key in H. apply Qopp_le_compat in H.
    rewrite !Qopp_opp in H. now rewrite Zle_Qle. }
  split.
  { intros r Hr.
    assert (Hin : In r decorated).
    { apply (Permutation_in _ Hperm). apply in_or_app. now left. }
    apply In_concat_map in Hin as (s & Hs & Hin).
    apply in_map_iff in Hin as (d & <- & Hd).
    exists s. cbn [RecentDonation.student RecentDonation.donation].
    split; [exact Hs |]. split; [reflexivity |].
    unfold getDonationsByStudentId, eval, gets in Hd. cbn [fst] in Hd.
    apply List.filter_In in Hd as [_ Hd]. now apply Z.eqb_eq. }
  exists (map RecentDonation.donation rest). split.
  - rewrite <- map_app, <- Hall. now apply Permutation_map.
  - intros x y Hx Hy. apply in_map_iff in Hy as (r & <- & Hr).
    specialize (Hrest x r Hx Hr). unfold key in Hrest.
    apply Qopp_le_compat in Hrest. rewrite !Qopp_opp in Hrest.
    now rewrite Zle_Qle.
Qed.

(** ** Who may read what *)

Lemma dashboardGoalProgress_le (student : Student.t) (stats : StudentStats.t) :
  (dashboardGoalProgress student stats <= 100)%Q.
Proof. rewrite dashboardGoalProgress_cap. apply Q.le_min_l. Qed.

(** X11. [GET /api/schools/:id/students] answers with students only to a
    user of role [school] who owns the school of that id.  The answer lists
    every student of the school once, with the statistics of
    [getStudentStats] and a goal progress of at most 100, in non-increasing
    order of [totalRaised]. *)
Theorem schoolStudentsRoute_spec (req_user : option User.t)
  (schoolId : option Z) st (status : Z) (body : list StudentWithStats.t) :
  eval (schoolStudentsRoute Number req_user schoolId) st = Sent status body ->
  exists user reqSchool,
    req_user = Some user /\ User.role user = "school"%string
    /\ eval (getSchoolByUserId (User.id user)) st = Some reqSchool
    /\ schoolId = Some (School.id reqSchool)
    /\ Permutation (map StudentWithStats.student body)
         (eval (getStudentsBySchoolId (School.id reqSchool)) st)
    /\ StronglySorted
         (fun a b =>
            (StudentStats.totalRaised (StudentWithStats.stats b)
             <= StudentStats.totalRaised (StudentWithStats.stats a))%Q) body
    /\ forall e, In e body ->
         Student.schoolId (StudentWithStats.student e) = School.id reqSchool
         /\ StudentWithStats.stats e
            = eval (getStudentStats Number
                      (Student.id (StudentWithStats.student e))) st
         /\ StudentWithStats.goalProgress e
            = dashboardGoalProgress (StudentWithStats.student e)
                (StudentWithStats.stats e)
         /\ (StudentWithStats.goalProgress e <= 100)%Q.
Proof.
  unfold schoolStudentsRoute.
  destruct req_user as [user|]; [| discriminate].
  destruct (String.eqb_spec (User.role user) "school") as [Hrole | _];
    cbn [negb]; [| discriminate].
  unfold eval at 1, bind at 1, getSchoolByUserId at 1, gets at 1.
  destruct (List.find _ _) as [reqSchool|] eqn:Efind; [| discriminate].
  destruct schoolId as [schoolId|]; [| discriminate].
  destruct (Z.eqb_spec (School.id reqSchool) schoolId) as [<- | _];
    cbn [negb]; [| discriminate].
  unfold bind at 1, getStudentsBySchoolId at 1, gets at 1.
  unfold bind at 1. rewrite Promise_all_map_pure by reflexivity.
  cbn [fst ret]. intros [= <- <-].
  set (students := List.filter _ _).
  set (decorate := fun x : Student.t => _).
  set (cmp := fun a b : StudentWithStats.t => _).
  exists user, reqSchool.
  split; [reflexivity |]. split; [exact Hrole |].
  split; [unfold getSchoolByUserId, eval, gets; cbn [fst]; exact Efind |].
  split; [reflexivity |].
  pose proof (Array_sort_perm cmp (map decorate students)) as Hperm.
  split.
  { rewrite (Permutation_map StudentWithStats.student Hperm), map_map.
    unfold getStudentsBySchoolId, eval, gets. cbn [fst]. fold students.
    now rewrite map_id. }
  split.
  { apply StronglySorted_weaken
      with (R := fun a b : StudentWithStats.t =>
                   (- StudentStats.totalRaised (StudentWithStats.stats a)
                    <= - StudentStats.totalRaised (StudentWithStats.stats b))%Q).
    - intros a b H. lra.
    - apply Array_sort_sorted
        with (key := fun a : StudentWithStats.t =>
                       (- StudentStats.totalRaised (StudentWithStats.stats a))%Q).
      intros a b. unfold cmp. ring. }
  intros e He. apply (Permutation_in _ Hperm) in He.
  apply in_map_iff in He as (s & <- & Hs).
  unfold decorate, eval, bind, ret. cbn [fst StudentWithStats.student
    StudentWithStats.stats StudentWithStats.goalProgress].
  split.
  { apply List.filter_In in Hs as [_ Hs]. now apply Z.eqb_eq. }
  split; [reflexivity |]. split; [reflexivity |].
  apply dashboardGoalProgress_le.
Qed.

(** X12. [GET /api/students/:id/donations] answers with donations only to
    the student whose own record has that id, or to the school user whose
    school the student belongs to.  The answer holds every donation of that
    student once, and no other, most recent first. *)
Theorem studentDonationsRoute_spec (req_user : option User.t)
  (studentId : option Z) st (status : Z) (body : list (Donation.t Amount)) :
  eval (studentDonationsRoute req_user studentId) st = Sent status body ->
  exists user id student,
    req_user = Some user /\ studentId = Some id
    /\ eval (getStudent id) st = Some student
    /\ ((User.role user = "student"%string
         /\ exists reqStudent,
             eval (getStudentByUserId (User.id user)) st = Some reqStudent
             /\ Student.id reqStudent = id)
        \/ (User.role user = "school"%string
            /\ exists reqSchool,
                eval (getSchoolByUserId (User.id user)) st = Some reqSchool
                /\ Student.schoolId student = School.id reqSchool))
    /\ Permutation body (eval (getDonationsByStudentId id) st)
    /\ (forall d, In d body -> Donation.studentId d = id)
    /\ StronglySorted
         (fun a b => (Donation.createdAt b <= Donation.createdAt a)%Z) body.
Proof.
  unfold studentDonationsRoute.
  destruct req_user as [user|]; [| discriminate].
  destruct studentId as [id|]; [| discriminate].
  unfold eval at 1, bind at 1, getStudent at 1, gets at 1.
  destruct (JsMap.get id (students st)) as [student|] eqn:Estudent;
    [| discriminate].
  assert (Hsend : forall status body,
             fst ((bind (getDonationsByStudentId id)
                     (fun donations =>
                        ret (Sent 200 (sortedDonations donations)))) st)
             = Sent status body ->
             Permutation body (eval (getDonationsByStudentId id) st)
             /\ (forall d, In d body -> Donation.studentId d = id)
             /\ StronglySorted
                  (fun a b : Donation.t Amount =>
                     (Donation.createdAt b <= Donation.createdAt a)%Z) body).
  { intros status' body'. unfold bind, getDonationsByStudentId, gets, ret, eval.
    cbn [fst]. intros [= <- <-]. unfold sortedDonations.
    set (cmp := fun a b : Donation.t Amount => _).
    pose proof (Array_sort_perm cmp
                  (List.filter
                     (fun donation => (Donation.studentId donation =? id)%Z)
                     (JsMap.values (donations st)))) as Hperm.
    split; [exact Hperm |]. split.
    - intros d Hd. apply (Permutation_in _ Hperm) in Hd.
      apply List.filter_In in Hd as [_ Hd]. now apply Z.eqb_eq.
    - apply StronglySorted_weaken
        with (R := fun a b : Donation.t Amount =>
                     (- inject_Z (Donation.createdAt a)
                      <= - inject_Z (Donation.createdAt b))%Q).
      + intros a b H. apply Qopp_le_compat in H. rewrite !Qopp_opp in H.
        now rewrite Zle_Qle.
      + apply Array_sort_sorted
          with (key := fun a : Donation.t Amount =>
                         (- inject_Z (Donation.createdAt a))%Q).
        intros a b. unfold cmp. ring. }
  assert (Hstudent : eval (getStudent (Amount := Amount) id) st = Some student)
    by (unfold getStudent, eval, gets; cbn [fst]; exact Estudent).
  destruct (String.eqb_spec (User.role user) "student") as [Hrole | Hnot].
  - unfold bind at 1, getStudentByUserId at 1, gets at 1.
    destruct (List.find _ _) as [reqStudent|] eqn:Efind; [| discriminate].
    destruct (Z.eqb_spec (Student.id reqStudent) id) as [Hid | _];
      cbn [negb]; [| discriminate].
    intros H. apply Hsend in H.
    exists user, id, student.
    split; [reflexivity |]. split; [reflexivity |]. split; [exact Hstudent |].
    split; [| exact H].
    left. split; [exact Hrole |]. exists reqStudent. split; [| exact Hid].
    unfold getStudentByUserId, eval, gets. cbn [fst]. exact Efind.
  - destruct (String.eqb_spec (User.role user) "school") as [Hrole | _];
      [| discriminate].
    unfold bind at 1, getSchoolByUserId at 1, gets at 1.
    destruct (List.find _ _) as [reqSchool|] eqn:Efind; [| discriminate].
    destruct (Z.eqb_spec (Student.schoolId student) (School.id reqSchool))
      as [Hid | _]; cbn [negb]; [| discriminate].
    intros H. apply Hsend in H.
    exists user, id, student.
    split; [reflexivity |]. split; [reflexivity |]. split; [exact Hstudent |].
    split; [| exact H].
    right. split; [exact Hrole |]. exists reqSchool. split; [| exact Hid].
    unfold getSchoolByUserId, eval, gets. cbn [fst]. exact Efind.
Qed.

(** ** The public page of a school *)

Lemma schoolGoalProgress_le (school : School.t) (stats : SchoolStats.t) :
  (schoolGoalProgress school stats <= 100)%Q.
Proof.
  unfold schoolGoalProgress, Math_min.
  destruct (truthy _); [apply Q.le_min_l | discriminate].
Qed.

Section Pages.

Variable Date_parse : string -> option Z.

Lemma is_upcoming_time (now : Z) (event : Event) :
  is_upcoming Date_parse now event = true <->
  exists t, time_of Date_parse (event !! "date"%string) = Some t
            /\ (now <= t)%Z.
Proof.
  unfold is_upcoming.
  destruct (time_of Date_parse (event !! "date"%string)) as [t|].
  - rewrite Z.leb_le. split.
    + intros H. now exists t.
    + now intros (t' & [= <-] & H).
  - split; [discriminate | now intros (t & [=] & _)].
Qed.

(** The events [upcomingEvents] shows are the three earliest events whose
    date is valid and not before [now]. *)
Lemma upcomingEvents_spec (now : Z) (events : list Event) :
  let shown := upcomingEvents Date_parse now events in
  let upcoming := List.filter (is_upcoming Date_parse now) events in
  length shown = Nat.min 3 (length upcoming) /\
  StronglySorted
    (fun a b => (event_time Date_parse a <= event_time Date_parse b)%Z) shown /\
  exists rest,
    Permutation (shown ++ rest) upcoming
    /\ forall x y, In x shown -> In y rest ->
                   (event_time Date_parse x <= event_time Date_parse y)%Z.
Proof.
  cbv zeta. unfold upcomingEvents.
  set (upcoming := List.filter (is_upcoming Date_parse now) events).
  set (cmp := fun a b : Event =>
                inject_Z (event_time Date_parse a - event_time Date_parse b)).
  set (key := fun a : Event => inject_Z (event_time Date_parse a)).
  assert (Hcmp : forall a b, (cmp a b == key a - key b)%Q).
  { intros a b. unfold cmp, key, Z.sub.
    rewrite inject_Z_plus, inject_Z_opp. ring. }
  assert (Hext : Array_sort (compare_dates Date_parse) upcoming
                 = Array_sort cmp upcoming).
  { apply Array_sort_ext. intros x y Hx Hy.
    apply List.filter_In in Hx as [_ Hx]. apply List.filter_In in Hy as [_ Hy].
    apply is_upcoming_time in Hx as (tx & Hx & _).
    apply is_upcoming_time in Hy as (ty & Hy & _).
    unfold compare_dates, cmp, event_time. now rewrite Hx, Hy. }
  rewrite Hext.
  destruct (slice_of_sorted cmp key Hcmp upcoming 3 ltac:(lia))
    as (Hlen & Hsorted & rest & Hperm & Hrest).
  split; [exact Hlen |]. split.
  - eapply StronglySorted_weaken; [| exact Hsorted].
    intros a b H. unfold key in H. now rewrite Zle_Qle.
  - exists rest. split; [exact Hperm |].
    intros x y Hx Hy. specialize (Hrest x y Hx Hy). unfold key in Hrest.
    now rewrite Zle_Qle.
Qed.

Lemma schoolPage_body (schoolId : option Z) (now : Z) st (status : Z)
  (body : SchoolPage) :
  eval (schoolPage Number Date_parse schoolId now) st = Sent status body ->
  let school := sp_school body in
  status = 200%Z /\
  (exists id, schoolId = Some id /\ eval (getSchool id) st = Some school) /\
  sp_stats body = eval (getSchoolStats Number (School.id school)) st /\
  sp_goalProgress body = schoolGoalProgress school (sp_stats body) /\
  sp_topStudents body
  = eval (getTopPerformingStudents Number (School.id school) (Some 5%Z)) st /\
  sp_upcomingEvents body
  = upcomingEvents Date_parse now
      (eval (getEventsBySchoolId (School.id school)) st).
Proof.
  unfold schoolPage.
  destruct schoolId as [id|]; [| discriminate].
  unfold eval at 1, bind at 1, getSchool at 1, gets at 1.
  destruct (JsMap.get id (schools st)) as [school|] eqn:Eget; [| discriminate].
  unfold bind at 1. change (getSchoolStats Number (School.id school) st)
    with (eval (getSchoolStats Number (School.id school)) st, st).
  unfold bind at 1. rewrite getTopPerformingStudents_run.
  unfold bind at 1, getEventsBySchoolId at 1, gets at 1.
  cbn [fst ret]. intros [= <- <-].
  cbn [sp_school sp_stats sp_goalProgress sp_topStudents sp_upcomingEvents].
  split; [reflexivity |]. split.
  - exists id. split; [reflexivity |].
    unfold getSchool, eval, gets. cbn [fst]. exact Eget.
  - split; [reflexivity |]. split; [reflexivity |]. split; [| reflexivity].
    unfold eval. now rewrite getTopPerformingStudents_run.
Qed.

(** X13. The public page [GET /api/schools/:id] is sent for an id a school
    is stored under, to anyone.  Its goal progress is at most 100, and its
    upcoming events are the three earliest events of the school whose date
    is valid and not before the time of the request (all of them when there
    are fewer), earliest first. *)
Theorem schoolPage_spec (schoolId : option Z) (now : Z) st (status : Z)
  (body : SchoolPage) :
  eval (schoolPage Number Date_parse schoolId now) st = Sent status body ->
  let school := sp_school body in
  let shown := sp_upcomingEvents body in
  let upcoming :=
    List.filter (is_upcoming Date_parse now)
      (eval (getEventsBySchoolId (School.id school)) st) in
  (exists id, schoolId = Some id /\ eval (getSchool id) st = Some school) /\
  (sp_goalProgress body <= 100)%Q /\
  (length (sp_topStudents body) <= 5)%nat /\
  length shown = Nat.min 3 (length upcoming) /\
  (forall e, In e shown ->
             strict_eq_number (e !! "schoolId"%string) (School.id school) = true
             /\ exists t, time_of Date_parse (e !! "date"%string) = Some t
                          /\ (now <= t)%Z) /\
  StronglySorted
    (fun a b => (event_time Date_parse a <= event_time Date_parse b)%Z) shown /\
  exists rest,
    Permutation (shown ++ rest) upcoming
    /\ forall x y, In x shown -> In y rest ->
                   (event_time Date_parse x <= event_time Date_parse y)%Z.
Proof.
  intros Hbody.
  apply schoolPage_body in Hbody as (_ & Hid & _ & Hgoal & Htop & Hevents).
  cbv zeta. set (school := sp_school body) in *.
  split; [exact Hid |]. split.
  { rewrite Hgoal. apply schoolGoalProgress_le. }
  split.
  { rewrite Htop.
    pose proof (Array_slice0_length
                  (Array_sort
                     (fun a b : TopStudent.t =>
                        (TopStudent.amountRaised b
                         - TopStudent.amountRaised a)%Q)
                     (map (progress_entry Number st)
                        (enrolled st (School.id school))))
                  5 ltac:(lia)) as H.
    unfold eval. rewrite getTopPerformingStudents_run. cbn [fst]. lia. }
  destruct (upcomingEvents_spec now
              (eval (getEventsBySchoolId (School.id school)) st))
    as (Hlen & Hsorted & rest & Hperm & Hrest).
  rewrite <- Hevents in Hlen, Hsorted, Hperm, Hrest.
  split; [exact Hlen |]. split.
  { intros e He.
    assert (Hin : In e (List.filter (is_upcoming Date_parse now)
                          (eval (getEventsBySchoolId (School.id school)) st))).
    { apply (Permutation_in _ Hperm). apply in_or_app. now left. }
    apply List.filter_In in Hin as [Hin Hup]. split.
    - unfold getEventsBySchoolId, eval, gets in Hin. cbn [fst] in Hin.
      now apply List.filter_In in Hin as [_ Hin].
    - now apply is_upcoming_time. }
  split; [exact Hsorted |].
  exists rest. split; [exact Hperm | exact Hrest].
Qed.

End Pages.

(** ** Routes that write *)

Lemma student_key st (id : Z) (student : Student.t) :
  store_invariant st ->
  JsMap.get id (students st) = Some student -> Student.id student = id.
Proof.
  intros ((Hsid & _) & _). clear -Hsid.
  induction (students st) as [|[k v] m IH]; cbn [JsMap.get]; [discriminate |].
  apply Forall_cons in Hsid as [Hk Hm]. cbn [fst snd] in Hk.
  destruct (Z.eqb_spec k id) as [<- | _].
  - now intros [= <-].
  - now apply IH.
Qed.

Lemma postDonation_run (validatedData : InsertDonation.t Amount + string)
  (now : Z) st :
  postDonation validatedData now st
  = match validatedData with
    | inr message => (Refused 400 message, st)
    | inl data =>
        match JsMap.get (InsertDonation.studentId data) (students st) with
        | None => (Refused 404 "Student not found"%string, st)
        | Some _ =>
            (Sent 201 (eval (createDonation data now) st),
             exec (createDonation data now) st)
        end
    end.
Proof.
  unfold postDonation. destruct validatedData as [data | m]; [| reflexivity].
  unfold bind, getStudent, gets, eval, exec.
  destruct (JsMap.get (InsertDonation.studentId data) (students st));
    [| reflexivity].
  now destruct (createDonation data now st).
Qed.

(** X14. [POST /api/donations] refuses a payload that fails validation (400)
    and a payload for a student that does not exist (404), and leaves the
    store as it was.  Otherwise it answers 201 with the donation it stored:
    the next id, the student and the amount of the payload, the time of the
    request; that donation is read back by its id and comes last among the
    donations of the student, and the store is again one the routes can
    produce. *)
Theorem postDonation_spec (validatedData : InsertDonation.t Amount + string)
  (now : Z) st :
  reachable st ->
  let st' := exec (postDonation validatedData now) st in
  match eval (postDonation validatedData now) st with
  | Refused status message =>
      st' = st /\
      match validatedData with
      | inr m => status = 400%Z /\ message = m
      | inl data =>
          status = 404%Z
          /\ eval (getStudent (InsertDonation.studentId data)) st = None
      end
  | Sent status donation =>
      status = 201%Z /\
      exists data student,
        validatedData = inl data
        /\ eval (getStudent (InsertDonation.studentId data)) st = Some student
        /\ donation
           = Donation.mk (donationCurrentId st) (Student.id student)
               (InsertDonation.amount data) now
        /\ reachable st'
        /\ eval (getDonation (Donation.id donation)) st = None
        /\ eval (getDonation (Donation.id donation)) st' = Some donation
        /\ eval (getDonationsByStudentId (Student.id student)) st'
           = eval (getDonationsByStudentId (Student.id student)) st
             ++ [donation]
  end.
Proof.
  intros Hreach. cbv zeta. unfold eval at 1. unfold exec.
  rewrite postDonation_run.
  destruct validatedData as [data | m]; [| cbn; auto].
  destruct (JsMap.get (InsertDonation.studentId data) (students st))
    as [student|] eqn:Eget; cbn [fst snd].
  - pose proof (student_key st _ _ (reachable_invariant st Hreach) Eget) as Hid.
    pose proof (reachable_ordered st Hreach) as Hord.
    destruct (createDonation_fresh st data now Hord) as (Hds & _ & Hby).
    pose proof Hord as (_ & _ & _ & Hd & _).
    pose proof (ordered_below_fresh _ _ Hd) as Hfresh.
    destruct (JsMap_get_snoc_fresh (donationCurrentId st)
                (eval (createDonation data now) st) (donations st) Hfresh)
      as (Hnone & Hsome & _).
    assert (Hdonation : eval (createDonation data now) st
                        = Donation.mk (donationCurrentId st)
                            (InsertDonation.studentId data)
                            (InsertDonation.amount data) now)
      by (unfold eval; now rewrite createDonation_run).
    split; [reflexivity |]. exists data, student.
    split; [reflexivity |].
    split; [unfold getStudent, eval, gets; cbn [fst]; exact Eget |].
    split; [now rewrite Hid |].
    split.
    { change (exec (createDonation data now) st)
        with (snd (step (CreateDonation data now) st)).
      apply reachable_step; [exact Hreach |].
      cbn [route_guard]. unfold JsMap.has. now rewrite Eget. }
    assert (Hdid : Donation.id (eval (createDonation data now) st)
                   = donationCurrentId st) by now rewrite Hdonation.
    assert (Hget : forall k s,
               eval (getDonation (Amount := Amount) k) s
               = JsMap.get k (donations s)) by reflexivity.
    rewrite Hdid, !Hget.
    split; [exact Hnone |].
    split; [now rewrite Hds |].
    specialize (Hby (Student.id student)). rewrite Hid, Z.eqb_refl in Hby.
    rewrite Hid. exact Hby.
  - split; [reflexivity |]. split; [reflexivity |].
    unfold getStudent, eval, gets. cbn [fst]. exact Eget.
Qed.

(** The checks before the handler of [PUT] and [DELETE /api/events/:id]. *)
Lemma owned_event_run (A : Type) (req_user : option User.t)
  (eventId : option Z) (k : Z -> M Amount (Reply A)) st :
  owned_event A req_user eventId k st
  = match req_user, eventId with
    | None, _ => (Refused 401 "Unauthorized"%string, st)
    | Some user, eventId =>
        if String.eqb (User.role user) "school" then
          match eventId with
          | None => (Refused 404 "Event not found"%string, st)
          | Some id =>
              match JsMap.get id (events st) with
              | None => (Refused 404 "Event not found"%string, st)
              | Some event =>
                  match eval (getSchoolByUserId (User.id user)) st with
                  | None => (Refused 403 "Access denied"%string, st)
                  | Some reqSchool =>
                      if strict_eq_number (event !! "schoolId"%string)
                           (School.id reqSchool)
                      then k id st
                      else (Refused 403 "Access denied"%string, st)
                  end
              end
          end
        else (Refused 401 "Unauthorized"%string, st)
    end.
Proof.
  unfold owned_event.
  destruct req_user as [user|]; [| reflexivity].
  destruct (String.eqb (User.role user) "school"); cbn [negb]; [| reflexivity].
  destruct eventId as [id|]; [| reflexivity].
  unfold bind at 1, getEvent at 1, gets at 1.
  destruct (JsMap.get id (events st)) as [event|]; [| reflexivity].
  unfold bind, getSchoolByUserId, gets, eval. cbn [fst].
  destruct (List.find _ _) as [reqSchool|]; [| reflexivity].
  now destruct (strict_eq_number _ _).
Qed.

Lemma owned_event_cases (A : Type) (req_user : option User.t)
  (eventId : option Z) (k : Z -> M Amount (Reply A)) st :
  (exists status message,
      owned_event A req_user eventId k st = (Refused status message, st)
      /\ forall (B : Type) (k' : Z -> M Amount (Reply B)),
          owned_event B req_user eventId k' st = (Refused status message, st))
  \/ (exists user reqSchool id event,
         req_user = Some user /\ User.role user = "school"%string
         /\ eventId = Some id
         /\ eval (getEvent id) st = Some event
         /\ eval (getSchoolByUserId (User.id user)) st = Some reqSchool
         /\ strict_eq_number (event !! "schoolId"%string) (School.id reqSchool)
            = true
         /\ forall (B : Type) (k' : Z -> M Amount (Reply B)),
             owned_event B req_user eventId k' st = k' id st).
Proof.
  destruct req_user as [user|];
    [| left; do 2 eexists; split; [| intros B k']; now rewrite owned_event_run].
  destruct (String.eqb (User.role user) "school") eqn:Erole;
    [| left; do 2 eexists; split; [| intros B k'];
       now rewrite owned_event_run, Erole].
  destruct eventId as [id|];
    [| left; do 2 eexists; split; [| intros B k'];
       now rewrite owned_event_run, Erole].
  destruct (JsMap.get id (events st)) as [event|] eqn:Eevent;
    [| left; do 2 eexists; split; [| intros B k'];
       now rewrite owned_event_run, Erole, Eevent].
  destruct (eval (getSchoolByUserId (User.id user)) st) as [reqSchool|]
    eqn:Efind;
    [| left; do 2 eexists; split; [| intros B k'];
       now rewrite owned_event_run, Erole, Eevent, Efind].
  destruct (strict_eq_number (event !! "schoolId"%string) (School.id reqSchool))
    eqn:Eown;
    [| left; do 2 eexists; split; [| intros B k'];
       now rewrite owned_event_run, Erole, Eevent, Efind, Eown].
  right. exists user, reqSchool, id, event.
  split; [reflexivity |]. split; [now apply String.eqb_eq |].
  split; [reflexivity |]. split; [exact Eevent |].
  split; [exact Efind |]. split; [exact Eown |].
  intros B k'. now rewrite owned_event_run, Erole, Eevent, Efind, Eown.
Qed.

(** X15. [PUT /api/events/:id] and [DELETE /api/events/:id] make the same
    checks: one is refused exactly when the other is, with the same status
    and message, and a refused request leaves the store as it was.  A
    request is carried out only for a user of role [school] whose school is
    the school of the event; it is then the update, or the deletion, of
    that event by the store. *)
Theorem event_write_checks (req_user : option User.t) (eventId : option Z)
  (body : Event) st :
  match eval (putEvent req_user eventId body) st with
  | Refused status message =>
      exec (putEvent req_user eventId body) st = st
      /\ deleteEventRoute req_user eventId st = (Refused status message, st)
  | Sent status updated =>
      status = 200%Z /\
      exists user reqSchool id event,
        req_user = Some user /\ User.role user = "school"%string
        /\ eventId = Some id
        /\ eval (getEvent id) st = Some event
        /\ eval (getSchoolByUserId (User.id user)) st = Some reqSchool
        /\ strict_eq_number (event !! "schoolId"%string) (School.id reqSchool)
           = true
        /\ updated = Some (body ∪ event)
        /\ exec (putEvent req_user eventId body) st
           = exec (updateEvent id body) st
        /\ deleteEventRoute req_user eventId st
           = (Sent 204 tt, exec (deleteEvent id) st)
  end.
Proof.
  unfold putEvent, deleteEventRoute, eval, exec.
  destruct (owned_event_cases (option Event) req_user eventId
              (fun eventId =>
                 bind (updateEvent eventId body)
                   (fun updatedEvent => ret (Sent 200 updatedEvent))) st)
    as [(status & message & Hput & Hany)
       | (user & reqSchool & id & event & Huser & Hrole & Hid & Hevent
          & Hschool & Hown & Hany)].
  - rewrite Hput. cbn [fst snd]. split; [reflexivity |]. apply Hany.
  - rewrite !Hany. unfold bind.
    assert (Hupdate : updateEvent id body st
                      = (Some (body ∪ event),
                         snd (updateEvent id body st))).
    { rewrite updateEvent_run.
      unfold getEvent, eval, gets in Hevent. cbn [fst] in Hevent.
      now rewrite Hevent. }
    rewrite Hupdate. cbn [fst snd ret].
    split; [reflexivity |]. exists user, reqSchool, id, event.
    split; [exact Huser |]. split; [exact Hrole |]. split; [exact Hid |].
    split; [exact Hevent |]. split; [exact Hschool |]. split; [exact Hown |].
    split; [reflexivity |]. split; [reflexivity |].
    now destruct (deleteEvent id st).
Qed.

(** X16. No request to [PUT] or [DELETE /api/events/:id] touches an event
    of a school other than the school of the user: whoever sends it,
    an event that does not carry the id of a school owned by that user
    reads the same afterwards. *)
Theorem foreign_events_untouched (req_user : option User.t)
  (eventId : option Z) (body : Event) st (j : Z) (e : Event) :
  eval (getEvent j) st = Some e ->
  (forall user reqSchool,
      req_user = Some user ->
      eval (getSchoolByUserId (User.id user)) st = Some reqSchool ->
      strict_eq_number (e !! "schoolId"%string) (School.id reqSchool) = false) ->
  eval (getEvent j) (exec (putEvent req_user eventId body) st) = Some e
  /\ eval (getEvent j) (exec (deleteEventRoute req_user eventId) st) = Some e.
Proof.
  intros He Hforeign. unfold putEvent, deleteEventRoute, exec.
  destruct (owned_event_cases unit req_user eventId
              (fun eventId =>
                 bind (deleteEvent eventId) (fun _ => ret (Sent 204 tt))) st)
    as [(status & message & _ & Hany)
       | (user & reqSchool & id & event & Huser & Hrole & Hid & Hevent
          & Hschool & Hown & Hany)].
  - rewrite !Hany. cbn [snd]. now split.
  - rewrite !Hany. specialize (Hforeign user reqSchool Huser Hschool).
    assert (Hne : j <> id).
    { intros ->. rewrite Hevent in He. injection He as <-. congruence. }
    unfold bind. rewrite updateEvent_run, deleteEvent_run.
    unfold getEvent, eval, gets in *. cbn [fst] in *.
    rewrite Hevent. cbn [snd ret events]. split.
    + now rewrite JsMap_get_set_other.
    + now rewrite JsMap_get_delete_other.
Qed.

Lemma strict_eq_number_refl (n : Z) :
  strict_eq_number (Some (JNumber (inject_Z n))) n = true.
Proof. cbn [strict_eq_number]. apply Qeq_bool_iff. reflexivity. Qed.

Lemma postEvent_run (req_user : option User.t) (schoolId : option Z)
  (body : Event) (now : Z) st :
  postEvent req_user schoolId body now st
  = match req_user with
    | None => (Refused 401 "Unauthorized"%string, st)
    | Some user =>
        if String.eqb (User.role user) "school" then
          match eval (getSchoolByUserId (User.id user)) st, schoolId with
          | Some reqSchool, Some schoolId =>
              if (School.id reqSchool =? schoolId)%Z then
                let created :=
                  createEvent
                    (<["schoolId"%string := JNumber (inject_Z schoolId)]> body)
                    now st in
                (Sent 201 (fst created), snd created)
              else (Refused 403 "Access denied"%string, st)
          | _, _ => (Refused 403 "Access denied"%string, st)
          end
        else (Refused 401 "Unauthorized"%string, st)
    end.
Proof.
  unfold postEvent.
  destruct req_user as [user|]; [| reflexivity].
  destruct (String.eqb (User.role user) "school"); cbn [negb]; [| reflexivity].
  unfold bind at 1, getSchoolByUserId, gets, eval. cbn [fst].
  destruct (List.find _ _) as [reqSchool|]; [| reflexivity].
  destruct schoolId as [schoolId|]; [| reflexivity].
  destruct (School.id reqSchool =? schoolId)%Z; cbn [negb]; [| reflexivity].
  unfold bind. rewrite createEvent_run. reflexivity.
Qed.

(** X17. [POST /api/schools/:id/events] creates an event only for a user of
    role [school] whose own school has the id of the path; any other
    request is refused and leaves the store as it was.  The event created
    carries the id of that school, the next event id and the time of the
    request, whatever the body says about these fields, and the fields of
    the body otherwise; it is read back by its id and comes last among the
    events of the school. *)
Theorem postEvent_spec (req_user : option User.t) (schoolId : option Z)
  (body : Event) (now : Z) st :
  reachable st ->
  let st' := exec (postEvent req_user schoolId body now) st in
  match eval (postEvent req_user schoolId body now) st with
  | Refused status message => st' = st
  | Sent status event =>
      status = 201%Z /\
      exists user reqSchool,
        req_user = Some user /\ User.role user = "school"%string
        /\ eval (getSchoolByUserId (User.id user)) st = Some reqSchool
        /\ schoolId = Some (School.id reqSchool)
        /\ event !! "schoolId"%string
           = Some (JNumber (inject_Z (School.id reqSchool)))
        /\ event !! "id"%string
           = Some (JNumber (inject_Z (eventCurrentId st)))
        /\ event !! "createdAt"%string = Some (JDate now)
        /\ (forall k : string,
               k <> "schoolId"%string -> k <> "id"%string ->
               k <> "createdAt"%string -> event !! k = body !! k)
        /\ eval (getEvent (eventCurrentId st)) st = None
        /\ eval (getEvent (eventCurrentId st)) st' = Some event
        /\ eval (getEventsBySchoolId (School.id reqSchool)) st'
           = eval (getEventsBySchoolId (School.id reqSchool)) st ++ [event]
        /\ users st' = users st /\ schools st' = schools st
        /\ students st' = students st /\ donations st' = donations st
        /\ eventCurrentId st' = (eventCurrentId st + 1)%Z
  end.
Proof.
  intros Hreach. cbv zeta. unfold eval at 1. unfold exec.
  rewrite postEvent_run.
  destruct req_user as [user|]; [| reflexivity].
  destruct (String.eqb_spec (User.role user) "school") as [Hrole | _];
    [| reflexivity].
  destruct (eval (getSchoolByUserId (User.id user)) st) as [reqSchool|]
    eqn:Efind; [| reflexivity].
  destruct schoolId as [schoolId|]; [| reflexivity].
  destruct (Z.eqb_spec (School.id reqSchool) schoolId) as [<- | _];
    [| reflexivity].
  rewrite createEvent_run. cbv zeta. cbn [fst snd].
  pose proof (reachable_ordered st Hreach) as (_ & _ & _ & _ & He).
  set (event := <["createdAt"%string := JDate now]>
                  (<["id"%string := JNumber (inject_Z (eventCurrentId st))]>
                     (<["schoolId"%string :=
                          JNumber (inject_Z (School.id reqSchool))]> body))).
  destruct (ordered_below_set _ event _ He) as [Hset _].
  pose proof (ordered_below_fresh _ _ He) as Hfresh.
  destruct (JsMap_get_snoc_fresh (eventCurrentId st) event (events st) Hfresh)
    as (Hnone & Hsome & _).
  split; [reflexivity |]. exists user, reqSchool.
  split; [reflexivity |]. split; [exact Hrole |].
  split; [exact Efind |].
  split; [reflexivity |].
  assert (Hschool : event !! "schoolId"%string
                    = Some (JNumber (inject_Z (School.id reqSchool)))).
  { unfold event. rewrite lookup_insert_ne by discriminate.
    rewrite lookup_insert_ne by discriminate. apply lookup_insert_eq. }
  split; [exact Hschool |].
  split.
  { unfold event. rewrite lookup_insert_ne by discriminate.
    apply lookup_insert_eq. }
  split; [unfold event; apply lookup_insert_eq |].
  split.
  { intros k Hk1 Hk2 Hk3. unfold event.
    rewrite !lookup_insert_ne by congruence. reflexivity. }
  unfold getEvent, getEventsBySchoolId, gets, eval.
  cbn [fst events eventCurrentId].
  rewrite Hset. split; [exact Hnone |]. split; [exact Hsome |].
  split.
  { rewrite values_app. cbn [JsMap.values map snd]. rewrite filter_snoc.
    now rewrite Hschool, strict_eq_number_refl. }
  repeat split.
Qed.

(** * Properties of the accounts *)

(** ** Password hashes *)

Lemma hex_digits_of_byte (b : byte) :
  let h := hex_digit (Byte.to_N b / 16) in
  let l := hex_digit (Byte.to_N b mod 16) in
  Ascii.eqb h "." = false /\ Ascii.eqb l "." = false
  /\ hex_value h = Some (Byte.to_N b / 16)%N
  /\ hex_value l = Some (Byte.to_N b mod 16)%N
  /\ Byte.of_N (16 * (Byte.to_N b / 16) + Byte.to_N b mod 16) = Some b.
Proof. destruct b; vm_compute; repeat split. Qed.

(** Decoding undoes encoding. *)
Lemma unhex_hex (buf : list byte) : unhex (hex buf) = buf.
Proof.
  induction buf as [|b buf IH]; [reflexivity |].
  destruct (hex_digits_of_byte b) as (_ & _ & Hh & Hl & Hb).
  cbn [hex unhex]. cbv zeta in Hh, Hl. now rewrite Hh, Hl, Hb, IH.
Qed.

(** An encoded buffer holds no dot: splitting cuts after it. *)
Lemma split_dot_hex (buf : list byte) (rest : string) :
  split_dot (hex buf ++ String "." rest) = hex buf :: split_dot rest.
Proof.
  induction buf as [|b buf IH]; [reflexivity |].
  destruct (hex_digits_of_byte b) as (Hh & Hl & _).
  assert (Happ : forall c (s t : string),
             String.append (String c s) t = String c (String.append s t))
    by reflexivity.
  cbn [hex]. rewrite !Happ. cbn [split_dot]. cbv zeta in Hh, Hl.
  now rewrite Hh, Hl, IH.
Qed.

Lemma split_dot_hex_only (buf : list byte) : split_dot (hex buf) = [hex buf].
Proof.
  induction buf as [|b buf IH]; [reflexivity |].
  destruct (hex_digits_of_byte b) as (Hh & Hl & _).
  cbn [hex split_dot]. cbv zeta in Hh, Hl. now rewrite Hh, Hl, IH.
Qed.

Lemma bytes_eqb_eq (a b : list byte) : bytes_eqb a b = true <-> a = b.
Proof.
  revert b. induction a as [|x a IH]; intros [|y b]; cbn [bytes_eqb];
    try (split; [discriminate | congruence]); [tauto |].
  rewrite andb_true_iff, IH. split.
  - intros [Hxy ->]. f_equal. now apply Byte.byte_dec_bl.
  - intros [= -> ->]. split; [| reflexivity]. now apply Byte.byte_dec_lb.
Qed.

Section Accounts.

Variable scrypt : string -> string -> list byte.

Lemma comparePasswords_hashed (password supplied : string)
  (random : list byte) :
  comparePasswords scrypt supplied (hashPassword scrypt password random)
  = if (length (scrypt password (hex random))
        =? length (scrypt supplied (hex random)))%nat
    then Some (bytes_eqb (scrypt password (hex random))
                 (scrypt supplied (hex random)))
    else None.
Proof.
  unfold comparePasswords, hashPassword. cbv zeta.
  change ("." ++ hex random)%string with (String "." (hex random)).
  now rewrite split_dot_hex, split_dot_hex_only, unhex_hex.
Qed.

(** X18. A password is checked against the hash made from it by deriving
    the key again with the salt kept in the hash.  The password the hash was
    made from is always accepted; another one is accepted exactly when it
    derives the same key, and the check throws exactly when the two keys
    differ in length. *)
Theorem comparePasswords_hashPassword (password supplied : string)
  (random : list byte) :
  let stored := hashPassword scrypt password random in
  let salt := hex random in
  comparePasswords scrypt password stored = Some true /\
  (comparePasswords scrypt supplied stored = Some true
   <-> scrypt supplied salt = scrypt password salt) /\
  (comparePasswords scrypt supplied stored = None
   <-> length (scrypt supplied salt) <> length (scrypt password salt)).
Proof.
  cbv zeta. rewrite !comparePasswords_hashed, Nat.eqb_refl.
  split; [f_equal; now apply bytes_eqb_eq |].
  destruct (Nat.eqb_spec (length (scrypt password (hex random)))
              (length (scrypt supplied (hex random)))) as [Hlen | Hlen].
  - split.
    + split.
      * intros [= H]. symmetry. now apply bytes_eqb_eq.
      * intros H. f_equal. apply bytes_eqb_eq. now symmetry.
    + split; [discriminate | intros H; symmetry in Hlen; contradiction].
  - split.
    + split; [discriminate |]. intros H. rewrite H in Hlen. contradiction.
    + split; [intros _ H; now symmetry in H | reflexivity].
Qed.

(** ** Requests as runs of the store *)

Lemma register_run (body : InsertUser.t) (random : list byte) (now : Z)
  (login_ok : bool) (st : MemStorage Amount) :
  register scrypt body random now login_ok st
  = match eval (getUserByUsername (InsertUser.username body)) st with
    | Some _ => (Refused 400 "Username already exists"%string, st)
    | None =>
        let account := plain_account scrypt body random in
        (if login_ok then Sent 201 (eval (createUser account now) st)
         else Refused 500 ""%string,
         exec (createUser account now) st)
    end.
Proof.
  unfold register, bind, getUserByUsername, gets, eval, exec. cbn [fst].
  destruct (List.find _ _); reflexivity.
Qed.

Lemma registerSchool_run (body : RegisterSchool.t) (random : list byte)
  (now : Z) (login_ok : bool) (st : MemStorage Amount) :
  registerSchool scrypt body random now login_ok st
  = match eval (getUserByUsername (RegisterSchool.username body)) st with
    | Some _ => (Refused 400 "Username already exists"%string, st)
    | None =>
        match eval (getUserByEmail (RegisterSchool.email body)) st with
        | Some _ => (Refused 400 "Email already exists"%string, st)
        | None =>
            let account := school_account scrypt body random in
            let st1 := exec (createUser account now) st in
            let record := school_record body (userCurrentId st) in
            (if login_ok
             then Sent 201 (eval (createUser account now) st,
                            eval (createSchool record now) st1)
             else Refused 500
                    "Registration successful but failed to login"%string,
             exec (createSchool record now) st1)
        end
    end.
Proof.
  unfold registerSchool, bind, getUserByUsername, getUserByEmail, gets, eval,
    exec. cbn [fst].
  destruct (List.find _ _); [reflexivity |].
  destruct (List.find _ _); reflexivity.
Qed.

Lemma registerStudent_run (body : RegisterStudent.t) (random : list byte)
  (now : Z) (login_ok : bool) (st : MemStorage Amount) :
  registerStudent scrypt body random now login_ok st
  = match RegisterStudent.schoolId body with
    | None => (Refused 400 "Selected school does not exist"%string, st)
    | Some schoolId =>
        match eval (getSchool schoolId) st with
        | None => (Refused 400 "Selected school does not exist"%string, st)
        | Some _ =>
            match eval (getUserByUsername (RegisterStudent.username body)) st
            with
            | Some _ => (Refused 400 "Username already exists"%string, st)
            | None =>
                match eval (getUserByEmail (RegisterStudent.email body)) st
                with
                | Some _ => (Refused 400 "Email already exists"%string, st)
                | None =>
                    let account := student_account scrypt body random in
                    let st1 := exec (createUser account now) st in
                    let record :=
                      student_record body (userCurrentId st) schoolId in
                    (if login_ok
                     then Sent 201 (eval (createUser account now) st,
                                    eval (createStudent record now) st1)
                     else Refused 500
                            "Registration successful but failed to login"%string,
                     exec (createStudent record now) st1)
                end
            end
        end
    end.
Proof.
  unfold registerStudent, bind, getSchool, getUserByUsername, getUserByEmail,
    gets, eval, exec.
  destruct (RegisterStudent.schoolId body) as [schoolId|]; [| reflexivity].
  cbn [fst].
  destruct (JsMap.get schoolId (schools st)); [| reflexivity].
  destruct (List.find _ _); [reflexivity |].
  destruct (List.find _ _); reflexivity.
Qed.

Lemma putEvent_exec (req_user : option User.t) (eventId : option Z)
  (body : Event) (st : MemStorage Amount) :
  exec (putEvent req_user eventId body) st = st
  \/ exists id, exec (putEvent req_user eventId body) st
                = exec (updateEvent id body) st.
Proof.
  unfold putEvent, exec.
  destruct (owned_event_cases (option Event) req_user eventId
              (fun eventId =>
                 bind (updateEvent eventId body)
                   (fun updatedEvent => ret (Sent 200 updatedEvent))) st)
    as [(status & message & -> & _) | (_ & _ & id & _ & _ & _ & _ & _ & _ & _ & ->)];
    [now left | right].
  exists id. unfold bind. now destruct (updateEvent id body st).
Qed.

Lemma deleteEventRoute_exec (req_user : option User.t) (eventId : option Z)
  (st : MemStorage Amount) :
  exec (deleteEventRoute req_user eventId) st = st
  \/ exists id, exec (deleteEventRoute req_user eventId) st
                = exec (deleteEvent id) st.
Proof.
  unfold deleteEventRoute, exec.
  destruct (owned_event_cases unit req_user eventId
              (fun eventId =>
                 bind (deleteEvent eventId) (fun _ => ret (Sent 204 tt))) st)
    as [(status & message & -> & _) | (_ & _ & id & _ & _ & _ & _ & _ & _ & _ & ->)];
    [now left | right].
  exists id. unfold bind. now destruct (deleteEvent id st).
Qed.

Lemma get_has {V : Type} (k : Z) (v : V) (m : JsMap.t V) :
  JsMap.get k m = Some v -> JsMap.has k m = true.
Proof. unfold JsMap.has. now intros ->. Qed.

(** Every request writes through at most two guarded operations of the
    store. *)
Lemma serve_as_run (r : request Amount) (st : MemStorage Amount) :
  exists ops, guarded_run ops st = true
              /\ serve scrypt r st = snd (run ops st)
              /\ (length ops <= 2)%nat.
Proof.
  destruct r as [body random now ok | body random now ok | body random now ok
                | data now | req_user schoolId body now
                | req_user eventId body | req_user eventId];
    cbn [serve].
  - unfold exec. rewrite register_run.
    destruct (eval (getUserByUsername (InsertUser.username body)) st).
    + exists []. repeat split. cbn. lia.
    + exists [CreateUser (plain_account scrypt body random) now].
      repeat split. cbn. lia.
  - unfold exec. rewrite registerSchool_run.
    destruct (eval (getUserByUsername (RegisterSchool.username body)) st);
      [exists []; repeat split; cbn; lia |].
    destruct (eval (getUserByEmail (RegisterSchool.email body)) st);
      [exists []; repeat split; cbn; lia |].
    exists [CreateUser (school_account scrypt body random) now;
            CreateSchool (school_record body (userCurrentId st)) now].
    repeat split. cbn. lia.
  - unfold exec. rewrite registerStudent_run.
    destruct (RegisterStudent.schoolId body) as [schoolId|];
      [| exists []; repeat split; cbn; lia].
    destruct (eval (getSchool schoolId) st) as [school|] eqn:Eschool;
      [| exists []; repeat split; cbn; lia].
    destruct (eval (getUserByUsername (RegisterStudent.username body)) st);
      [exists []; repeat split; cbn; lia |].
    destruct (eval (getUserByEmail (RegisterStudent.email body)) st);
      [exists []; repeat split; cbn; lia |].
    exists [CreateUser (student_account scrypt body random) now;
            CreateStudent (student_record body (userCurrentId st) schoolId)
              now].
    split; [| split; [reflexivity | cbn; lia]].
    cbn [guarded_run route_guard andb step createUser]. rewrite andb_true_r.
    apply (get_has _ _ _ Eschool).
  - unfold exec. rewrite postDonation_run.
    destruct data as [data | message]; [| exists []; repeat split; cbn; lia].
    destruct (JsMap.get (InsertDonation.studentId data) (students st))
      as [student|] eqn:Estudent; [| exists []; repeat split; cbn; lia].
    exists [CreateDonation data now].
    split; [| split; [reflexivity | cbn; lia]].
    cbn [guarded_run route_guard]. rewrite andb_true_r.
    apply (get_has _ _ _ Estudent).
  - unfold exec. rewrite postEvent_run.
    destruct req_user as [user|]; [| exists []; repeat split; cbn; lia].
    destruct (String.eqb (User.role user) "school");
      [| exists []; repeat split; cbn; lia].
    destruct (eval (getSchoolByUserId (User.id user)) st) as [reqSchool|];
      [| exists []; repeat split; cbn; lia].
    destruct schoolId as [schoolId|]; [| exists []; repeat split; cbn; lia].
    destruct (School.id reqSchool =? schoolId)%Z;
      [| exists []; repeat split; cbn; lia].
    exists [CreateEvent
              (<["schoolId"%string := JNumber (inject_Z schoolId)]> body) now].
    repeat split. cbn. lia.
  - destruct (putEvent_exec req_user eventId body st) as [-> | [id ->]].
    + exists []. repeat split. cbn. lia.
    + exists [UpdateEvent id body]. repeat split. cbn. lia.
  - destruct (deleteEventRoute_exec req_user eventId st) as [-> | [id ->]].
    + exists []. repeat split. cbn. lia.
    + exists [DeleteEvent id]. repeat split. cbn. lia.
Qed.

Lemma serve_reachable (r : request Amount) (st : MemStorage Amount) :
  reachable st -> reachable (serve scrypt r st).
Proof.
  intros Hreach. destruct (serve_as_run r st) as (ops & Hguard & -> & _).
  now apply reachable_run.
Qed.

Lemma served_is_reachable (st : MemStorage Amount) :
  served scrypt st -> reachable st.
Proof.
  induction 1 as [|st r _ IH]; [constructor | now apply serve_reachable].
Qed.

Lemma served_serve_all (rs : list (request Amount)) (st : MemStorage Amount) :
  served scrypt st -> served scrypt (serve_all scrypt rs st).
Proof.
  revert st. induction rs as [|r rs IH]; intros st Hserved; [exact Hserved |].
  cbn [serve_all]. apply IH. now constructor.
Qed.

(** X19. Whatever the requests that write ([POST /api/register] and its two
    variants, [POST /api/donations], and the three routes for events) and
    whoever sends them, each one changes the store by at most two
    operations of the store, and these respect the guards: a student is
    created for a school that exists, a donation for a student that exists.
    So every store the server goes through is one the operations produce
    under their guards. *)
Theorem served_reachable (st : MemStorage Amount) :
  served scrypt st ->
  reachable st /\
  forall r, exists ops,
      guarded_run ops st = true
      /\ serve scrypt r st = snd (run ops st)
      /\ (length ops <= 2)%nat.
Proof.
  intros Hserved. split; [now apply served_is_reachable |].
  intros r. apply serve_as_run.
Qed.

(** ** Lists and maps of the accounts *)

Lemma NoDup_snoc_any {A : Type} (x : A) (l : list A) :
  NoDup l -> ~ In x l -> NoDup (l ++ [x]).
Proof.
  intros Hnd Hx. apply NoDup_app. split; [exact Hnd |]. split.
  - intros y Hy Hy'. apply list_elem_of_In in Hy.
    apply list_elem_of_singleton in Hy'. now subst.
  - apply NoDup_singleton.
Qed.

Lemma find_snoc {A : Type} (p : A -> bool) (l : list A) (x : A) :
  List.find p l = None -> p x = true -> List.find p (l ++ [x]) = Some x.
Proof.
  induction l as [|y l IH]; cbn [List.find app]; intros Hl Hx.
  - now rewrite Hx.
  - destruct (p y); [discriminate | now apply IH].
Qed.

Lemma find_app_found {A : Type} (p : A -> bool) (l l' : list A) (x : A) :
  List.find p l = Some x -> List.find p (l ++ l') = Some x.
Proof.
  induction l as [|y l IH]; cbn [List.find app]; [discriminate |].
  destruct (p y); [trivial | exact IH].
Qed.

Lemma find_none_map_Z {A : Type} (key : A -> Z) (k : Z) (l : list A) :
  ~ In k (map key l) -> List.find (fun a => (key a =? k)%Z) l = None.
Proof.
  induction l as [|a l IH]; cbn [List.find map In]; [reflexivity |].
  intros H. destruct (Z.eqb_spec (key a) k) as [Heq | _]; [tauto |].
  apply IH. tauto.
Qed.

Lemma get_below {V : Type} (bound k : Z) (v : V) (m : JsMap.t V) :
  ordered_below bound (JsMap.keys m) -> JsMap.get k m = Some v -> k <> bound.
Proof.
  intros Hord Hget ->. apply ordered_below_fresh in Hord.
  apply JsMap_get_In in Hord. congruence.
Qed.

Lemma createUser_users (u : InsertUser.t) (now : Z) (st : MemStorage Amount) :
  collections_ordered st ->
  let user := eval (createUser u now) st in
  let st' := exec (createUser u now) st in
  users st' = users st ++ [(userCurrentId st, user)]
  /\ schools st' = schools st /\ students st' = students st
  /\ userCurrentId st' = (userCurrentId st + 1)%Z
  /\ schoolCurrentId st' = schoolCurrentId st
  /\ studentCurrentId st' = studentCurrentId st
  /\ JsMap.get (userCurrentId st) (users st) = None
  /\ JsMap.get (userCurrentId st) (users st') = Some user
  /\ forall j v, JsMap.get j (users st) = Some v ->
                 JsMap.get j (users st') = Some v.
Proof.
  intros (Hu & _). cbv zeta. unfold eval, exec. rewrite createUser_run.
  cbv zeta. cbn [fst snd users schools students userCurrentId schoolCurrentId
                 studentCurrentId].
  set (user := User.mk _ _ _ _ _ _).
  destruct (ordered_below_set _ user _ Hu) as [-> _].
  pose proof (ordered_below_fresh _ _ Hu) as Hfresh.
  destruct (JsMap_get_snoc_fresh (userCurrentId st) user (users st) Hfresh)
    as (Hnone & Hsome & Hother).
  repeat (split; [first [reflexivity | assumption] |]).
  intros j v Hget. rewrite Hother; [exact Hget |].
  intros ->. congruence.
Qed.

Lemma step_ordered_createUser (u : InsertUser.t) (now : Z)
  (st : MemStorage Amount) :
  collections_ordered st -> collections_ordered (exec (createUser u now) st).
Proof. intros H. apply (step_ordered (CreateUser u now) st H). Qed.

(** ** Registrations in two turns *)

Lemma register_two_turns (body : InsertUser.t) (random : list byte) (now : Z)
  (login_ok : bool) (st : MemStorage Amount) :
  register scrypt body random now login_ok st
  = match eval (register_checks body) st with
    | Some reply => (reply, st)
    | None => register_writes scrypt body random now login_ok st
    end.
Proof.
  unfold register, register_checks, register_writes, bind, getUserByUsername,
    gets, eval. cbn [fst].
  destruct (List.find _ _); reflexivity.
Qed.

Lemma registerSchool_two_turns (body : RegisterSchool.t) (random : list byte)
  (now : Z) (login_ok : bool) (st : MemStorage Amount) :
  registerSchool scrypt body random now login_ok st
  = match eval (registerSchool_checks body) st with
    | Some reply => (reply, st)
    | None => registerSchool_writes scrypt body random now login_ok st
    end.
Proof.
  unfold registerSchool, registerSchool_checks, registerSchool_writes, bind,
    getUserByUsername, getUserByEmail, gets, eval. cbn [fst].
  destruct (List.find _ _); [reflexivity |].
  destruct (List.find _ _); reflexivity.
Qed.

Lemma registerStudent_two_turns (body : RegisterStudent.t)
  (random : list byte) (now : Z) (login_ok : bool) (st : MemStorage Amount) :
  registerStudent scrypt body random now login_ok st
  = match eval (registerStudent_checks body) st,
          RegisterStudent.schoolId body with
    | Some reply, _ => (reply, st)
    | None, Some schoolId =>
        registerStudent_writes scrypt body schoolId random now login_ok st
    | None, None => (Refused 400 "Selected school does not exist"%string, st)
    end.
Proof.
  unfold registerStudent, registerStudent_checks, registerStudent_writes,
    bind, getSchool, getUserByUsername, getUserByEmail, gets, eval.
  destruct (RegisterStudent.schoolId body) as [schoolId|]; [| reflexivity].
  cbn [fst].
  destruct (JsMap.get schoolId (schools st)); [| reflexivity].
  destruct (List.find _ _); [reflexivity |].
  destruct (List.find _ _); reflexivity.
Qed.

(** A request served at once is served as its checks followed by its
    writes. *)
Lemma serve_two_turns (r : request Amount) (st : MemStorage Amount) :
  hashes_password r = true ->
  serve scrypt r st
  = if passes_checks r st then writes scrypt r st else st.
Proof.
  destruct r as [body random now ok | body random now ok | body random now ok
                | data now | req_user schoolId body now
                | req_user eventId body | req_user eventId];
    cbn [hashes_password]; try discriminate; intros _;
    cbn [serve passes_checks writes]; unfold exec.
  - rewrite register_two_turns.
    now destruct (eval (register_checks body) st).
  - rewrite registerSchool_two_turns.
    now destruct (eval (registerSchool_checks body) st).
  - rewrite registerStudent_two_turns.
    destruct (eval (registerStudent_checks body) st);
      now destruct (RegisterStudent.schoolId body).
Qed.

Lemma checks_school_known (r : request Amount) (st : MemStorage Amount) :
  passes_checks r st = true -> school_known r st = true.
Proof.
  destruct r as [body random now ok | body random now ok | body random now ok
                | data now | req_user schoolId body now
                | req_user eventId body | req_user eventId];
    cbn [passes_checks school_known]; try reflexivity.
  unfold registerStudent_checks, bind, getSchool, gets, ret, eval, JsMap.has.
  destruct (RegisterStudent.schoolId body) as [schoolId|]; cbn [fst snd];
    [| discriminate].
  destruct (JsMap.get schoolId (schools st)); [reflexivity | discriminate].
Qed.

(** The writes of a registration are one or two guarded operations of the
    store. *)
Lemma writes_as_run (r : request Amount) (st : MemStorage Amount) :
  school_known r st = true ->
  exists ops, guarded_run ops st = true
              /\ writes scrypt r st = snd (run ops st)
              /\ (length ops <= 2)%nat.
Proof.
  destruct r as [body random now ok | body random now ok | body random now ok
                | data now | req_user schoolId body now
                | req_user eventId body | req_user eventId];
    cbn [school_known writes]; intros Hknown;
    try (exists []; repeat split; cbn; lia).
  - exists [CreateUser (plain_account scrypt body random) now].
    repeat split. cbn. lia.
  - exists [CreateUser (school_account scrypt body random) now;
            CreateSchool (school_record body (userCurrentId st)) now].
    repeat split. cbn. lia.
  - destruct (RegisterStudent.schoolId body) as [schoolId|]; [| discriminate].
    exists [CreateUser (student_account scrypt body random) now;
            CreateStudent (student_record body (userCurrentId st) schoolId)
              now].
    split; [| split; [reflexivity | cbn; lia]].
    cbn [guarded_run route_guard andb step createUser]. rewrite andb_true_r.
    exact Hknown.
Qed.

Lemma writes_reachable (r : request Amount) (st : MemStorage Amount) :
  reachable st -> school_known r st = true -> reachable (writes scrypt r st).
Proof.
  intros Hreach Hknown.
  destruct (writes_as_run r st Hknown) as (ops & Hguard & -> & _).
  now apply reachable_run.
Qed.

(** ** Who owns the schools and the students *)

Lemma createUser_owned (u : InsertUser.t) (now : Z) (st : MemStorage Amount) :
  collections_ordered st -> accounts_owned st ->
  accounts_owned (exec (createUser u now) st).
Proof.
  intros Hord (Hsu & Hstu & Hs & Hst).
  destruct (createUser_users u now st Hord)
    as (_ & Hschools & Hstudents & _ & _ & _ & _ & _ & Hkeep).
  unfold accounts_owned. rewrite Hschools, Hstudents.
  split; [exact Hsu |]. split; [exact Hstu |]. split.
  - eapply List.Forall_impl; [| exact Hs].
    intros school (user & Hget & Hrole). exists user.
    split; [now apply Hkeep | exact Hrole].
  - eapply List.Forall_impl; [| exact Hst].
    intros student (user & Hget & Hrole). exists user.
    split; [now apply Hkeep | exact Hrole].
Qed.

Lemma createSchool_owned (s : InsertSchool.t) (now : Z)
  (st : MemStorage Amount) :
  collections_ordered st -> accounts_owned st ->
  (exists user, JsMap.get (InsertSchool.userId s) (users st) = Some user
                /\ User.role user = "school"%string) ->
  ~ In (InsertSchool.userId s) (map School.userId (JsMap.values (schools st))) ->
  accounts_owned (exec (createSchool s now) st).
Proof.
  intros (_ & Hsc & _) (Hsu & Hstu & Hs & Hst) Howner Hnew.
  unfold exec. rewrite createSchool_run. cbv zeta. cbn [snd].
  unfold accounts_owned. cbn [users schools students].
  set (school := School.mk _ _ _ _ _ _ _ _).
  destruct (ordered_below_set _ school _ Hsc) as [-> _].
  rewrite values_app, map_app. cbn [JsMap.values map snd].
  split; [apply NoDup_snoc_any; [exact Hsu | exact Hnew] |].
  split; [exact Hstu |].
  split; [| exact Hst].
  apply Forall_app. split; [exact Hs |]. constructor; [| constructor].
  exact Howner.
Qed.

Lemma createStudent_owned (s : InsertStudent.t) (now : Z)
  (st : MemStorage Amount) :
  collections_ordered st -> accounts_owned st ->
  (exists user, JsMap.get (InsertStudent.userId s) (users st) = Some user
                /\ User.role user = "student"%string) ->
  ~ In (InsertStudent.userId s)
      (map Student.userId (JsMap.values (students st))) ->
  accounts_owned (exec (createStudent s now) st).
Proof.
  intros (_ & _ & Hstd & _) (Hsu & Hstu & Hs & Hst) Howner Hnew.
  unfold exec. rewrite createStudent_run. cbv zeta. cbn [snd].
  unfold accounts_owned. cbn [users schools students].
  set (student := Student.mk _ _ _ _ _ _ _ _).
  destruct (ordered_below_set _ student _ Hstd) as [-> _].
  rewrite values_app, map_app. cbn [JsMap.values map snd].
  split; [exact Hsu |].
  split; [apply NoDup_snoc_any; [exact Hstu | exact Hnew] |].
  split; [exact Hs |].
  apply Forall_app. split; [exact Hst |]. constructor; [| constructor].
  exact Howner.
Qed.

(** No school and no student belongs to the user that comes next, so the
    user a registration stores owns the record that follows. *)
Lemma next_user_unowned (st : MemStorage Amount) :
  collections_ordered st -> accounts_owned st ->
  ~ In (userCurrentId st) (map School.userId (JsMap.values (schools st)))
  /\ ~ In (userCurrentId st) (map Student.userId (JsMap.values (students st))).
Proof.
  intros (Hu & _) (_ & _ & Hs & Hst). split.
  - intros Hin. apply in_map_iff in Hin as (school & Hid & Hin).
    rewrite List.Forall_forall in Hs.
    destruct (Hs school Hin) as (user & Hget & _).
    apply (get_below _ _ _ _ Hu Hget). exact Hid.
  - intros Hin. apply in_map_iff in Hin as (student & Hid & Hin).
    rewrite List.Forall_forall in Hst.
    destruct (Hst student Hin) as (user & Hget & _).
    apply (get_below _ _ _ _ Hu Hget). exact Hid.
Qed.

Lemma new_user_owner (u : InsertUser.t) (now : Z) (st : MemStorage Amount) :
  collections_ordered st -> accounts_owned st ->
  let st1 := exec (createUser u now) st in
  (exists user, JsMap.get (userCurrentId st) (users st1) = Some user
                /\ User.role user = InsertUser.role u)
  /\ ~ In (userCurrentId st) (map School.userId (JsMap.values (schools st1)))
  /\ ~ In (userCurrentId st)
         (map Student.userId (JsMap.values (students st1))).
Proof.
  intros Hord Hown. cbv zeta.
  destruct (createUser_users u now st Hord)
    as (_ & Hschools & Hstudents & _ & _ & _ & _ & Hsome & _).
  destruct (next_user_unowned st Hord Hown) as [Hs Hst].
  rewrite Hschools, Hstudents. split; [| now split].
  eexists. split; [exact Hsome |].
  unfold eval. now rewrite createUser_run.
Qed.

Lemma writes_owned (r : request Amount) (st : MemStorage Amount) :
  collections_ordered st -> accounts_owned st ->
  accounts_owned (writes scrypt r st).
Proof.
  intros Hord Hown.
  destruct r as [body random now ok | body random now ok | body random now ok
                | data now | req_user schoolId body now
                | req_user eventId body | req_user eventId];
    cbn [writes]; try exact Hown.
  - change (exec (register_writes scrypt body random now ok) st)
      with (exec (createUser (plain_account scrypt body random) now) st).
    now apply createUser_owned.
  - change (exec (registerSchool_writes scrypt body random now ok) st)
      with (exec (createSchool (school_record body (userCurrentId st)) now)
              (exec (createUser (school_account scrypt body random) now) st)).
    destruct (new_user_owner (school_account scrypt body random) now st
                Hord Hown) as (Howner & Hnew & _).
    apply createSchool_owned.
    + now apply step_ordered_createUser.
    + now apply createUser_owned.
    + exact Howner.
    + exact Hnew.
  - destruct (RegisterStudent.schoolId body) as [schoolId|]; [| exact Hown].
    change (exec (registerStudent_writes scrypt body schoolId random now ok)
              st)
      with (exec (createStudent
                    (student_record body (userCurrentId st) schoolId) now)
              (exec (createUser (student_account scrypt body random) now) st)).
    destruct (new_user_owner (student_account scrypt body random) now st
                Hord Hown) as (Howner & _ & Hnew).
    apply createStudent_owned.
    + now apply step_ordered_createUser.
    + now apply createUser_owned.
    + exact Howner.
    + exact Hnew.
Qed.

(** The requests that do not register leave the accounts alone. *)
Lemma serve_keeps_accounts (r : request Amount) (st : MemStorage Amount) :
  hashes_password r = false ->
  users (serve scrypt r st) = users st
  /\ schools (serve scrypt r st) = schools st
  /\ students (serve scrypt r st) = students st.
Proof.
  destruct r as [body random now ok | body random now ok | body random now ok
                | data now | req_user schoolId body now
                | req_user eventId body | req_user eventId];
    cbn [hashes_password]; try discriminate; intros _; cbn [serve].
  - unfold exec. rewrite postDonation_run.
    destruct data as [data | message]; [| now repeat split].
    destruct (JsMap.get _ _); [| now repeat split].
    cbn [snd]. unfold exec. rewrite createDonation_run. cbv zeta. cbn [snd].
    now repeat split.
  - unfold exec. rewrite postEvent_run.
    destruct req_user as [user|]; [| now repeat split].
    destruct (String.eqb (User.role user) "school"); [| now repeat split].
    destruct (eval (getSchoolByUserId (User.id user)) st);
      [| now repeat split].
    destruct schoolId as [schoolId|]; [| now repeat split].
    destruct (School.id _ =? schoolId)%Z; [| now repeat split].
    rewrite createEvent_run. cbv zeta. cbn [snd]. now repeat split.
  - destruct (putEvent_exec req_user eventId body st) as [-> | [id ->]];
      [now repeat split |].
    unfold exec. rewrite updateEvent_run.
    destruct (JsMap.get id (events st)); now repeat split.
  - destruct (deleteEventRoute_exec req_user eventId st) as [-> | [id ->]];
      [now repeat split |].
    unfold exec. rewrite deleteEvent_run.
    destruct (JsMap.get id (events st)); now repeat split.
Qed.

Lemma writes_keeps_schools (r : request Amount) (st : MemStorage Amount)
  (k : Z) :
  JsMap.has k (schools st) = true ->
  JsMap.has k (schools (writes scrypt r st)) = true.
Proof.
  intros Hhas.
  destruct r as [body random now ok | body random now ok | body random now ok
                | data now | req_user schoolId body now
                | req_user eventId body | req_user eventId];
    cbn [writes]; try exact Hhas.
  - change (schools (exec (registerSchool_writes scrypt body random now ok) st))
      with (JsMap.set (schoolCurrentId st)
              (eval (createSchool (school_record body (userCurrentId st)) now)
                 (exec (createUser (school_account scrypt body random) now)
                    st))
              (schools st)).
    now apply JsMap_has_set.
  - now destruct (RegisterStudent.schoolId body).
Qed.

Lemma school_known_kept (r : request Amount) (st st' : MemStorage Amount) :
  (forall k, JsMap.has k (schools st) = true ->
             JsMap.has k (schools st') = true) ->
  school_known r st = true -> school_known r st' = true.
Proof.
  intros Hkeep.
  destruct r as [body random now ok | body random now ok | body random now ok
                | data now | req_user schoolId body now
                | req_user eventId body | req_user eventId];
    cbn [school_known]; try reflexivity.
  destruct (RegisterStudent.schoolId body) as [schoolId|]; [| discriminate].
  apply Hkeep.
Qed.

(** What holds of the server at every turn: the store is one the guarded
    operations produce, the accounts are owned, and the schools of the
    students in flight are there. *)
Lemma serving_invariant (s : Server.t Amount) :
  serving scrypt s ->
  reachable (Server.store s)
  /\ accounts_owned (Server.store s)
  /\ Forall (fun r => school_known r (Server.store s) = true)
       (Server.hashing s).
Proof.
  induction 1 as [|s t _ (Hreach & Hown & Hknown)].
  - split; [constructor |]. split; [| constructor].
    repeat split; constructor.
  - destruct t as [r | n]; cbn [take_turn].
    + destruct (hashes_password r) eqn:Ehash.
      * destruct (passes_checks r (Server.store s)) eqn:Epass;
          [| exact (conj Hreach (conj Hown Hknown))].
        cbn [Server.store Server.hashing].
        split; [exact Hreach |]. split; [exact Hown |].
        apply Forall_app. split; [exact Hknown |].
        constructor; [| constructor]. now apply checks_school_known.
      * cbn [Server.store Server.hashing].
        destruct (serve_keeps_accounts r (Server.store s) Ehash)
          as (Husers & Hschools & Hstudents).
        split; [now apply serve_reachable |]. split.
        -- unfold accounts_owned. now rewrite Husers, Hschools, Hstudents.
        -- eapply List.Forall_impl; [| exact Hknown].
           intros r'. apply school_known_kept. intros k.
           now rewrite Hschools.
    + destruct (nth_error (Server.hashing s) n) as [r|] eqn:Enth;
        [| exact (conj Hreach (conj Hown Hknown))].
      cbn [Server.store Server.hashing].
      pose proof Hknown as Hall. rewrite List.Forall_forall in Hall.
      pose proof (Hall r (nth_error_In _ _ Enth)) as Hr.
      split; [now apply writes_reachable |]. split.
      * apply writes_owned; [now apply reachable_ordered | exact Hown].
      * apply List.Forall_forall. intros r' Hin.
        apply (school_known_kept r' (Server.store s)).
        -- intros k. apply writes_keeps_schools.
        -- apply Hall. apply in_app_or in Hin as [Hin | Hin].
           ++ now apply In_firstn in Hin.
           ++ rewrite <- (firstn_skipn (S n) (Server.hashing s)).
              apply in_or_app. now right.
Qed.

(** A store served one request at a time is a store of the server. *)
Lemma served_serving (st : MemStorage Amount) :
  served scrypt st -> serving scrypt (Server.mk st []).
Proof.
  induction 1 as [|st r _ IH]; [constructor |].
  destruct (hashes_password r) eqn:Ehash.
  - rewrite (serve_two_turns r st Ehash).
    pose proof (serving_turn scrypt _ (Arrives r) IH) as H1.
    cbn [take_turn Server.store Server.hashing app] in H1.
    rewrite Ehash in H1.
    destruct (passes_checks r st); [| exact H1].
    pose proof (serving_turn scrypt _ (Hashed 0) H1) as H2.
    exact H2.
  - pose proof (serving_turn scrypt _ (Arrives r) IH) as H1.
    cbn [take_turn Server.store Server.hashing] in H1.
    now rewrite Ehash in H1.
Qed.

(** X20. In every store the server goes through, with registrations that
    overlap while their passwords are hashed, every school belongs to a
    user of role [school] and every student to a user of role [student],
    and no user has two schools or two students.  So [getSchoolByUserId]
    and [getStudentByUserId] have at most one candidate.  The store is one
    the operations produce under their guards.  (User names are another
    matter: two registrations that overlap can store one name twice.) *)
Theorem serving_accounts_owned (s : Server.t Amount) :
  serving scrypt s ->
  let st := Server.store s in
  reachable st /\
  accounts_owned st /\
  (forall school,
      In school (JsMap.values (schools st)) ->
      eval (getSchoolByUserId (School.userId school)) st = Some school) /\
  (forall student,
      In student (JsMap.values (students st)) ->
      eval (getStudentByUserId (Student.userId student)) st = Some student).
Proof.
  intros Hserving. cbv zeta.
  destruct (serving_invariant s Hserving) as (Hreach & Hown & _).
  split; [exact Hreach |]. split; [exact Hown |].
  destruct Hown as (Hsu & Hstu & _).
  assert (Hunique : forall (A : Type) (key : A -> Z) (l : list A) (x : A),
             NoDup (map key l) -> In x l ->
             List.find (fun a => (key a =? key x)%Z) l = Some x).
  { intros A key l x. induction l as [|a l IH]; cbn [map List.find In];
      intros Hnd Hin; [destruct Hin |].
    apply NoDup_cons in Hnd as [Ha Hnd].
    destruct Hin as [-> | Hin]; [now rewrite Z.eqb_refl |].
    destruct (Z.eqb_spec (key a) (key x)) as [Heq | _]; [| now apply IH].
    exfalso. apply Ha. rewrite Heq. apply list_elem_of_In. now apply in_map. }
  split.
  - intros school Hin. unfold getSchoolByUserId, eval, gets. cbn [fst].
    now apply Hunique.
  - intros student Hin. unfold getStudentByUserId, eval, gets. cbn [fst].
    now apply Hunique.
Qed.

(** ** Registering, then logging in *)

Lemma step_users_extend (o : op Amount) (st : MemStorage Amount) :
  collections_ordered st ->
  exists extra,
    JsMap.values (users (snd (step o st))) = JsMap.values (users st) ++ extra.
Proof.
  intros Hord.
  destruct o as [u now | s now | s now | d now | e now | id patch | id];
    cbn [step].
  - destruct (createUser_users u now st Hord) as (Husers & _).
    exists [eval (createUser u now) st].
    change (snd (let (user, st') := createUser u now st in
                 (Some (Users, User.id user), st')))
      with (exec (createUser u now) st).
    now rewrite Husers, values_app.
  - exists []. now rewrite app_nil_r.
  - exists []. now rewrite app_nil_r.
  - exists []. now rewrite app_nil_r.
  - exists []. now rewrite app_nil_r.
  - exists []. rewrite app_nil_r. unfold exec. rewrite updateEvent_run.
    now destruct (JsMap.get id (events st)).
  - exists []. rewrite app_nil_r. unfold exec. rewrite deleteEvent_run.
    now destruct (JsMap.get id (events st)).
Qed.

Lemma run_users_extend (ops : list (op Amount)) (st : MemStorage Amount) :
  collections_ordered st ->
  exists extra,
    JsMap.values (users (snd (run ops st))) = JsMap.values (users st) ++ extra.
Proof.
  revert st. induction ops as [|o ops IH]; intros st Hord.
  - exists []. now rewrite app_nil_r.
  - rewrite run_cons. cbn [snd].
    destruct (step_users_extend o st Hord) as [extra1 H1].
    destruct (IH _ (step_ordered o st Hord)) as [extra2 H2].
    exists (extra1 ++ extra2). now rewrite H2, H1, app_assoc.
Qed.

Lemma createSchool_schools (s : InsertSchool.t) (now : Z)
  (st : MemStorage Amount) :
  collections_ordered st ->
  let school := eval (createSchool s now) st in
  let st' := exec (createSchool s now) st in
  schools st' = schools st ++ [(schoolCurrentId st, school)]
  /\ users st' = users st /\ students st' = students st
  /\ JsMap.get (schoolCurrentId st) (schools st') = Some school.
Proof.
  intros (_ & Hsc & _). cbv zeta. unfold eval, exec. rewrite createSchool_run.
  cbv zeta. cbn [fst snd users schools students].
  set (school := School.mk _ _ _ _ _ _ _ _).
  destruct (ordered_below_set _ school _ Hsc) as [-> _].
  pose proof (ordered_below_fresh _ _ Hsc) as Hfresh.
  destruct (JsMap_get_snoc_fresh (schoolCurrentId st) school (schools st)
              Hfresh) as (_ & Hsome & _).
  repeat split. exact Hsome.
Qed.

Lemma createStudent_students (s : InsertStudent.t) (now : Z)
  (st : MemStorage Amount) :
  collections_ordered st ->
  let student := eval (createStudent s now) st in
  let st' := exec (createStudent s now) st in
  students st' = students st ++ [(studentCurrentId st, student)]
  /\ users st' = users st /\ schools st' = schools st
  /\ JsMap.get (studentCurrentId st) (students st') = Some student.
Proof.
  intros (_ & _ & Hstd & _). cbv zeta. unfold eval, exec.
  rewrite createStudent_run.
  cbv zeta. cbn [fst snd users schools students].
  set (student := Student.mk _ _ _ _ _ _ _ _).
  destruct (ordered_below_set _ student _ Hstd) as [-> _].
  pose proof (ordered_below_fresh _ _ Hstd) as Hfresh.
  destruct (JsMap_get_snoc_fresh (studentCurrentId st) student (students st)
              Hfresh) as (_ & Hsome & _).
  repeat split. exact Hsome.
Qed.

(** What the writes of a registration store. *)
Lemma writes_stores_user (r : request Amount) (st : MemStorage Amount)
  (username password : string) :
  collections_ordered st ->
  school_known r st = true ->
  credentials r = Some (username, password) ->
  exists user random,
    users (writes scrypt r st) = users st ++ [(userCurrentId st, user)]
    /\ User.id user = userCurrentId st
    /\ User.username user = username
    /\ User.password user = hashPassword scrypt password random.
Proof.
  intros Hord Hknown Hcred.
  destruct r as [body random now ok | body random now ok | body random now ok
                | data now | req_user schoolId body now
                | req_user eventId body | req_user eventId];
    cbn [credentials] in Hcred; try discriminate;
    injection Hcred as <- <-; cbn [writes school_known] in *.
  - destruct (createUser_users (plain_account scrypt body random) now st Hord)
      as (Husers & _).
    exists (eval (createUser (plain_account scrypt body random) now) st),
      random.
    split; [exact Husers |]. repeat split.
  - destruct (createUser_users (school_account scrypt body random) now st Hord)
      as (Husers & _).
    exists (eval (createUser (school_account scrypt body random) now) st),
      random.
    split; [exact Husers |]. repeat split.
  - destruct (RegisterStudent.schoolId body) as [schoolId|]; [| discriminate].
    destruct (createUser_users (student_account scrypt body random) now st
                Hord) as (Husers & _).
    exists (eval (createUser (student_account scrypt body random) now) st),
      random.
    split; [exact Husers |]. repeat split.
Qed.

Lemma take_turn_users_extend (t : turn Amount) (s : Server.t Amount) :
  serving scrypt s ->
  exists extra,
    JsMap.values (users (Server.store (take_turn scrypt t s)))
    = JsMap.values (users (Server.store s)) ++ extra.
Proof.
  intros Hserving.
  destruct (serving_invariant s Hserving) as (Hreach & _ & Hknown).
  destruct t as [r | n]; cbn [take_turn].
  - destruct (hashes_password r) eqn:Ehash.
    + exists []. rewrite app_nil_r.
      now destruct (passes_checks r (Server.store s)).
    + exists []. rewrite app_nil_r. cbn [Server.store].
      now destruct (serve_keeps_accounts r (Server.store s) Ehash) as [-> _].
  - destruct (nth_error (Server.hashing s) n) as [r|] eqn:Enth;
      [| exists []; now rewrite app_nil_r].
    cbn [Server.store].
    rewrite List.Forall_forall in Hknown.
    destruct (writes_as_run r (Server.store s)
                (Hknown r (nth_error_In _ _ Enth))) as (ops & _ & -> & _).
    apply run_users_extend. now apply reachable_ordered.
Qed.

Lemma take_turns_serving (ts : list (turn Amount)) (s : Server.t Amount) :
  serving scrypt s -> serving scrypt (take_turns scrypt ts s).
Proof.
  revert s. induction ts as [|t ts IH]; intros s Hserving; [exact Hserving |].
  cbn [take_turns]. apply IH. now constructor.
Qed.

Lemma take_turns_users_extend (ts : list (turn Amount))
  (s : Server.t Amount) :
  serving scrypt s ->
  exists extra,
    JsMap.values (users (Server.store (take_turns scrypt ts s)))
    = JsMap.values (users (Server.store s)) ++ extra.
Proof.
  revert s. induction ts as [|t ts IH]; intros s Hserving.
  - exists []. now rewrite app_nil_r.
  - cbn [take_turns].
    destruct (take_turn_users_extend t s Hserving) as [extra1 H1].
    destruct (IH _ (serving_turn scrypt s t Hserving)) as [extra2 H2].
    exists (extra1 ++ extra2). now rewrite H2, H1, app_assoc.
Qed.

(** X21. A registration whose writes run while its user name is still
    free (no registration that overlapped took the name while the password
    was hashed) lets that user log in, also when it is answered with 500
    because the session could not be opened: with the user name and the
    password of the registration, the verify callback of the local strategy
    accepts, and returns that user, right away and after any further
    turns. *)
Theorem registered_user_logs_in (s : Server.t Amount) (n : nat)
  (r : request Amount) (ts : list (turn Amount))
  (username password : string) :
  serving scrypt s ->
  nth_error (Server.hashing s) n = Some r ->
  credentials r = Some (username, password) ->
  eval (getUserByUsername username) (Server.store s) = None ->
  let st := Server.store s in
  let s1 := take_turn scrypt (Hashed n) s in
  exists user,
    eval (verify scrypt username password)
      (Server.store (take_turns scrypt ts s1)) = Accept user
    /\ User.username user = username
    /\ User.id user = userCurrentId st
    /\ eval (getUser (User.id user)) st = None
    /\ eval (getUser (User.id user)) (Server.store s1) = Some user.
Proof.
  intros Hserving Enth Hcred Hfree. cbv zeta.
  destruct (serving_invariant s Hserving) as (Hreach & _ & Hknown).
  pose proof (reachable_ordered _ Hreach) as Hord.
  rewrite List.Forall_forall in Hknown.
  pose proof (Hknown r (nth_error_In _ _ Enth)) as Hr.
  destruct (writes_stores_user r (Server.store s) username password Hord Hr
              Hcred) as (user & random & Husers & Hid & Hname & Hpassword).
  destruct (take_turns_users_extend ts _
              (serving_turn scrypt s (Hashed n) Hserving)) as [extra Hextra].
  assert (Hstore : Server.store (take_turn scrypt (Hashed n) s)
                   = writes scrypt r (Server.store s)).
  { cbn [take_turn]. now rewrite Enth. }
  rewrite Hstore in *.
  pose proof Hord as (Hu & _).
  pose proof (ordered_below_fresh _ _ Hu) as Hfresh.
  destruct (JsMap_get_snoc_fresh (userCurrentId (Server.store s)) user
              (users (Server.store s)) Hfresh) as (Hnone & Hsome & _).
  exists user. split.
  - unfold verify, eval, bind, getUserByUsername at 1, gets at 1.
    rewrite Hextra, Husers, values_app. cbn [JsMap.values map snd].
    rewrite (find_app_found _ _ _ user).
    + rewrite Hpassword, comparePasswords_hashed, Nat.eqb_refl.
      replace (bytes_eqb _ _) with true; [reflexivity |].
      symmetry. now apply bytes_eqb_eq.
    + apply find_snoc; [exact Hfree |]. rewrite Hname. apply String.eqb_refl.
  - split; [exact Hname |]. split; [exact Hid |].
    unfold getUser, eval, gets. cbn [fst]. rewrite Hid, Husers.
    split; [exact Hnone | exact Hsome].
Qed.

(** X22. [POST /api/register/school] in its two turns.  The checks refuse
    a user name or an email that is taken (400), leave the store as it
    was, and otherwise put the registration in flight.  The writes, when
    the password is hashed, store a user of role [school], whose password
    field holds the hash, and a school of that user with the goal of the
    body, or 0 when there is none; both get the ids that are next at that
    turn and are found again by id and by user id.  The user is found by
    user name if the name is still free when the writes run; if a
    registration that overlapped has taken it, the name goes on finding
    that other user.  This holds also when the session cannot be opened
    and the answer is 500. *)
Theorem registerSchool_spec (body : RegisterSchool.t) (random : list byte)
  (now : Z) (login_ok : bool) (s : Server.t Amount) (n : nat) :
  serving scrypt s ->
  let r := RegisterSchool body random now login_ok in
  let st := Server.store s in
  exec (registerSchool_checks body) st = st /\
  match eval (getUserByUsername (RegisterSchool.username body)) st with
  | Some _ =>
      eval (registerSchool_checks body) st
      = Some (Refused 400 "Username already exists")
      /\ take_turn scrypt (Arrives r) s = s
  | None =>
      match eval (getUserByEmail (RegisterSchool.email body)) st with
      | Some _ =>
          eval (registerSchool_checks body) st
          = Some (Refused 400 "Email already exists")
          /\ take_turn scrypt (Arrives r) s = s
      | None =>
          eval (registerSchool_checks body) st = None
          /\ take_turn scrypt (Arrives r) s
             = Server.mk st (Server.hashing s ++ [r])
      end
  end /\
  (nth_error (Server.hashing s) n = Some r ->
   let reply :=
     eval (registerSchool_writes scrypt body random now login_ok) st in
   let st' := Server.store (take_turn scrypt (Hashed n) s) in
   exists user school,
     reply = (if login_ok then Sent 201 (user, school)
              else Refused 500 "Registration successful but failed to login")
     /\ User.id user = userCurrentId st
     /\ User.username user = RegisterSchool.username body
     /\ User.email user = RegisterSchool.email body
     /\ User.role user = "school"%string
     /\ User.password user
        = hashPassword scrypt (RegisterSchool.password body) random
     /\ School.id school = schoolCurrentId st
     /\ School.userId school = User.id user
     /\ (School.fundraisingGoal school
         == match RegisterSchool.fundraisingGoal body with
            | Some goal => goal
            | None => 0
            end)%Q
     /\ eval (getUser (User.id user)) st' = Some user
     /\ eval (getUserByUsername (User.username user)) st'
        = match eval (getUserByUsername (RegisterSchool.username body)) st with
          | Some other => Some other
          | None => Some user
          end
     /\ eval (getSchool (School.id school)) st' = Some school
     /\ eval (getSchoolByUserId (User.id user)) st' = Some school).
Proof.
  intros Hserving r st.
  destruct (serving_invariant s Hserving) as (Hreach & Hown & _).
  fold st in Hreach, Hown.
  pose proof (reachable_ordered st Hreach) as Hord.
  split; [| split].
  - unfold registerSchool_checks, exec, bind, getUserByUsername,
      getUserByEmail, gets.
    destruct (List.find _ _); [reflexivity |].
    now destruct (List.find _ _).
  - assert (Hturn : take_turn scrypt (Arrives r) s
                    = if passes_checks r st
                      then Server.mk st (Server.hashing s ++ [r])
                      else s) by reflexivity.
    rewrite Hturn. cbn [passes_checks r].
    unfold registerSchool_checks, eval, bind, getUserByUsername,
      getUserByEmail, gets. cbn [fst].
    destruct (List.find _ _); [now split |].
    destruct (List.find _ _); now split.
  - intros Enth reply st'.
    assert (Hstore : st' = exec (registerSchool_writes scrypt body random now
                                   login_ok) st).
    { unfold st'. cbn [take_turn]. fold st. now rewrite Enth. }
    clearbody st'. subst st'. subst reply.
    set (account := school_account scrypt body random).
    set (record := school_record body (userCurrentId st)).
    set (st1 := exec (createUser account now) st).
    change (exec (registerSchool_writes scrypt body random now login_ok) st)
      with (exec (createSchool record now) st1).
    change (eval (registerSchool_writes scrypt body random now login_ok) st)
      with (if login_ok
            then Sent 201 (eval (createUser account now) st,
                           eval (createSchool record now) st1)
            else Refused 500
                   "Registration successful but failed to login"%string).
    set (st2 := exec (createSchool record now) st1).
    pose proof (step_ordered_createUser account now st Hord) as Hord1.
    destruct (createUser_users account now st Hord)
      as (Husers1 & Hschools1 & _ & _ & Hcounter1 & _ & _ & Hsome1 & _).
    destruct (createSchool_schools record now st1 Hord1)
      as (Hschools2 & Husers2 & _ & Hsome2).
    fold st1 in Husers1, Hschools1, Hcounter1, Hsome1.
    fold st2 in Hschools2, Husers2, Hsome2.
    destruct (next_user_unowned st Hord Hown) as [Hnoschool _].
    exists (eval (createUser account now) st),
      (eval (createSchool record now) st1).
    split; [reflexivity |].
    split; [reflexivity |]. split; [reflexivity |]. split; [reflexivity |].
    split; [reflexivity |]. split; [reflexivity |]. split; [reflexivity |].
    split; [reflexivity |].
    split.
    { unfold eval, record, school_record. rewrite createSchool_run.
      cbv zeta. cbn [fst School.fundraisingGoal InsertSchool.fundraisingGoal].
      destruct (RegisterSchool.fundraisingGoal body) as [goal|];
        [| reflexivity].
      unfold truthy. destruct (Qeq_bool goal 0) eqn:E; cbn [negb];
        [| reflexivity].
      apply Qeq_bool_iff in E. now rewrite E. }
    assert (Hgetuser : forall k s0, eval (getUser (Amount := Amount) k) s0
                                    = JsMap.get k (users s0)) by reflexivity.
    assert (Hgetschool : forall k s0, eval (getSchool (Amount := Amount) k) s0
                                      = JsMap.get k (schools s0))
      by reflexivity.
    rewrite Hgetuser, Hgetschool.
    split; [rewrite Husers2; exact Hsome1 |].
    split.
    { assert (Hfind : forall name s0,
                 eval (getUserByUsername (Amount := Amount) name) s0
                 = List.find
                     (fun user => String.eqb (User.username user) name)
                     (JsMap.values (users s0))) by reflexivity.
      rewrite !Hfind, Husers2, Husers1, values_app.
      change (User.username (eval (createUser account now) st))
        with (RegisterSchool.username body).
      cbn [JsMap.values map snd].
      destruct (List.find _ (JsMap.values (users st))) as [other|] eqn:Efind.
      - now apply find_app_found.
      - apply find_snoc; [exact Efind |]. apply String.eqb_refl. }
    split; [exact Hsome2 |].
    unfold getSchoolByUserId, eval at 1, gets. cbn [fst].
    rewrite Hschools2, Hschools1, values_app. cbn [JsMap.values map snd].
    apply find_snoc; [now apply find_none_map_Z |]. apply Z.eqb_refl.
Qed.

(** X23. [POST /api/register/student] refuses a school that does not exist,
    then a user name or an email that is taken (400), and leaves the store
    as it was.  Otherwise it stores a user of role [student] and a student
    of that user in the school chosen, with the personal goal of the body
    or none when it is missing or 0; the student is found again by user id
    and comes last among the students of the school. *)
Theorem registerStudent_spec (body : RegisterStudent.t) (random : list byte)
  (now : Z) (login_ok : bool) (st : MemStorage Amount) :
  served scrypt st ->
  let reply := eval (registerStudent scrypt body random now login_ok) st in
  let st' := exec (registerStudent scrypt body random now login_ok) st in
  match RegisterStudent.schoolId body with
  | None => reply = Refused 400 "Selected school does not exist" /\ st' = st
  | Some schoolId =>
      match eval (getSchool schoolId) st,
            eval (getUserByUsername (RegisterStudent.username body)) st,
            eval (getUserByEmail (RegisterStudent.email body)) st with
      | None, _, _ =>
          reply = Refused 400 "Selected school does not exist" /\ st' = st
      | Some _, Some _, _ =>
          reply = Refused 400 "Username already exists" /\ st' = st
      | Some _, None, Some _ =>
          reply = Refused 400 "Email already exists" /\ st' = st
      | Some _, None, None =>
          exists user student,
            reply = (if login_ok then Sent 201 (user, student)
                     else Refused 500
                            "Registration successful but failed to login")
            /\ User.id user = userCurrentId st
            /\ User.username user = RegisterStudent.username body
            /\ User.role user = "student"%string
            /\ User.password user
               = hashPassword scrypt (RegisterStudent.password body) random
            /\ Student.id student = studentCurrentId st
            /\ Student.userId student = User.id user
            /\ Student.schoolId student = schoolId
            /\ Student.personalGoal student
               = match RegisterStudent.personalGoal body with
                 | Some goal => if truthy goal then Some goal else None
                 | None => None
                 end
            /\ eval (getUser (User.id user)) st' = Some user
            /\ eval (getStudent (Student.id student)) st' = Some student
            /\ eval (getStudentByUserId (User.id user)) st' = Some student
            /\ eval (getStudentsBySchoolId schoolId) st'
               = eval (getStudentsBySchoolId schoolId) st ++ [student]
      end
  end.
Proof.
  intros Hserved reply st'.
  assert (Hrun : registerStudent scrypt body random now login_ok st
                 = (reply, st')).
  { unfold reply, st', eval, exec.
    now destruct (registerStudent scrypt body random now login_ok st). }
  clearbody reply st'.
  pose proof (served_is_reachable st Hserved) as Hreach.
  pose proof (reachable_ordered st Hreach) as Hord.
  destruct (serving_invariant _ (served_serving st Hserved))
    as (_ & Hacc & _).
  cbn [Server.store] in Hacc.
  rewrite registerStudent_run in Hrun.
  destruct (RegisterStudent.schoolId body) as [schoolId|];
    [| injection Hrun as <- <-; now split].
  destruct (eval (getSchool schoolId) st) eqn:Eschool;
    [| injection Hrun as <- <-; now split].
  destruct (eval (getUserByUsername (RegisterStudent.username body)) st)
    eqn:Ename; [injection Hrun as <- <-; now split |].
  destruct (eval (getUserByEmail (RegisterStudent.email body)) st)
    eqn:Eemail; [injection Hrun as <- <-; now split |].
  cbv zeta in Hrun. injection Hrun as <- <-.
  set (account := student_account scrypt body random).
  set (record := student_record body (userCurrentId st) schoolId).
  set (st1 := exec (createUser account now) st).
  set (st2 := exec (createStudent record now) st1).
  pose proof (step_ordered_createUser account now st Hord) as Hord1.
  destruct (createUser_users account now st Hord)
    as (Husers1 & _ & Hstudents1 & _ & _ & Hcounter1 & _ & Hsome1 & _).
  destruct (createStudent_students record now st1 Hord1)
    as (Hstudents2 & Husers2 & _ & Hsome2).
  fold st1 in Husers1, Hstudents1, Hcounter1, Hsome1.
  fold st2 in Hstudents2, Husers2, Hsome2.
  destruct (next_user_unowned st Hord Hacc) as [_ Hnostudent].
  exists (eval (createUser account now) st),
    (eval (createStudent record now) st1).
  split; [reflexivity |].
  split; [reflexivity |]. split; [reflexivity |]. split; [reflexivity |].
  split; [reflexivity |]. split; [reflexivity |]. split; [reflexivity |].
  split; [reflexivity |]. split; [reflexivity |].
  assert (Hgetuser : forall k s, eval (getUser (Amount := Amount) k) s
                                 = JsMap.get k (users s)) by reflexivity.
  assert (Hgetstudent : forall k s, eval (getStudent (Amount := Amount) k) s
                                    = JsMap.get k (students s))
    by reflexivity.
  rewrite Hgetuser, Hgetstudent.
  split; [rewrite Husers2; exact Hsome1 |].
  split; [exact Hsome2 |].
  split.
  { unfold getStudentByUserId, eval at 1, gets. cbn [fst].
    rewrite Hstudents2, Hstudents1, values_app. cbn [JsMap.values map snd].
    apply find_snoc; [now apply find_none_map_Z |]. apply Z.eqb_refl. }
  unfold getStudentsBySchoolId, eval at 1 2, gets. cbn [fst].
  rewrite Hstudents2, Hstudents1, values_app. cbn [JsMap.values map snd].
  rewrite filter_snoc.
  replace (Student.schoolId (eval (createStudent record now) st1) =? schoolId)%Z
    with true; [reflexivity |].
  symmetry. apply Z.eqb_refl.
Qed.

(** ** Two registrations of one name *)

Lemma in_flight_last {A : Type} (l : list A) (x : A) (rest : list A) :
  nth_error (l ++ x :: rest) (length l) = Some x
  /\ firstn (length l) (l ++ x :: rest) ++ skipn (S (length l)) (l ++ x :: rest)
     = l ++ rest.
Proof.
  induction l as [|a l [IH1 IH2]]; [now split |].
  cbn [length app nth_error firstn skipn] in *. split; [exact IH1 |].
  now rewrite IH2.
Qed.

(** X25. Two registrations with one user name that is free, the second
    arriving while the password of the first is hashed, both pass the
    checks and both store a user: the store holds two users of that name,
    with ids that follow each other.  [getUserByUsername] finds the first;
    the second is found by id only, and the verify callback of the local
    strategy never accepts that user, whatever the password. *)
Theorem overlapping_registrations_share_a_name (s : Server.t Amount)
  (body1 body2 : InsertUser.t) (random1 random2 : list byte) (now1 now2 : Z)
  (ok1 ok2 : bool) :
  serving scrypt s ->
  InsertUser.username body2 = InsertUser.username body1 ->
  eval (getUserByUsername (InsertUser.username body1)) (Server.store s)
  = None ->
  let name := InsertUser.username body1 in
  let first := Register body1 random1 now1 ok1 in
  let second := Register body2 random2 now2 ok2 in
  let h := length (Server.hashing s) in
  let s' :=
    take_turns scrypt [Arrives first; Arrives second; Hashed h; Hashed h] s in
  let st := Server.store s in
  let st' := Server.store s' in
  serving scrypt s' /\
  exists user1 user2,
    users st'
    = users st ++ [(userCurrentId st, user1); (userCurrentId st + 1, user2)%Z]
    /\ Server.hashing s' = Server.hashing s
    /\ User.username user1 = name /\ User.username user2 = name
    /\ User.id user1 = userCurrentId st
    /\ User.id user2 = (userCurrentId st + 1)%Z
    /\ User.password user2
       = hashPassword scrypt (InsertUser.password body2) random2
    /\ eval (getUser (User.id user2)) st' = Some user2
    /\ eval (getUserByUsername name) st' = Some user1
    /\ forall password,
         eval (verify scrypt name password) st' <> Accept user2.
Proof.
  intros Hserving Hname Hfree name first second h s' st st'.
  split; [now apply take_turns_serving |].
  destruct (serving_invariant s Hserving) as (Hreach & _).
  pose proof (reachable_ordered _ Hreach) as Hord. fold st in Hord.
  set (account1 := plain_account scrypt body1 random1).
  set (account2 := plain_account scrypt body2 random2).
  set (st1 := exec (createUser account1 now1) st).
  set (st2 := exec (createUser account2 now2) st1).
  assert (Hpass1 : passes_checks first st = true).
  { cbn [passes_checks first]. unfold register_checks, eval, bind.
    unfold eval in Hfree. fold st in Hfree.
    destruct (getUserByUsername (InsertUser.username body1) st) as [found st0].
    cbn [fst] in Hfree. now rewrite Hfree. }
  assert (Hpass2 : passes_checks second st = true).
  { cbn [passes_checks second]. unfold register_checks, eval, bind.
    rewrite Hname. unfold eval in Hfree. fold st in Hfree.
    destruct (getUserByUsername (InsertUser.username body1) st) as [found st0].
    cbn [fst] in Hfree. now rewrite Hfree. }
  assert (Hturns : s' = Server.mk st2 (Server.hashing s)).
  { unfold s'. cbn [take_turns take_turn hashes_password first second].
    fold st. rewrite Hpass1. cbn [Server.store Server.hashing].
    rewrite Hpass2. cbn [Server.store Server.hashing].
    rewrite <- app_assoc. cbn [app].
    unfold h.
    destruct (in_flight_last (Server.hashing s) first [second]) as [E1 E2].
    rewrite E1. cbn [Server.store Server.hashing]. rewrite E2.
    destruct (in_flight_last (Server.hashing s) second []) as [E3 E4].
    rewrite E3. cbn [Server.store Server.hashing]. rewrite E4.
    now rewrite app_nil_r. }
  assert (Hst' : st' = st2) by (unfold st'; now rewrite Hturns).
  clearbody st'. subst st'.
  pose proof (step_ordered_createUser account1 now1 st Hord) as Hord1.
  fold st1 in Hord1.
  destruct (createUser_users account1 now1 st Hord)
    as (Husers1 & _ & _ & Hcounter1 & _).
  destruct (createUser_users account2 now2 st1 Hord1)
    as (Husers2 & _ & _ & _ & _ & _ & _ & Hsome2 & _).
  fold st1 in Husers1, Hcounter1. fold st2 in Husers2, Hsome2.
  rewrite Hcounter1 in Husers2, Hsome2.
  set (user1 := eval (createUser account1 now1) st) in *.
  set (user2 := eval (createUser account2 now2) st1) in *.
  assert (Hid2 : User.id user2 = (userCurrentId st + 1)%Z).
  { unfold user2, eval. rewrite createUser_run. cbv zeta.
    cbn [fst User.id]. exact Hcounter1. }
  assert (Hfound : eval (getUserByUsername name) st2 = Some user1).
  { unfold getUserByUsername, eval at 1, gets. cbn [fst].
    rewrite Husers2, Husers1, !values_app. cbn [JsMap.values map snd].
    apply find_app_found. apply find_snoc; [exact Hfree |].
    apply String.eqb_refl. }
  exists user1, user2.
  split; [rewrite Husers2, Husers1, <- app_assoc; reflexivity |].
  split; [now rewrite Hturns |].
  split; [reflexivity |]. split; [exact Hname |].
  split; [reflexivity |]. split; [exact Hid2 |].
  split; [reflexivity |].
  split.
  { unfold getUser, eval, gets. cbn [fst]. rewrite Hid2. exact Hsome2. }
  split; [exact Hfound |].
  intros password Haccept.
  unfold verify, eval at 1, bind in Haccept.
  unfold eval in Hfound.
  destruct (getUserByUsername name st2) as [found st0].
  cbn [fst] in Hfound. subst found.
  assert (Hne : user1 <> user2).
  { intros Heq. apply (f_equal User.id) in Heq. rewrite Hid2 in Heq.
    change (User.id user1) with (userCurrentId st) in Heq. lia. }
  destruct (comparePasswords scrypt password (User.password user1))
    as [[|]|]; cbn [ret fst] in Haccept; try discriminate.
  apply Hne.
  exact (f_equal (fun v => match v with Accept u => u | _ => user1 end)
           Haccept).
Qed.

End Accounts.

(** ** The profile of the session user *)

Lemma school_key st (id : Z) (school : School.t) :
  reachable st ->
  JsMap.get id (schools st) = Some school -> School.id school = id.
Proof.
  intros Hreach. pose proof (reachable_school_keys st Hreach) as Hkeys.
  clear -Hkeys.
  induction (schools st) as [|[k v] m IH]; cbn [JsMap.get]; [discriminate |].
  apply Forall_cons in Hkeys as [Hk Hm]. cbn [fst snd] in Hk.
  destruct (Z.eqb_spec k id) as [<- | _].
  - now intros [= <-].
  - now apply IH.
Qed.

(** X24. [GET /api/profile] answers a user of role [school] with the
    school of that user and its statistics, and a user of role [student]
    with the student of that user, the statistics of the student and the
    school of the student.  In a store the routes can produce that school
    is never missing, and it is the school whose id the student carries. *)
Theorem profile_spec (req_user : option User.t) st (status : Z)
  (body : Profile) :
  reachable st ->
  eval (profile Number req_user) st = Sent status body ->
  exists user,
    req_user = Some user /\
    match body with
    | SchoolProfile u school stats =>
        u = user /\ User.role user = "school"%string
        /\ eval (getSchoolByUserId (User.id user)) st = Some school
        /\ School.userId school = User.id user
        /\ stats = eval (getSchoolStats Number (School.id school)) st
    | StudentProfile u student school stats =>
        u = user /\ User.role user = "student"%string
        /\ eval (getStudentByUserId (User.id user)) st = Some student
        /\ Student.userId student = User.id user
        /\ (exists s, school = Some s
                      /\ School.id s = Student.schoolId student)
        /\ stats = eval (getStudentStats Number (Student.id student)) st
    end.
Proof.
  intros Hreach. unfold profile.
  destruct req_user as [user|]; [| discriminate].
  cbv zeta. intros Hbody. exists user. split; [reflexivity |]. revert Hbody.
  destruct (String.eqb_spec (User.role user) "school") as [Hrole | _].
  - unfold eval at 1, bind at 1, getSchoolByUserId at 1, gets at 1.
    destruct (List.find _ _) as [school|] eqn:Efind; [| discriminate].
    unfold bind at 1. change (getSchoolStats Number (School.id school) st)
      with (eval (getSchoolStats Number (School.id school)) st, st).
    cbn [fst ret]. intros [= <- <-].
    split; [reflexivity |]. split; [exact Hrole |].
    split; [unfold getSchoolByUserId, eval, gets; cbn [fst]; exact Efind |].
    split; [| reflexivity].
    apply find_some in Efind as [_ Hid]. now apply Z.eqb_eq.
  - destruct (String.eqb_spec (User.role user) "student") as [Hrole | _];
      [| discriminate].
    unfold eval at 1, bind at 1, getStudentByUserId at 1, gets at 1.
    destruct (List.find _ _) as [student|] eqn:Efind; [| discriminate].
    unfold bind at 1, getSchool at 1, gets at 1.
    unfold bind at 1. change (getStudentStats Number (Student.id student) st)
      with (eval (getStudentStats Number (Student.id student)) st, st).
    cbn [fst ret]. intros [= <- <-].
    split; [reflexivity |]. split; [exact Hrole |].
    split; [unfold getStudentByUserId, eval, gets; cbn [fst]; exact Efind |].
    apply find_some in Efind as [Hin Hid].
    split; [now apply Z.eqb_eq |]. split; [| reflexivity].
    destruct (reachable_invariant st Hreach) as (_ & (Hrefs & _) & _).
    rewrite List.Forall_forall in Hrefs. specialize (Hrefs student Hin).
    unfold JsMap.has in Hrefs.
    destruct (JsMap.get (Student.schoolId student) (schools st)) as [s|]
      eqn:Eget; [| discriminate].
    exists s. split; [reflexivity |]. now apply (school_key st).
Qed.

End Properties.

(** * Properties of the arithmetic in doubles *)

Section DoubleProperties.

Context {Amount : Type}.
Variable Number : Amount -> Double.double.

Implicit Types st : MemStorage Amount.
Implicit Types ds : list (Donation.t Amount).

Lemma value_val (x : Double.double) (v : Q) :
  Double.value x = Some v -> Double.val x = v.
Proof. unfold Double.val. now intros ->. Qed.

Lemma is_exactly_value (x : Double.double) (q : Q) :
  Double.is_exactly x q = true ->
  exists v, Double.value x = Some v /\ (v == q)%Q.
Proof.
  unfold Double.is_exactly. destruct (Double.value x) as [v|]; [| discriminate].
  intros H. exists v. split; [reflexivity | now apply Qeq_bool_iff].
Qed.

(** A sum without rounding is the sum of the rationals. *)
Lemma adds_exactly_from_sum (xs : list Double.double) (sum : Double.double) :
  Double.adds_exactly_from sum xs = true ->
  (Double.val (fold_left Double.add xs sum)
   == Double.val sum + Qsum (map Double.val xs))%Q
  /\ (xs <> [] -> exists v, Double.value (fold_left Double.add xs sum) = Some v).
Proof.
  revert sum. induction xs as [|x xs IH]; intros sum H; cbn [fold_left map].
  - split; [unfold Qsum; cbn; ring | now intros []].
  - cbn [Double.adds_exactly_from] in H. apply andb_prop in H as [Hx Hrest].
    destruct (IH _ Hrest) as [Hval Hfin].
    apply is_exactly_value in Hx as (v & Hv & Heq).
    split.
    + rewrite Hval, (value_val _ _ Hv), Heq.
      change (Qsum (Double.val x :: map Double.val xs))
        with (Double.val x + Qsum (map Double.val xs))%Q.
      ring.
    + intros _. destruct xs as [|y xs]; [now exists v |].
      apply Hfin. discriminate.
Qed.

Lemma fold_left_amounts_map ds (sum : Double.double) :
  fold_left (fun sum donation =>
               Double.add sum (Number (Donation.amount donation))) ds sum
  = fold_left Double.add (map (fun d => Number (Donation.amount d)) ds) sum.
Proof.
  revert sum. induction ds as [|d ds IH]; intros sum; [reflexivity |].
  cbn [fold_left map]. apply IH.
Qed.

Lemma reduce_amounts_exact ds :
  Double.adds_exactly Number ds = true ->
  exists v, Double.value (Double.reduce_amounts Number ds) = Some v
            /\ (v == sum_amounts (Double.amount_value Number) ds)%Q.
Proof.
  unfold Double.adds_exactly, Double.reduce_amounts. intros H.
  rewrite fold_left_amounts_map.
  destruct (adds_exactly_from_sum _ _ H) as [Hval Hfin].
  assert (Hsome : exists v,
             Double.value
               (fold_left Double.add
                  (map (fun d => Number (Donation.amount d)) ds) Double.zero)
             = Some v).
  { destruct ds as [|d ds]; [now exists 0%Q |]. apply Hfin. discriminate. }
  destruct Hsome as [v Hv]. exists v. split; [exact Hv |].
  rewrite <- (value_val _ _ Hv), Hval, sum_amounts_Qsum, map_map.
  change (Double.val Double.zero) with 0%Q. unfold Double.amount_value. ring.
Qed.

(** ** School totals against student totals *)

Lemma Double_getSchoolStats_eval st (schoolId : Z) :
  eval (Double.getSchoolStats Number schoolId) st
  = Double.SchoolStats.mk
      (Double.reduce_amounts Number (school_donations st schoolId))
      (length (school_donations st schoolId))
      (length (enrolled st schoolId)).
Proof.
  pose proof (school_donations_code st schoolId) as H.
  unfold Double.getSchoolStats, getStudentsBySchoolId, eval, bind, gets, ret
    in *.
  cbn [fst snd] in *. rewrite H. reflexivity.
Qed.

Lemma Double_getStudentStats_total st (studentId : Z) :
  Double.StudentStats.totalRaised
    (eval (Double.getStudentStats Number studentId) st)
  = Double.reduce_amounts Number
      (eval (getDonationsByStudentId studentId) st).
Proof. reflexivity. Qed.

(** C4. In a store the routes can produce, [totalDonations] of
    [getSchoolStats] is the sum over the students of the school of
    [totalDonations] of [getStudentStats].  [totalRaised] of the school is
    the sum of the doubles in the order of the store, [totalRaised] of a
    student the sum of that student's: when none of these additions is
    rounded, the total of the school is the sum of the totals of the
    students. *)
Theorem school_stats_consistent st (schoolId : Z) :
  reachable st ->
  let r := eval (Double.getSchoolStats Number schoolId) st in
  let per_student :=
    map (fun s => eval (Double.getStudentStats Number (Student.id s)) st)
      (enrolled st schoolId) in
  Double.SchoolStats.totalDonations r
  = list_sum (map Double.StudentStats.totalDonations per_student) /\
  (Double.adds_exactly Number (school_donations st schoolId) = true ->
   forallb
     (fun s =>
        Double.adds_exactly Number
          (eval (getDonationsByStudentId (Student.id s)) st))
     (enrolled st schoolId) = true ->
   exists total : Q,
     Double.value (Double.SchoolStats.totalRaised r) = Some total
     /\ (total
         == Qsum (map (fun stats =>
                         Double.val (Double.StudentStats.totalRaised stats))
                    per_student))%Q).
Proof.
  intros Hreach. apply reachable_invariant in Hreach.
  cbv zeta. rewrite Double_getSchoolStats_eval.
  cbn [Double.SchoolStats.totalDonations Double.SchoolStats.totalRaised].
  rewrite !map_map. split.
  - apply (school_count_by_student (Double.amount_value Number) st schoolId
             Hreach).
  - intros Hschool Hstudents.
    destruct (reduce_amounts_exact _ Hschool) as (total & Hvalue & Htotal).
    exists total. split; [exact Hvalue |].
    rewrite Htotal, <- reduce_amounts_sum.
    rewrite (school_total_by_student (Double.amount_value Number) st schoolId
               Hreach).
    apply Qsum_ext. intros s Hs.
    rewrite forallb_forall in Hstudents.
    destruct (reduce_amounts_exact _ (Hstudents s Hs)) as (v & Hv & Hsum).
    rewrite Double_getStudentStats_total.
    rewrite (value_val _ _ Hv), Hsum, <- reduce_amounts_sum.
    reflexivity.
Qed.

(** ** Goal progress *)

Lemma Double_getTopPerformingStudents_run st (schoolId : Z)
  (limit : option Z) :
  Double.getTopPerformingStudents Number schoolId limit st
  = (Array_slice0
       (Array_sort
          (fun a b =>
             Double.sign
               (Double.sub (Double.TopStudent.amountRaised b)
                  (Double.TopStudent.amountRaised a)))
          (map (fun student =>
                  let stats :=
                    eval (Double.getStudentStats Number (Student.id student))
                      st in
                  Double.TopStudent.mk student
                    (Double.StudentStats.totalRaised stats)
                    (Double.topGoalProgress student stats))
             (enrolled st schoolId)))
       (match limit with Some n => n | None => 10%Z end),
     st).
Proof.
  unfold Double.getTopPerformingStudents. unfold bind at 1.
  unfold getStudentsBySchoolId at 1, gets at 1.
  unfold bind at 1. rewrite Promise_all_map_pure by reflexivity.
  reflexivity.
Qed.

Lemma Double_top_entry_enrolled st (schoolId : Z) (limit : option Z)
  (e : Double.TopStudent.t) :
  In e (eval (Double.getTopPerformingStudents Number schoolId limit) st) ->
  exists student,
    In student (enrolled st schoolId)
    /\ e = let stats :=
             eval (Double.getStudentStats Number (Student.id student)) st in
           Double.TopStudent.mk student
             (Double.StudentStats.totalRaised stats)
             (Double.topGoalProgress student stats).
Proof.
  unfold eval at 1. rewrite Double_getTopPerformingStudents_run. cbn [fst].
  match goal with
  | |- In e (Array_slice0 ?l ?n) -> _ =>
      destruct (Array_slice0_firstn l n) as [k ->]
  end.
  intros H. apply In_firstn in H.
  apply (Permutation_in _ (Array_sort_perm _ _)) in H.
  apply in_map_iff in H as (student & <- & Hin).
  now exists student.
Qed.

Lemma Double_dashboardGoalProgress_cap (student : Student.t)
  (stats : Double.StudentStats.t) :
  Double.dashboardGoalProgress student stats
  = Double.Math_min 100 (Double.topGoalProgress student stats).
Proof.
  unfold Double.dashboardGoalProgress, Double.topGoalProgress.
  destruct (Double.personalGoal student) as [goal|]; [| reflexivity].
  now destruct (Double.truthy goal).
Qed.

Lemma Double_Math_round_spec (x : Double.double) :
  match Double.value x with
  | Some v => exists n, Double.Math_round x = Double.Int n /\ rounds_to v n
  | None =>
      Double.Math_round x
      = match x with
        | S754_infinity negative => Double.Infinity negative
        | _ => Double.NaN
        end
  end.
Proof.
  destruct x as [s | s | | s m e]; cbn [Double.value Double.Math_round];
    try reflexivity.
  - exists 0%Z. split; [reflexivity |].
    unfold rounds_to. change (inject_Z 0) with 0%Q. split; lra.
  - eexists. split; [reflexivity |]. apply Math_round_rounds.
Qed.

(** C5. An entry of [getTopPerformingStudents] is made from a student of
    the school; its [amountRaised] is the [totalRaised] of the student, and
    the percentage of the dashboards is the minimum of [100] and its
    [goalProgress].  [goalProgress] is [0] when the student has no personal
    goal or one that is falsy ([0] or [NaN]).  Otherwise it is [Math.round]
    of the double [p = (totalRaised / personalGoal) * 100], whatever its
    size: an integer [n] with [n - 1/2 <= p < n + 1/2] when [p] is finite,
    which is the integer nearest to [100 * totalRaised / personalGoal] when
    the quotient and the product were not rounded; and [Infinity] or [NaN]
    when [p] is. *)
Theorem goalProgress_in_ranking st (schoolId : Z) (limit : option Z)
  (e : Double.TopStudent.t) :
  In e (eval (Double.getTopPerformingStudents Number schoolId limit) st) ->
  let student := Double.TopStudent.student e in
  let stats := eval (Double.getStudentStats Number (Student.id student)) st in
  let raised := Double.StudentStats.totalRaised stats in
  In student (enrolled st schoolId) /\
  Double.TopStudent.amountRaised e = raised /\
  Double.dashboardGoalProgress student stats
  = Double.Math_min 100 (Double.TopStudent.goalProgress e) /\
  match Double.personalGoal student with
  | None => Double.TopStudent.goalProgress e = Double.Int 0
  | Some goal =>
      if Double.truthy goal then
        let p := Double.mul (Double.div raised goal) (Double.of_Z 100) in
        match Double.value p with
        | Some v =>
            exists n : Z,
              Double.TopStudent.goalProgress e = Double.Int n
              /\ rounds_to v n
              /\ (Double.is_exactly p
                    (100 * Double.val raised / Double.val goal) = true ->
                  rounds_to (100 * Double.val raised / Double.val goal) n)
        | None =>
            Double.TopStudent.goalProgress e
            = match p with
              | S754_infinity negative => Double.Infinity negative
              | _ => Double.NaN
              end
        end
      else Double.TopStudent.goalProgress e = Double.Int 0
  end.
Proof.
  intros Hin.
  destruct (Double_top_entry_enrolled st schoolId limit e Hin)
    as (student & Henrolled & ->).
  cbv zeta.
  cbn [Double.TopStudent.student Double.TopStudent.amountRaised
       Double.TopStudent.goalProgress].
  split; [exact Henrolled |]. split; [reflexivity |].
  split; [apply Double_dashboardGoalProgress_cap |].
  unfold Double.topGoalProgress.
  destruct (Double.personalGoal student) as [goal|]; [| reflexivity].
  destruct (Double.truthy goal); [| reflexivity].
  match goal with
  | |- match Double.value ?p with _ => _ end =>
      pose proof (Double_Math_round_spec p) as Hround;
      destruct (Double.value p) as [v|] eqn:Hv
  end.
  - destruct Hround as (n & Hn & Hrounds). exists n.
    split; [exact Hn |]. split; [exact Hrounds |].
    intros Hexact. apply is_exactly_value in Hexact as (v' & Hv' & Heq).
    rewrite Hv in Hv'. injection Hv' as <-.
    now apply (rounds_to_Qeq v).
  - exact Hround.
Qed.

End DoubleProperties.

(** * Instances on the sample stores *)

Lemma getTopPerformingStudents_ranking_witness :
  let result :=
    eval (getTopPerformingStudents Sample.Number 1 (Some 2%Z)) Sample.store in
  (Z.of_nat (length result) <= 2)%Z /\
  StronglySorted
    (fun a b => (TopStudent.amountRaised b <= TopStudent.amountRaised a)%Q)
    result /\
  forall v : number,
    prefix
      (map TopStudent.student
         (List.filter (fun e => Qeq_bool (TopStudent.amountRaised e) v) result))
      (List.filter (fun s => Qeq_bool (raised Sample.Number Sample.store s) v)
         (enrolled Sample.store 1)).
Proof.
  apply (getTopPerformingStudents_ranking Sample.Number Sample.store 1
           (Some 2%Z)).
  intros n Hn. injection Hn as <-. lia.
Defined.

(** With limit [-1] the slice drops the last of the three students and
    returns two entries. *)
Lemma getTopPerformingStudents_negative_limit :
  let result :=
    eval (getTopPerformingStudents Sample.Number 1 (Some (-1)%Z)) Sample.store in
  length result = 2%nat /\ ~ (Z.of_nat (length result) <= -1)%Z.
Proof. vm_compute. split; [reflexivity | intros H; apply H; reflexivity]. Qed.

(** The first sample store in doubles: the amounts 30, 50 and 40 add up
    without rounding. *)
Lemma school_stats_consistent_witness :
  let r := eval (Double.getSchoolStats Double.of_number 1) Sample.store in
  let per_student :=
    map (fun s =>
           eval (Double.getStudentStats Double.of_number (Student.id s))
             Sample.store)
      (enrolled Sample.store 1) in
  Double.SchoolStats.totalDonations r
  = list_sum (map Double.StudentStats.totalDonations per_student) /\
  exists total : Q,
    Double.value (Double.SchoolStats.totalRaised r) = Some total
    /\ (total
        == Qsum (map (fun stats =>
                        Double.val (Double.StudentStats.totalRaised stats))
                   per_student))%Q.
Proof.
  destruct (school_stats_consistent Double.of_number Sample.store 1)
    as [Hcount Htotal].
  - apply reachable_run; [apply reachable_constructor | vm_compute; reflexivity].
  - split; [exact Hcount |]. apply Htotal; vm_compute; reflexivity.
Defined.

(** C4 does not hold at this store.  The donations are 10.10 to the second
    student, then 20.20 and 30.30 to the first.  The school total is
    (10.10 + 20.20) + 30.30 = 60.599999999999994 in doubles; the student
    totals are 50.5 and 10.1, whose sum is 60.6 in doubles, in either
    order, and is not the school total in exact arithmetic either. *)
Theorem school_total_rounds_differently :
  let st := Sample.store_cents in
  let r := eval (Double.getSchoolStats Double.of_number 1) st in
  let per_student :=
    map (fun s =>
           Double.StudentStats.totalRaised
             (eval (Double.getStudentStats Double.of_number (Student.id s)) st))
      (enrolled st 1) in
  reachable st /\
  Double.SchoolStats.totalRaised r
  = Double.of_number (60599999999999994 # 10 ^ 15) /\
  per_student = [Double.of_number (505 # 10); Double.of_number (101 # 10)] /\
  fold_left Double.add per_student Double.zero = Double.of_number (606 # 10) /\
  Double.add (Double.of_number (101 # 10)) (Double.of_number (505 # 10))
  = Double.of_number (606 # 10) /\
  Double.of_number (606 # 10)
  <> Double.of_number (60599999999999994 # 10 ^ 15) /\
  ~ (Double.val (Double.SchoolStats.totalRaised r)
     == Qsum (map Double.val per_student))%Q.
Proof.
  split.
  { apply reachable_run; [apply reachable_constructor | vm_compute; reflexivity]. }
  repeat split; try (vm_compute; reflexivity).
  - vm_compute. discriminate.
  - vm_compute. discriminate.
Qed.

(** 150 raised for a goal of 100: the ranking reports 150, the dashboards
    100. *)
Lemma goalProgress_in_ranking_witness :
  let st := Sample.store_exceeded in
  let student := Student.mk 1 2 1 "A" "Doe" "5" (Some 100%Q) 1002 in
  let e :=
    Double.TopStudent.mk student (Double.of_number 150) (Double.Int 150) in
  let stats := eval (Double.getStudentStats Double.of_number 1) st in
  In e (eval (Double.getTopPerformingStudents Double.of_number 1 None) st) /\
  Double.TopStudent.amountRaised e = Double.StudentStats.totalRaised stats /\
  Double.dashboardGoalProgress student stats = Double.Int 100 /\
  exists n : Z,
    Double.TopStudent.goalProgress e = Double.Int n
    /\ rounds_to (100 * 150 / 100) n.
Proof.
  intros st student e stats.
  assert (Hin : In e (eval (Double.getTopPerformingStudents Double.of_number
                              1 None) st))
    by (vm_compute; left; reflexivity).
  pose proof (goalProgress_in_ranking Double.of_number st 1 None e Hin) as H.
  cbv zeta in H. destruct H as (_ & Hraised & Hcap & Hprogress).
  split; [exact Hin |]. split; [exact Hraised |].
  split; [exact Hcap |].
  change (Double.personalGoal (Double.TopStudent.student e))
    with (Some (Double.of_number 100)) in Hprogress.
  change (Double.truthy (Double.of_number 100)) with true in Hprogress.
  cbv iota in Hprogress.
  destruct (Double.value _) as [v|] eqn:Hv in Hprogress.
  - destruct Hprogress as (n & Hn & _ & Hexact). exists n.
    split; [exact Hn |].
    apply (rounds_to_Qeq
             (100 * Double.val (Double.of_number 150)
              / Double.val (Double.of_number 100))).
    + vm_compute. reflexivity.
    + apply Hexact. vm_compute. reflexivity.
  - vm_compute in Hv. discriminate Hv.
Defined.

(** C5 does not hold at these stores.  With 115 raised for a goal of 200
    the code rounds the double (115 / 200) * 100 = 57.49999999999999 and
    reports 57, where the integer nearest to 100 * 115 / 200 = 57.5 is 58.
    With a goal of 1e-320, which is truthy, the quotient overflows and
    [goalProgress] is [Infinity]. *)
Theorem goalProgress_rounds_the_double :
  (let st := Sample.store_half in
   reachable st /\
   exists e,
     eval (Double.getTopPerformingStudents Double.of_number 1 None) st = [e]
     /\ Student.personalGoal (Double.TopStudent.student e) = Some 200%Q
     /\ Double.TopStudent.amountRaised e = Double.of_number 115
     /\ Double.mul (Double.div (Double.of_number 115) (Double.of_number 200))
          (Double.of_Z 100)
        = Double.of_number (5749999999999999 # 10 ^ 14)
     /\ Double.TopStudent.goalProgress e = Double.Int 57
     /\ rounds_to (100 * 115 / 200) 58) /\
  (let st := Sample.store_tiny_goal in
   reachable st /\
   exists e,
     eval (Double.getTopPerformingStudents Double.of_number 1 None) st = [e]
     /\ Student.personalGoal (Double.TopStudent.student e)
        = Some (1 # 10 ^ 320)%Q
     /\ Double.TopStudent.amountRaised e = Double.of_number 29
     /\ Double.TopStudent.goalProgress e = Double.Infinity false).
Proof.
  split.
  - split.
    { apply reachable_run; [apply reachable_constructor | vm_compute; reflexivity]. }
    eexists. split; [vm_compute; reflexivity |].
    repeat split; try (vm_compute; reflexivity).
    vm_compute. discriminate.
  - split.
    { apply reachable_run; [apply reachable_constructor | vm_compute; reflexivity]. }
    eexists. split; [vm_compute; reflexivity |].
    repeat split; vm_compute; reflexivity.
Qed.

Lemma stats_of_unknown_school_witness :
  eval (getSchoolStats Sample.Number 99) Sample.store = SchoolStats.mk 0%Q 0 0
  /\ eval (getTopPerformingStudents Sample.Number 99 None) Sample.store = [].
Proof.
  destruct (stats_of_unknown_school Sample.Number Sample.store 99 None)
    as (Hstats & Htop & _).
  - apply reachable_run; [apply reachable_constructor | vm_compute; reflexivity].
  - left. vm_compute. reflexivity.
  - split; [exact Hstats | exact Htop].
Defined.

Lemma updateEvent_spec_witness :
  exists (updated : Event) (st' : MemStorage number),
    updateEvent 1 {[ "title"%string := JString "Fun walk" ]} Sample.store
    = (Some updated, st')
    /\ updated !! "id"%string = Some (JNumber 1%Q)
    /\ updated !! "createdAt"%string = Some (JDate 1008)
    /\ updated !! "schoolId"%string = Some (JNumber 1%Q)
    /\ updated !! "title"%string = Some (JString "Fun walk").
Proof.
  pose proof (updateEvent_spec Sample.store 1
                {[ "title"%string := JString "Fun walk" ]}
                eq_refl eq_refl) as H.
  change (eval (getEvent 1) Sample.store)
    with (Some (<["createdAt"%string := JDate 1008]>
                  (<["id"%string := JNumber (inject_Z 1)]>
                     ({[ "schoolId"%string := JNumber 1%Q;
                         "title"%string := JString "Fun run" ]} : Event))))
    in H.
  destruct H as (updated & st' & Hrun & _ & Hid & Hcreated & Hkeep & Hput & _).
  exists updated, st'. split; [exact Hrun |].
  split; [rewrite Hid; reflexivity |].
  split; [rewrite Hcreated; reflexivity |].
  split; [rewrite Hkeep by reflexivity; reflexivity |].
  apply Hput. reflexivity.
Defined.

(** C10 does not hold for this patch.  The admin of the first school of
    the session sends [PUT /api/events/1] with the body [{ "id": 7 }].  The
    route hands the body to [updateEvent] as it is, the spread takes [id]
    from the patch, and the event stored under the key 1 has the id 7 from
    then on. *)
Theorem updateEvent_overwrites_id :
  let patch : Event := {[ "id"%string := JNumber 7%Q ]} in
  let st := Session.store in
  let reply := eval (putEvent (Some Session.hill_user) (Some 1%Z) patch) st in
  let st' := exec (putEvent (Some Session.hill_user) (Some 1%Z) patch) st in
  served Session.scrypt st /\
  option_map (fun e : Event => e !! "id"%string) (eval (getEvent 1) st)
  = Some (Some (JNumber 1%Q)) /\
  match reply with
  | Sent status (Some updated) => Some (status, updated !! "id"%string)
  | _ => None
  end = Some (200%Z, Some (JNumber 7%Q)) /\
  option_map (fun e : Event => e !! "id"%string) (eval (getEvent 1) st')
  = Some (Some (JNumber 7%Q)) /\
  option_map (fun e : Event => e !! "id"%string)
    (eval (updateEvent 1 patch) st)
  = Some (Some (JNumber 7%Q)).
Proof.
  split.
  { unfold Session.store. apply served_serve_all. constructor.
    unfold Session.registered. apply served_serve_all. constructor. }
  repeat split; vm_compute; reflexivity.
Qed.

(** C6 does not hold at this store.  The only student of the school
    has the grade label ["constructor"] and received 50.  The school total
    is positive, but the loop creates no group for a label that names a
    member of [Object.prototype]: the dashboard of that student reports no
    class ranking at all, and the percentages sum to 0 instead of 100. *)
Theorem classRankings_prototype_grade :
  let st := Sample.store_prototype_grade in
  reachable st /\
  exists body,
    eval (studentDashboard Sample.Number (Some Sample.user_a) 2000) st
    = Json body
    /\ (SchoolStats.totalRaised (sd_schoolStats body) == 50)%Q
    /\ sd_classRankings body = []
    /\ Qsum (map ClassRanking.percentage (sd_classRankings body)) = 0%Q.
Proof.
  split.
  - apply reachable_run; [apply reachable_constructor | vm_compute; reflexivity].
  - eexists. split; [vm_compute; reflexivity |].
    cbn [sd_schoolStats sd_classRankings SchoolStats.totalRaised].
    repeat split.
Qed.

(** The class rankings of the first sample store: grades "5" (70 raised)
    and "6" (50 raised) of a school total of 120. *)
Example classRankings_sample :
  map (fun r => (ClassRanking.grade r, ClassRanking.percentage r))
    (eval (classRankings Sample.Number (enrolled Sample.store 1)
             (eval (getSchoolStats Sample.Number 1) Sample.store))
       Sample.store)
  = [("5"%string, 58%Q); ("6"%string, 42%Q)].
Proof. vm_compute. reflexivity. Qed.

Example classRankings_spec_sample :
  let schoolStats := eval (getSchoolStats Sample.Number 1) Sample.store in
  let rankings :=
    eval (classRankings Sample.Number (enrolled Sample.store 1) schoolStats)
      Sample.store in
  (Qabs (Qsum (map ClassRanking.percentage rankings) - 100)
   <= inject_Z (Z.of_nat (length rankings)) * (1 # 2))%Q.
Proof.
  assert (Hreach : reachable Sample.store)
    by (apply reachable_run;
        [apply reachable_constructor | vm_compute; reflexivity]).
  assert (Hgrades : Forall
                      (fun s => JsObject.inherited (Student.grade s) = false)
                      (enrolled Sample.store 1))
    by (vm_compute; repeat constructor).
  destruct (classRankings_spec Sample.Number Sample.store 1 Hreach Hgrades)
    as (_ & _ & Hsum & _).
  apply Hsum. vm_compute. reflexivity.
Qed.

(** ** Instances for the operations of the store *)

Lemma enumeration_in_id_order_witness :
  StronglySorted (fun a b => (Student.id a < Student.id b)%Z)
    (eval (getStudentsBySchoolId 1) Sample.store)
  /\ Forall (fun d => (0 < Donation.id d < donationCurrentId Sample.store)%Z)
       (eval (getDonationsByStudentId 1) Sample.store).
Proof.
  destruct (enumeration_in_id_order Sample.store 1)
    as (_ & Hstudents & _ & _ & _ & Hdonations).
  - apply reachable_run; [apply reachable_constructor | vm_compute; reflexivity].
  - split; [exact Hstudents | exact Hdonations].
Defined.

Lemma create_appends_witness :
  let d : InsertDonation.t number := InsertDonation.mk 2 25%Q in
  eval (getDonationsByStudentId 2) (exec (createDonation d 1010) Sample.store)
  = eval (getDonationsByStudentId 2) Sample.store
    ++ [eval (createDonation d 1010) Sample.store].
Proof.
  destruct (create_appends Sample.store 1010) as (_ & _ & _ & Hdonation).
  - apply reachable_run; [apply reachable_constructor | vm_compute; reflexivity].
  - destruct (Hdonation (InsertDonation.mk 2 25%Q)) as (_ & _ & _ & Happend).
    exact (Happend 2%Z).
Defined.

Lemma deleteEvent_spec_witness :
  let st' := exec (deleteEvent 1) Sample.store in
  eval (deleteEvent 1) Sample.store = true
  /\ eval (getEvent 1) st' = None
  /\ (forall j, j <> 1%Z -> eval (getEvent j) st' = eval (getEvent j) Sample.store)
  /\ deleteEvent 1 st' = (false, st')
  /\ same_except_events Sample.store st'.
Proof.
  assert (Hreach : reachable Sample.store)
    by (apply reachable_run;
        [apply reachable_constructor | vm_compute; reflexivity]).
  exact (deleteEvent_spec Sample.store 1 Hreach).
Defined.

Lemma createDonation_stats_witness :
  let d : InsertDonation.t number := InsertDonation.mk 1 10%Q in
  let st' := exec (createDonation d 1010) Sample.store in
  StudentStats.totalRaised (eval (getStudentStats Sample.Number 1) st')
  = (StudentStats.totalRaised
       (eval (getStudentStats Sample.Number 1) Sample.store)
     + Sample.Number 10)%Q
  /\ eval (getStudentStats Sample.Number 2) st'
     = eval (getStudentStats Sample.Number 2) Sample.store.
Proof.
  destruct (createDonation_stats Sample.Number Sample.store
              (InsertDonation.mk 1 10%Q) 1010)
    as (Htotal & _ & _ & _ & Hothers & _).
  - apply reachable_run; [apply reachable_constructor | vm_compute; reflexivity].
  - split; [exact Htotal |]. apply Hothers. discriminate.
Defined.

Lemma createStudent_stats_witness :
  let s := Sample.pupil 5 "D" "6" None in
  let st' := exec (createStudent s 1010) Sample.store in
  eval (getStudentStats Sample.Number
          (Student.id (eval (createStudent s 1010) Sample.store))) st'
  = StudentStats.mk 0%Q 0 0%Q 0%Q
  /\ SchoolStats.activeStudents (eval (getSchoolStats Sample.Number 1) st')
     = 4%nat.
Proof.
  destruct (createStudent_stats Sample.Number Sample.store
              (Sample.pupil 5 "D" "6" None) 1010)
    as (_ & Hzero & _ & Hschool).
  - apply reachable_run; [apply reachable_constructor | vm_compute; reflexivity].
  - split; [exact Hzero |]. cbv zeta in Hschool. rewrite (Hschool 1%Z).
    vm_compute. reflexivity.
Defined.

Lemma getDonationsBySchoolId_spec_witness :
  SchoolStats.totalDonations (eval (getSchoolStats Sample.Number 1) Sample.store)
  = length (eval (getDonationsBySchoolId 1) Sample.store)
  /\ exec (getDonationsBySchoolId 1) Sample.store = Sample.store.
Proof.
  destruct (getDonationsBySchoolId_spec Sample.Number Sample.store 1)
    as (Hsame & Hcount & _).
  - apply reachable_run; [apply reachable_constructor | vm_compute; reflexivity].
  - split; [exact Hcount | exact Hsame].
Defined.

(** ** Instances for the routes that read *)

(** Two days and a millisecond after the school was created, 28 days
    remain. *)
Lemma dashboard_daysRemaining_witness :
  exists body,
    eval (studentDashboard Sample.Number (Some Sample.user_a) 172801002)
      Sample.store = Json body
    /\ sd_daysRemaining body = 28%Z.
Proof.
  destruct (eval (studentDashboard Sample.Number (Some Sample.user_a)
                    172801002) Sample.store)
    as [message | message | body] eqn:Hbody;
    [vm_compute in Hbody; discriminate | vm_compute in Hbody; discriminate |].
  destruct (dashboard_daysRemaining Sample.Number (Some Sample.user_a)
              172801002 Sample.store body Hbody) as (Hdays & _).
  exists body. split; [reflexivity |]. rewrite Hdays.
  vm_compute in Hbody. injection Hbody as <-. vm_compute. reflexivity.
Defined.

Lemma dashboard_recentDonations_witness :
  exists body,
    eval (studentDashboard Sample.Number (Some Sample.user_a) 2000)
      Sample.store = Json body
    /\ map Donation.createdAt (sd_recentDonations body) = [1007; 1005]%Z
    /\ StronglySorted
         (fun a b => (Donation.createdAt b <= Donation.createdAt a)%Z)
         (sd_recentDonations body).
Proof.
  destruct (eval (studentDashboard Sample.Number (Some Sample.user_a) 2000)
              Sample.store)
    as [message | message | body] eqn:Hbody;
    [vm_compute in Hbody; discriminate | vm_compute in Hbody; discriminate |].
  destruct (dashboard_recentDonations Sample.Number (Some Sample.user_a) 2000
              Sample.store body Hbody) as (_ & Hsorted & _).
  exists body. split; [reflexivity |]. split; [| exact Hsorted].
  vm_compute in Hbody. injection Hbody as <-. vm_compute. reflexivity.
Defined.

Lemma schoolDashboard_spec_witness :
  let admin := User.mk 1 "hill" "office@hill.example" "scrypt" "school" 1000 in
  exists body,
    eval (schoolDashboard Sample.Number (Some admin)) Sample.store
    = Sent 200 body
    /\ length (sb_recentDonations body)
       = Nat.min 5
           (length
              (eval (getDonationsBySchoolId (School.id (sb_school body)))
                 Sample.store))
    /\ map (fun r => Donation.createdAt (RecentDonation.donation r))
         (sb_recentDonations body) = [1007; 1006; 1005]%Z.
Proof.
  cbv zeta.
  assert (Hreach : reachable Sample.store)
    by (apply reachable_run;
        [apply reachable_constructor | vm_compute; reflexivity]).
  destruct (eval (schoolDashboard Sample.Number
                    (Some (User.mk 1 "hill" "office@hill.example" "scrypt"
                             "school" 1000))) Sample.store)
    as [status body | status message] eqn:Hbody;
    [| vm_compute in Hbody; discriminate].
  destruct (schoolDashboard_spec Sample.Number _ Sample.store status body
              Hreach Hbody) as (_ & _ & Hlength & _).
  vm_compute in Hbody. injection Hbody as <- <-.
  eexists. split; [reflexivity |]. split; [exact Hlength |].
  vm_compute. reflexivity.
Defined.

Lemma schoolStudentsRoute_spec_witness :
  let admin := User.mk 1 "hill" "office@hill.example" "scrypt" "school" 1000 in
  exists body,
    eval (schoolStudentsRoute Sample.Number (Some admin) (Some 1%Z))
      Sample.store = Sent 200 body
    /\ map (fun e => Student.firstName (StudentWithStats.student e)) body
       = ["A"; "B"; "C"]%string
    /\ StronglySorted
         (fun a b =>
            (StudentStats.totalRaised (StudentWithStats.stats b)
             <= StudentStats.totalRaised (StudentWithStats.stats a))%Q) body.
Proof.
  cbv zeta.
  destruct (eval (schoolStudentsRoute Sample.Number
                    (Some (User.mk 1 "hill" "office@hill.example" "scrypt"
                             "school" 1000)) (Some 1%Z)) Sample.store)
    as [status body | status message] eqn:Hbody;
    [| vm_compute in Hbody; discriminate].
  destruct (schoolStudentsRoute_spec Sample.Number _ _ Sample.store status body
              Hbody)
    as (user & reqSchool & _ & _ & _ & _ & _ & Hsorted & _).
  vm_compute in Hbody. injection Hbody as <- <-.
  eexists. split; [reflexivity |]. split; [| exact Hsorted].
  vm_compute. reflexivity.
Defined.

Lemma studentDonationsRoute_spec_witness :
  exists body,
    eval (studentDonationsRoute (Some Sample.user_a) (Some 1%Z)) Sample.store
    = Sent 200 body
    /\ map Donation.id body = [3; 1]%Z
    /\ forall d, In d body -> Donation.studentId d = 1%Z.
Proof.
  destruct (eval (studentDonationsRoute (Some Sample.user_a) (Some 1%Z))
              Sample.store)
    as [status body | status message] eqn:Hbody;
    [| vm_compute in Hbody; discriminate].
  destruct (studentDonationsRoute_spec _ _ Sample.store status body Hbody)
    as (user & id & student & _ & Hid & _ & _ & _ & Hown & _).
  injection Hid as <-.
  vm_compute in Hbody. injection Hbody as <- <-.
  eexists. split; [reflexivity |]. split; [| exact Hown].
  vm_compute. reflexivity.
Defined.

(** Of the two events of the first school one has a date that cannot be
    read: the page shows the other. *)
Lemma schoolPage_spec_witness :
  exists status body,
    eval (schoolPage Sample.Number Session.Date_parse (Some 1%Z)
            1800000000000) Session.store = Sent status body
    /\ length (sp_upcomingEvents body) = 1%nat
    /\ (sp_goalProgress body <= 100)%Q.
Proof.
  destruct (eval (schoolPage Sample.Number Session.Date_parse (Some 1%Z)
                    1800000000000) Session.store)
    as [status body | status message] eqn:Hbody.
  - destruct (schoolPage_spec Sample.Number Session.Date_parse _ _
                Session.store status body Hbody)
      as ((id & Hid & Hschool) & Hgoal & _ & Hlength & _).
    injection Hid as <-.
    assert (Hkey : option_map School.id (eval (getSchool 1) Session.store)
                   = Some 1%Z) by (vm_compute; reflexivity).
    rewrite Hschool in Hkey. cbn [option_map] in Hkey.
    injection Hkey as Hkey.
    exists status, body. split; [reflexivity |]. split; [| exact Hgoal].
    rewrite Hlength, Hkey. vm_compute. reflexivity.
  - exfalso.
    assert (Hsent : match eval (schoolPage Sample.Number Session.Date_parse
                                  (Some 1%Z) 1800000000000) Session.store
                    with Sent _ _ => true | Refused _ _ => false end = true)
      by (vm_compute; reflexivity).
    rewrite Hbody in Hsent. discriminate.
Defined.

Lemma profile_spec_witness :
  exists student school stats,
    eval (profile Sample.Number (Some Sample.user_a)) Sample.store
    = Sent 200 (StudentProfile Sample.user_a student (Some school) stats)
    /\ School.id school = Student.schoolId student
    /\ Student.userId student = User.id Sample.user_a.
Proof.
  assert (Hreach : reachable Sample.store)
    by (apply reachable_run;
        [apply reachable_constructor | vm_compute; reflexivity]).
  destruct (eval (profile Sample.Number (Some Sample.user_a)) Sample.store)
    as [status body | status message] eqn:Hbody;
    [| vm_compute in Hbody; discriminate].
  generalize (profile_spec Sample.Number _ Sample.store status body Hreach
                Hbody).
  vm_compute in Hbody. injection Hbody as <- <-.
  intros (user & Huser & Hu & _ & _ & Howner & (s & Hs & Hid) & _).
  injection Huser as <-. injection Hs as <-.
  do 3 eexists. split; [reflexivity |]. split; [exact Hid | exact Howner].
Defined.

(** ** Instances for the routes that write *)

Lemma postDonation_spec_witness :
  let data : InsertDonation.t number + string :=
    inl (InsertDonation.mk 1 10%Q) in
  exists donation,
    eval (postDonation data 1010) Sample.store = Sent 201 donation
    /\ reachable (exec (postDonation data 1010) Sample.store)
    /\ eval (getDonationsByStudentId 1)
         (exec (postDonation data 1010) Sample.store)
       = eval (getDonationsByStudentId 1) Sample.store ++ [donation].
Proof.
  cbv zeta.
  assert (Hreach : reachable Sample.store)
    by (apply reachable_run;
        [apply reachable_constructor | vm_compute; reflexivity]).
  generalize (postDonation_spec (inl (InsertDonation.mk 1 10%Q)) 1010
                Sample.store Hreach).
  cbv zeta.
  destruct (eval (postDonation (inl (InsertDonation.mk 1 10%Q)) 1010)
              Sample.store)
    as [status donation | status message] eqn:Hreply;
    [| vm_compute in Hreply; discriminate].
  intros (-> & data & student & Hdata & Hstudent & _ & Hreach' & _ & _
          & Happend).
  injection Hdata as <-. vm_compute in Hstudent. injection Hstudent as <-.
  exists donation. split; [reflexivity |]. split; [exact Hreach' |].
  exact Happend.
Defined.

(** The admin of the second school changes an event of that school: an
    event of the first school reads as before. *)
Lemma foreign_events_untouched_witness :
  let patch : Event := {[ "title"%string := JString "Quiz night" ]} in
  let st' :=
    exec (putEvent (Some Session.vale_user) (Some 3%Z) patch) Session.store in
  eval (getEvent 1) st' = eval (getEvent 1) Session.store.
Proof.
  assert (Hschool : option_map (fun e : Event => e !! "schoolId"%string)
                      (eval (getEvent 1) Session.store)
                    = Some (Some (JNumber 1%Q)))
    by (vm_compute; reflexivity).
  destruct (eval (getEvent 1) Session.store) as [e|] eqn:Hevent;
    [| discriminate Hschool].
  cbn [option_map] in Hschool. injection Hschool as Hschool.
  destruct (foreign_events_untouched (Some Session.vale_user) (Some 3%Z)
              {[ "title"%string := JString "Quiz night" ]} Session.store 1 e
              Hevent) as [Hput _].
  - intros user reqSchool Huser Hown. injection Huser as <-.
    vm_compute in Hown. injection Hown as <-.
    rewrite Hschool. vm_compute. reflexivity.
  - exact Hput.
Defined.

(** The body asks for school 7: the event is stored for the school of the
    path, which is the school of the user. *)
Lemma postEvent_spec_witness :
  let admin := User.mk 1 "hill" "office@hill.example" "scrypt" "school" 1000 in
  let body : Event :=
    {[ "title"%string := JString "Bake sale";
       "schoolId"%string := JNumber 7%Q ]} in
  let st' := exec (postEvent (Some admin) (Some 1%Z) body 1010) Sample.store in
  exists event,
    eval (postEvent (Some admin) (Some 1%Z) body 1010) Sample.store
    = Sent 201 event
    /\ event !! "schoolId"%string = Some (JNumber (inject_Z 1))
    /\ event !! "title"%string = Some (JString "Bake sale")
    /\ eval (getEvent 2) st' = Some event.
Proof.
  assert (Hreach : reachable Sample.store)
    by (apply reachable_run;
        [apply reachable_constructor | vm_compute; reflexivity]).
  generalize (postEvent_spec
                (Some (User.mk 1 "hill" "office@hill.example" "scrypt"
                         "school" 1000)) (Some 1%Z)
                {[ "title"%string := JString "Bake sale";
                   "schoolId"%string := JNumber 7%Q ]} 1010 Sample.store
                Hreach).
  destruct (eval (postEvent
                    (Some (User.mk 1 "hill" "office@hill.example" "scrypt"
                             "school" 1000)) (Some 1%Z)
                    {[ "title"%string := JString "Bake sale";
                       "schoolId"%string := JNumber 7%Q ]} 1010) Sample.store)
    as [status event | status message] eqn:Hreply.
  - intros (-> & user & reqSchool & Huser & _ & Hschool & _ & Hid & _ & _
            & Hrest & _ & Hstored & _).
    injection Huser as <-. vm_compute in Hschool. injection Hschool as <-.
    exists event. split; [exact Hreply |]. split; [exact Hid |].
    split; [| exact Hstored].
    rewrite Hrest by discriminate. reflexivity.
  - intros _. exfalso.
    assert (Hsent : match eval (postEvent
                    (Some (User.mk 1 "hill" "office@hill.example" "scrypt"
                             "school" 1000)) (Some 1%Z)
                    {[ "title"%string := JString "Bake sale";
                       "schoolId"%string := JNumber 7%Q ]} 1010) Sample.store
                    with Sent _ _ => true | Refused _ _ => false end = true)
      by (vm_compute; reflexivity).
    rewrite Hreply in Hsent. discriminate.
Defined.

(** ** Instances for the accounts *)

Lemma served_reachable_witness : reachable Session.store.
Proof.
  destruct (served_reachable Session.scrypt Session.store) as [Hreach _].
  - apply served_serve_all, served_request, served_serve_all, served_start.
  - exact Hreach.
Defined.

(** After the two registrations of one name, the accounts are owned and the
    second school is found by the id of its user. *)
Lemma serving_accounts_owned_witness :
  let st := Server.store Session.after_twins in
  accounts_owned st
  /\ eval (getSchoolByUserId 2) st = eval (getSchool 2) st.
Proof.
  intros st.
  destruct (serving_accounts_owned Session.scrypt Session.after_twins)
    as (_ & Howned & Hschools & _).
  - apply take_turns_serving, served_serving.
    apply served_serve_all, served_request, served_serve_all, served_start.
  - split; [exact Howned |].
    destruct (eval (getSchool 2) st) as [school|] eqn:Hschool;
      [| vm_compute in Hschool; discriminate].
    assert (Hin : In school (JsMap.values (schools st))).
    { vm_compute in Hschool. injection Hschool as <-.
      vm_compute. right. left. reflexivity. }
    rewrite <- (Hschools school Hin). f_equal.
    vm_compute in Hschool. injection Hschool as <-. reflexivity.
Defined.

(** The student registered in the session logs in after the requests that
    follow. *)
Lemma registered_user_logs_in_witness :
  let s1 := take_turn Session.scrypt (Hashed 0) Session.a_in_flight in
  exists user,
    eval (verify Session.scrypt "a" "pw-a")
      (Server.store
         (take_turns Session.scrypt (map Arrives Session.later) s1))
    = Accept user
    /\ User.id user = 3%Z.
Proof.
  destruct (registered_user_logs_in Session.scrypt Session.a_in_flight 0
              Session.enrolment (map Arrives Session.later) "a" "pw-a")
    as (user & Haccept & _ & Hid & _).
  - apply serving_turn, served_serving, served_serve_all, served_start.
  - vm_compute. reflexivity.
  - reflexivity.
  - vm_compute. reflexivity.
  - exists user. split; [exact Haccept |].
    etransitivity; [exact Hid |]. vm_compute. reflexivity.
Defined.

(** The first registration of the session: the answer holds the new user
    and the new school, found again by the name and by the id of the
    user. *)
Lemma registerSchool_spec_witness :
  let st' :=
    Server.store (take_turn Session.scrypt (Hashed 0) Session.hill_in_flight) in
  exists user school,
    eval (registerSchool_writes Session.scrypt Session.hill_body Session.salt
            1000 true) (@constructor number) = Sent 201 (user, school)
    /\ User.role user = "school"%string
    /\ eval (getUserByUsername (User.username user)) st' = Some user
    /\ eval (getSchoolByUserId (User.id user)) st' = Some school.
Proof.
  intros st'.
  destruct (registerSchool_spec Session.scrypt Session.hill_body Session.salt
              1000 true Session.hill_in_flight 0) as (_ & _ & Hwrites).
  - apply serving_turn, serving_start.
  - destruct Hwrites as (user & school & Hreply & _ & _ & _ & Hrole & _ & _
                         & _ & _ & _ & Hname & _ & Hfound).
    + vm_compute. reflexivity.
    + exists user, school. split; [exact Hreply |]. split; [exact Hrole |].
      split; [exact Hname | exact Hfound].
Defined.

(** The registration of the student of the session. *)
Lemma registerStudent_spec_witness :
  exists user student,
    eval (registerStudent Session.scrypt Session.a_body Session.salt 1002 true)
      Session.registered = Sent 201 (user, student)
    /\ Student.schoolId student = 1%Z
    /\ eval (getStudentByUserId (User.id user))
         (exec (registerStudent Session.scrypt Session.a_body Session.salt
                  1002 true) Session.registered) = Some student.
Proof.
  generalize (registerStudent_spec Session.scrypt Session.a_body Session.salt
                1002 true Session.registered
                (served_serve_all Session.scrypt Session.registrations
                   constructor (served_start Session.scrypt))).
  cbv zeta.
  destruct (RegisterStudent.schoolId Session.a_body) as [schoolId|] eqn:Hid;
    [| vm_compute in Hid; discriminate].
  vm_compute in Hid. injection Hid as <-.
  destruct (eval (getSchool 1) Session.registered) eqn:Hschool;
    [| vm_compute in Hschool; discriminate].
  destruct (eval (getUserByUsername (RegisterStudent.username Session.a_body))
              Session.registered) eqn:Hname;
    [vm_compute in Hname; discriminate |].
  destruct (eval (getUserByEmail (RegisterStudent.email Session.a_body))
              Session.registered) eqn:Hemail;
    [vm_compute in Hemail; discriminate |].
  intros (user & student & Hreply & _ & _ & _ & _ & _ & _ & Hschoolid & _ & _
          & _ & Hfound & _).
  exists user, student. split; [exact Hreply |]. split; [exact Hschoolid |].
  exact Hfound.
Defined.

(** After the session, the name "twin" is registered twice: both users are
    stored, with the ids 4 and 5, and the name finds the user 4. *)
Lemma overlapping_registrations_share_a_name_witness :
  exists user1 user2,
    map fst (users (Server.store Session.after_twins)) = [1; 2; 3; 4; 5]%Z
    /\ User.id user1 = 4%Z /\ User.id user2 = 5%Z
    /\ User.username user1 = "twin"%string
    /\ User.username user2 = "twin"%string
    /\ eval (getUserByUsername "twin") (Server.store Session.after_twins)
       = Some user1
    /\ eval (verify Session.scrypt "twin" "pw-2")
         (Server.store Session.after_twins)
       <> Accept user2.
Proof.
  destruct (overlapping_registrations_share_a_name Session.scrypt
              (Server.mk Session.store []) Session.twin_first
              Session.twin_second Session.salt Session.salt 1009 1010 true
              true)
    as (_ & user1 & user2 & Husers & _ & Hname1 & Hname2 & Hid1 & Hid2 & _
        & _ & Hfound & Hverify).
  - apply served_serving.
    apply served_serve_all, served_request, served_serve_all, served_start.
  - reflexivity.
  - vm_compute. reflexivity.
  - exists user1, user2.
    split; [vm_compute; reflexivity |].
    split; [etransitivity; [exact Hid1 | vm_compute; reflexivity] |].
    split; [etransitivity; [exact Hid2 | vm_compute; reflexivity] |].
    split; [exact Hname1 |]. split; [exact Hname2 |].
    split; [exact Hfound |]. apply Hverify.
Defined.
